(** * Trade journal: the CSV normalizer and the trade store of [TradeViewer]

    A shallow embedding of the data-transformation core of the component
    [TradeViewer] (the CSV import of [parseCSV], the image map updated by
    [handleImageUpload] and [removeImage], and the debug P/L recalculation),
    followed by the properties the specification states about it.

    Modelling conventions.
    - A JavaScript number is a [num]: not-a-number, a signed infinity, or a
      finite value kept as an exact canonical rational.  Rounding to binary64,
      overflow and the sign of zero are not modelled; every concrete input
      used below is computed exactly by binary64 arithmetic as well.
    - A JavaScript string is a [string] holding its UTF-8 bytes.  Case
      mapping and white space are the ASCII ones.
    - What the host provides and the source only calls ([Date] parsing, the
      clock, number and date formatting) is a field of [Host].
    - A notification is kept as the last text shown; the timer that clears
      it is outside the model. *)

From Stdlib Require Import QArith Qcanon ZArith String Ascii List Lia Lqa.
From Stdlib Require Import DecimalString Qpower.
From stdpp Require Import gmap strings list sorting.

Local Open Scope string_scope.
Local Open Scope list_scope.
Local Open Scope Z_scope.

(** ** JavaScript numbers *)

Module Num.

Inductive num : Type :=
  | NaN : num
  | Inf (negative : bool) : num
  | Fin (q : Qc) : num.

Definition of_Z (z : Z) : num := Fin (Q2Qc (inject_Z z)).

Definition isNaN (x : num) : bool :=
  match x with NaN => true | _ => false end.

Definition Qc_ltb (p q : Qc) : bool := negb (Qle_bool q p).
Definition Qc_leb (p q : Qc) : bool := Qle_bool p q.
Definition Qc_is0 (q : Qc) : bool := Qeq_bool q 0.

(** Unary minus. *)
Definition neg (x : num) : num :=
  match x with
  | NaN => NaN
  | Inf s => Inf (negb s)
  | Fin q => Fin (- q)%Qc
  end.

(** [Math.abs]. *)
Definition abs (x : num) : num :=
  match x with
  | NaN => NaN
  | Inf _ => Inf false
  | Fin q => Fin (if Qc_ltb q 0 then - q else q)%Qc
  end.

(** Binary [-]. *)
Definition sub (x y : num) : num :=
  match x, y with
  | NaN, _ | _, NaN => NaN
  | Inf s, Inf t => if Bool.eqb s t then NaN else Inf s
  | Inf s, Fin _ => Inf s
  | Fin _, Inf t => Inf (negb t)
  | Fin p, Fin q => Fin (p - q)%Qc
  end.

(** Binary [*]. *)
Definition mul (x y : num) : num :=
  match x, y with
  | NaN, _ | _, NaN => NaN
  | Inf s, Inf t => Inf (xorb s t)
  | Inf s, Fin q | Fin q, Inf s =>
      if Qc_is0 q then NaN else Inf (xorb s (Qc_ltb q 0))
  | Fin p, Fin q => Fin (p * q)%Qc
  end.

(** [x < y]; every comparison with [NaN] is false. *)
Definition ltb (x y : num) : bool :=
  match x, y with
  | NaN, _ | _, NaN => false
  | Inf s, Inf t => s && negb t
  | Inf s, Fin _ => s
  | Fin _, Inf t => negb t
  | Fin p, Fin q => Qc_ltb p q
  end.

(** [x <= y]. *)
Definition leb (x y : num) : bool :=
  match x, y with
  | NaN, _ | _, NaN => false
  | Inf s, Inf t => s || negb t
  | Inf s, Fin _ => s
  | Fin _, Inf t => negb t
  | Fin p, Fin q => Qc_leb p q
  end.

(** [x > y] and [x >= y]. *)
Definition gtb (x y : num) : bool := ltb y x.
Definition geb (x y : num) : bool := leb y x.

(** Truthiness of a number: [0] and [NaN] are falsy. *)
Definition truthy (x : num) : bool :=
  match x with
  | NaN => false
  | Inf _ => true
  | Fin q => negb (Qc_is0 q)
  end.

End Num.

Export Num.

(** ** JavaScript strings *)

Module Str.

Definition chars (s : string) : list ascii := list_ascii_of_string s.
Definition of_chars (l : list ascii) : string := string_of_list_ascii l.

Definition code (c : ascii) : N := N_of_ascii c.

(** White space removed by [trim] and skipped by [parseFloat]: tab, line
    feed, vertical tab, form feed, carriage return and space. *)
Definition is_ws (c : ascii) : bool :=
  let n := code c in ((9 <=? n) && (n <=? 13) || (n =? 32))%N.

Definition is_digit (c : ascii) : bool :=
  let n := code c in ((48 <=? n) && (n <=? 57))%N.

Definition digit_val (c : ascii) : Z := Z.of_N (code c) - 48.

Definition lower_char (c : ascii) : ascii :=
  let n := code c in
  if ((65 <=? n) && (n <=? 90))%N then ascii_of_N (n + 32) else c.

Definition upper_char (c : ascii) : ascii :=
  let n := code c in
  if ((97 <=? n) && (n <=? 122))%N then ascii_of_N (n - 32) else c.

Definition toLowerCase (s : string) : string :=
  of_chars (map lower_char (chars s)).

Definition toUpperCase (s : string) : string :=
  of_chars (map upper_char (chars s)).

Fixpoint drop_ws (l : list ascii) : list ascii :=
  match l with
  | c :: l' => if is_ws c then drop_ws l' else l
  | [] => []
  end.

(** [s.trim()]. *)
Definition trim (s : string) : string :=
  of_chars (rev (drop_ws (rev (drop_ws (chars s))))).

(** [s.startsWith(p)]. *)
Definition startsWith (s p : string) : bool := String.prefix p s.

(** [s.endsWith(p)]. *)
Definition endsWith (s p : string) : bool :=
  String.prefix (of_chars (rev (chars p))) (of_chars (rev (chars s))).

(** [s.includes(p)]. *)
Fixpoint includes (s p : string) : bool :=
  String.prefix p s ||
  match s with
  | EmptyString => false
  | String _ s' => includes s' p
  end.

(** [s.substring(a, b)]: both positions are clamped to the length and
    swapped when they come in the wrong order. *)
Definition substring (s : string) (a b : nat) : string :=
  let a' := Nat.min a (String.length s) in
  let b' := Nat.min b (String.length s) in
  String.substring (Nat.min a' b') (Nat.max a' b' - Nat.min a' b') s.

(** [s.split(sep)] where the separator is one of the characters accepted by
    [is_sep]: the pieces between separators, always at least one piece. *)
Fixpoint split_chars (is_sep : ascii -> bool) (cur : list ascii)
    (l : list ascii) : list string :=
  match l with
  | [] => [of_chars (rev cur)]
  | c :: l' =>
      if is_sep c then of_chars (rev cur) :: split_chars is_sep [] l'
      else split_chars is_sep (c :: cur) l'
  end.

Definition split (is_sep : ascii -> bool) (s : string) : list string :=
  split_chars is_sep [] (chars s).

Definition is_newline (c : ascii) : bool := (code c =? 10)%N.
Definition is_comma_or_tab (c : ascii) : bool :=
  ((code c =? 44) || (code c =? 9))%N.

(** [s.replace(/[...]/g, '')]: every occurrence of one of the [tokens] is
    deleted.  A token is the UTF-8 encoding of one character of the class,
    so the pound and the euro sign are tokens of two and three bytes. *)
Fixpoint match_len (tokens : list string) (s : string) : option nat :=
  match tokens with
  | [] => None
  | t :: ts =>
      if String.prefix t s then Some (String.length t) else match_len ts s
  end.

Fixpoint delete_tokens (tokens : list string) (skip : nat) (s : string)
    : string :=
  match s with
  | EmptyString => EmptyString
  | String c s' =>
      match skip with
      | S k => delete_tokens tokens k s'
      | O =>
          match match_len tokens s with
          | Some (S k) => delete_tokens tokens k s'
          | _ => String c (delete_tokens tokens O s')
          end
      end
  end.

Definition currency_symbols : list string := ["$"; "£"; "€"].
Definition currency_symbols_and_comma : list string := ["$"; "£"; "€"; ","].

(** [s.replace(/[$£€]/g, '')] and [s.replace(/[$£€,]/g, '')]. *)
Definition strip_currency (s : string) : string :=
  delete_tokens currency_symbols O s.
Definition strip_currency_commas (s : string) : string :=
  delete_tokens currency_symbols_and_comma O s.

(** Decimal rendering of an integer, as a template literal prints it. *)
Definition of_Z (z : Z) : string := NilZero.string_of_int (Z.to_int z).

End Str.

(** ** [parseFloat] *)

Module ParseFloat.
Import Str.

Fixpoint span_digits (l : list ascii) : list ascii * list ascii :=
  match l with
  | c :: l' =>
      if is_digit c then
        let '(ds, rest) := span_digits l' in (c :: ds, rest)
      else ([], l)
  | [] => ([], [])
  end.

Definition digits_val (ds : list ascii) : Z :=
  fold_left (fun acc c => 10 * acc + digit_val c) ds 0.

(** An optional sign: [true] when it is a minus. *)
Definition take_sign (l : list ascii) : bool * list ascii :=
  match l with
  | c :: l' =>
      if (code c =? 45)%N then (true, l')
      else if (code c =? 43)%N then (false, l')
      else (false, l)
  | [] => (false, [])
  end.

(** The exponent part, when one is well formed; otherwise it is ignored. *)
Definition exponent (l : list ascii) : Z :=
  match l with
  | c :: l' =>
      if ((code c =? 101) || (code c =? 69))%N then
        let '(s, l'') := take_sign l' in
        let '(ds, _) := span_digits l'' in
        match ds with
        | [] => 0
        | _ => if s then - digits_val ds else digits_val ds
        end
      else 0
  | [] => 0
  end.

Definition pow10 (e : Z) : Q := Qpower (10 # 1) e.

(** The longest prefix that is a decimal literal, after white space. *)
Definition parseFloat (s : string) : num :=
  let '(sgn, l) := take_sign (drop_ws (chars s)) in
  if String.prefix "Infinity" (of_chars l) then Inf sgn
  else
    let '(ip, l1) := span_digits l in
    let '(fp, l2) :=
      match l1 with
      | c :: l1' =>
          if (code c =? 46)%N then span_digits l1' else ([], l1)
      | [] => ([], [])
      end in
    match (ip ++ fp)%list with
    | [] => NaN
    | ds =>
        let m := digits_val ds in
        let e := exponent l2 - Z.of_nat (length fp) in
        let q := Q2Qc (inject_Z m * pow10 e) in
        Fin (if sgn then - q else q)%Qc
    end.

End ParseFloat.

Export ParseFloat.

(** ** Plain objects used as dictionaries

    [columnMap] is a plain object filled by assignment.  What matters below
    is the order in which [Object.keys] lists it: the keys that are array
    indices come first, in ascending numeric order, and the other keys
    follow in the order of their creation.  Assigning to an existing key
    keeps its place, and assigning a number to [__proto__] creates no
    property at all. *)

Module JsObject.
Import Str.

Definition obj (V : Type) : Type := list (string * V).

Definition empty {V : Type} : obj V := [].

Fixpoint update {V : Type} (k : string) (v : V) (o : obj V) : obj V :=
  match o with
  | [] => [(k, v)]
  | (k', v') :: o' =>
      if String.eqb k k' then (k, v) :: o' else (k', v') :: update k v o'
  end.

(** [o[k] = v] for a primitive [v]. *)
Definition set {V : Type} (k : string) (v : V) (o : obj V) : obj V :=
  if String.eqb k "__proto__" then o else update k v o.

(** [o[k]]. *)
Fixpoint get {V : Type} (k : string) (o : obj V) : option V :=
  match o with
  | [] => None
  | (k', v) :: o' => if String.eqb k k' then Some v else get k o'
  end.

(** The array index a key denotes: a canonical decimal numeral (no sign, no
    leading zero) below [2^32 - 1]. *)
Definition array_index (k : string) : option Z :=
  match chars k with
  | [] => None
  | c :: cs =>
      if forallb is_digit (c :: cs)
         && implb (code c =? 48)%N (length cs =? 0)%nat
      then
        let n := ParseFloat.digits_val (c :: cs) in
        if (n <? 4294967295)%Z then Some n else None
      else None
  end.

Definition is_Some_b {A : Type} (o : option A) : bool :=
  match o with Some _ => true | None => false end.

Fixpoint insert_index (n : Z) (k : string) (l : list (Z * string))
    : list (Z * string) :=
  match l with
  | [] => [(n, k)]
  | (m, k') :: l' =>
      if (n <? m)%Z then (n, k) :: l else (m, k') :: insert_index n k l'
  end.

Definition index_keys {V : Type} (o : obj V) : list (Z * string) :=
  fold_right
    (fun kv acc =>
       match array_index (fst kv) with
       | Some n => insert_index n (fst kv) acc
       | None => acc
       end) [] o.

Definition name_keys {V : Type} (o : obj V) : list string :=
  List.filter (fun k => negb (is_Some_b (array_index k))) (map fst o).

(** [Object.keys(o)]. *)
Definition keys {V : Type} (o : obj V) : list string :=
  (map snd (index_keys o) ++ name_keys o)%list.

End JsObject.

(** [l.findIndex(p)]: the position of the first element accepted by [p],
    or [-1]. *)
Fixpoint findIndex {A : Type} (p : A -> bool) (l : list A) : Z :=
  match l with
  | [] => -1
  | x :: l' =>
      if p x then 0
      else let r := findIndex p l' in if (r <? 0)%Z then -1 else r + 1
  end.

(** ** The data model *)

Inductive TradeType : Type := Long | Short.

Definition TradeType_name (d : TradeType) : string :=
  match d with Long => "Long" | Short => "Short" end.

(** A trade as [parseCSV] builds it.  [entryTime] and [exitTime] are ISO
    strings in the source; an ISO string written by [toISOString] and the
    time value it is read back to by [new Date] determine each other, so
    the field holds the time value in milliseconds. *)
Record Trade : Type := mkTrade {
  id : Z;
  instrument : string;
  entryTime : Z;
  exitTime : Z;
  entryNY : string;
  exitNY : string;
  quantity : num;
  entryPrice : num;
  exitPrice : num;
  profitLoss : num;
  originalPnlString : string;
  shouldDisplayAsNegative : bool;
  tradeType : TradeType;
  isWinning : bool;
  description : string;
  exitReason : string;
  duration : string;
  durationMs : Z
}.

(** What the browser provides. *)
Record Host : Type := mkHost {
  (** [new Date(s).getTime()], [None] for an invalid date *)
  parseDate : string -> option Z;
  (** the clock read by [new Date()] while line [i] is processed *)
  now : nat -> Z;
  (** [toNYTime], a call of [toLocaleString] *)
  toNYTime : Z -> string;
  (** how a template literal prints a number *)
  numToString : num -> string
}.

(** $1 move equals this amount per lot. *)
Definition XAUUSD_MULTIPLIER : num := Num.of_Z 100.

(** One slot of an image array: [null], a data URL, [undefined], or a hole
    of a sparse array. *)
Inductive cell : Type :=
  | Null : cell
  | Image (data : string) : cell
  | Undefined : cell
  | Hole : cell.

(** The state of the component that the operations below read and write. *)
Record Store : Type := mkStore {
  tradeList : list Trade;
  selectedTrade : option Trade;
  tradeImages : gmap Z (list cell);
  notification : string
}.

(** ** The CSV normalizer: [parseCSV] *)

Module Normalizer.
Import Str.

(** *** Header resolution *)

Definition requiredColumns : list string :=
  ["symbol"; "buyprice"; "sellprice"; "qty";
   "boughttimestamp"; "soldtimestamp"; "pnl"].

(** [line.split(/,|\t/).map(f => f.trim())]. *)
Definition tokenize (line : string) : list string :=
  map trim (split is_comma_or_tab line).

(** [headers.forEach((header, index) => columnMap[header.toLowerCase()] = index)]. *)
Fixpoint fillColumnMap (headers : list string) (index : Z)
    (columnMap : JsObject.obj Z) : JsObject.obj Z :=
  match headers with
  | [] => columnMap
  | header :: rest =>
      fillColumnMap rest (index + 1)
        (JsObject.set (toLowerCase header) index columnMap)
  end.

Definition columnMapOf (headers : list string) : JsObject.obj Z :=
  fillColumnMap headers 0 JsObject.empty.

Definition missingColumns (columnMap : JsObject.obj Z) : list string :=
  List.filter
    (fun col =>
       negb (existsb (fun key => includes key (toLowerCase col))
               (JsObject.keys columnMap)))
    requiredColumns.

Definition getColumnIndex (columnMap : JsObject.obj Z) (baseName : string)
    : Z :=
  findIndex (fun key => includes key (toLowerCase baseName))
    (JsObject.keys columnMap).

Record Columns : Type := mkColumns {
  symbolCol : Z;
  buyPriceCol : Z;
  sellPriceCol : Z;
  qtyCol : Z;
  buyTimeCol : Z;
  sellTimeCol : Z;
  pnlCol : Z;
  durationCol : Z
}.

Definition resolveColumns (columnMap : JsObject.obj Z) : Columns :=
  {| symbolCol := getColumnIndex columnMap "symbol";
     buyPriceCol := getColumnIndex columnMap "buyprice";
     sellPriceCol := getColumnIndex columnMap "sellprice";
     qtyCol := getColumnIndex columnMap "qty";
     buyTimeCol := getColumnIndex columnMap "boughttimestamp";
     sellTimeCol := getColumnIndex columnMap "soldtimestamp";
     pnlCol := getColumnIndex columnMap "pnl";
     durationCol := getColumnIndex columnMap "duration" |}.

(** [Math.max] of the seven required indices. *)
Definition maxRequired (c : Columns) : Z :=
  Z.max (symbolCol c) (Z.max (buyPriceCol c) (Z.max (sellPriceCol c)
    (Z.max (qtyCol c) (Z.max (buyTimeCol c)
      (Z.max (sellTimeCol c) (pnlCol c)))))).

(** *** One row *)

(** [fields[c]]; [None] stands for [undefined].  In [parseCSV] the required
    fields of a line that is kept are never [undefined]
    ([HeaderFacts.required_fields_present]). *)
Definition field (fields : list string) (c : Z) : option string :=
  if (c <? 0)%Z then None else fields !! Z.to_nat c.

(** [parseFloat(fields[c])]; [parseFloat(undefined)] is [NaN]. *)
Definition floatField (fields : list string) (c : Z) : num :=
  match field fields c with
  | Some s => parseFloat s
  | None => NaN
  end.

(** [buyPrice > sellPrice ? -1 : 1] (lines 206 and 211). *)
Definition direction (buyPrice sellPrice : num) : Z :=
  if Num.gtb buyPrice sellPrice then -1 else 1.

(** The P/L recomputed from the prices (lines 206-207 and 211-212). *)
Definition fallbackPnl (buyPrice sellPrice quantity : num) : num :=
  Num.mul
    (Num.mul
       (Num.mul (Num.of_Z (direction buyPrice sellPrice))
          (Num.sub sellPrice buyPrice))
       quantity)
    XAUUSD_MULTIPLIER.

Record Pnl : Type := mkPnl {
  pnl : num;
  originalPnl : string;
  displayNegative : bool
}.

(** The four-way reading of the trimmed P/L text (lines 166-202). *)
Definition readPnl (pnlString : string) : Pnl :=
  if startsWith pnlString "$(" && endsWith pnlString ")" then
    let numericPart :=
      substring pnlString 2 (String.length pnlString - 1) in
    {| pnl := Num.neg (parseFloat numericPart);
       originalPnl := "-$" +:+ numericPart;
       displayNegative := true |}
  else if startsWith pnlString "(" && endsWith pnlString ")" then
    let valueWithoutParens :=
      substring pnlString 1 (String.length pnlString - 1) in
    let cleanPnlString := trim (strip_currency_commas valueWithoutParens) in
    {| pnl := Num.neg (Num.abs (parseFloat cleanPnlString));
       originalPnl := "-$" +:+ strip_currency valueWithoutParens;
       displayNegative := true |}
  else if startsWith pnlString "-" then
    let cleanPnlString := trim (strip_currency_commas pnlString) in
    {| pnl := parseFloat cleanPnlString;
       originalPnl := pnlString;
       displayNegative := true |}
  else
    let cleanPnlString := trim (strip_currency_commas pnlString) in
    {| pnl := parseFloat cleanPnlString;
       originalPnl := pnlString;
       displayNegative := false |}.

(** The whole [try]/[catch] of lines 157-213.  Calling [trim] on
    [undefined] is the only statement of the [try] that can throw; the
    [catch] then recomputes the P/L and the two other variables keep their
    initial values. *)
Definition parsePnl (fields : list string) (c : Columns)
    (buyPrice sellPrice quantity : num) : Pnl :=
  match field fields (pnlCol c) with
  | Some raw =>
      let r := readPnl (trim raw) in
      if Num.isNaN (pnl r) then
        {| pnl := fallbackPnl buyPrice sellPrice quantity;
           originalPnl := originalPnl r;
           displayNegative := displayNegative r |}
      else r
  | None =>
      {| pnl := fallbackPnl buyPrice sellPrice quantity;
         originalPnl := "";
         displayNegative := false |}
  end.

(** The elapsed time as text (lines 221-225). *)
Definition formatDuration (durationMs : Z) : string :=
  let durationMinutes := (durationMs / 60000)%Z in
  if (60 <=? durationMinutes)%Z then
    Str.of_Z (durationMinutes / 60) +:+ "h " +:+
    Str.of_Z (Z.rem durationMinutes 60) +:+ "m"
  else Str.of_Z durationMinutes +:+ "m".

Section Rows.
Context (H : Host).

(** [new Date(fields[c])]; [new Date(undefined)] is an invalid date. *)
Definition dateField (fields : list string) (c : Z) : option Z :=
  match field fields c with
  | Some s => parseDate H s
  | None => None
  end.

(** The timestamps of lines 138-150: both as parsed, or the clock and one
    hour later. *)
Definition timestamps (i : nat) (fields : list string) (c : Columns)
    : Z * Z :=
  match dateField fields (buyTimeCol c), dateField fields (sellTimeCol c) with
  | Some b, Some s => (b, s)
  | _, _ => let t := now H i in (t, (t + 3600000)%Z)
  end.

(** The trade pushed for the fields of line [i] (lines 132-250). *)
Definition buildTrade (i : nat) (fields : list string) (c : Columns)
    : Trade :=
  let symbol := default "" (field fields (symbolCol c)) in
  let buyPrice := floatField fields (buyPriceCol c) in
  let sellPrice := floatField fields (sellPriceCol c) in
  let quantity := floatField fields (qtyCol c) in
  let '(buyTimestamp, sellTimestamp) := timestamps i fields c in
  let p := parsePnl fields c buyPrice sellPrice quantity in
  let duration :=
    if (0 <=? durationCol c)%Z
       && (durationCol c <? Z.of_nat (length fields))%Z
    then default "" (field fields (durationCol c))
    else formatDuration (sellTimestamp - buyTimestamp) in
  let tradeDirection :=
    if Num.leb buyPrice sellPrice then Long else Short in
  {| id := Z.of_nat i;
     instrument := symbol;
     entryTime := buyTimestamp;
     exitTime := sellTimestamp;
     entryNY := toNYTime H buyTimestamp;
     exitNY := toNYTime H sellTimestamp;
     quantity := quantity;
     entryPrice := buyPrice;
     exitPrice := sellPrice;
     profitLoss := pnl p;
     originalPnlString := originalPnl p;
     shouldDisplayAsNegative := displayNegative p;
     tradeType := tradeDirection;
     isWinning := negb (displayNegative p);
     description :=
       TradeType_name tradeDirection +:+ " " +:+ numToString H quantity
       +:+ " " +:+ symbol +:+ " @ " +:+ numToString H buyPrice
       +:+ ", Exit @ " +:+ numToString H sellPrice;
     exitReason := "Market Exit";
     duration := duration;
     durationMs := (sellTimestamp - buyTimestamp)%Z |}.

(** One turn of the loop of lines 115-258: [None] when the line adds no
    trade (it is blank, or it has too few fields).  No statement of the
    body throws, so the [catch] of line 255 has no case here. *)
Definition parseRow (c : Columns) (i : nat) (line : string)
    : option Trade :=
  if String.eqb (trim line) "" then None
  else
    let fields := tokenize line in
    if (Z.of_nat (length fields) <? maxRequired c + 1)%Z then None
    else Some (buildTrade i fields c).

(** The loop: lines [i], [i+1], ... in order. *)
Fixpoint parseRows (c : Columns) (i : nat) (lines : list string)
    : list Trade :=
  match lines with
  | [] => []
  | line :: rest =>
      match parseRow c i line with
      | Some t => t :: parseRows c (S i) rest
      | None => parseRows c (S i) rest
      end
  end.

End Rows.

(** *** Sorting

    [trades.sort((a, b) => new Date(b.entryTime) - new Date(a.entryTime))].
    [Array.prototype.sort] is required to be stable, and a stable sort by a
    consistent comparator has one possible outcome; it is computed here by
    insertion. *)

Definition compareTrades (a b : Trade) : Z := (entryTime b - entryTime a)%Z.

Fixpoint insertTrade (x : Trade) (l : list Trade) : list Trade :=
  match l with
  | [] => [x]
  | y :: l' =>
      if (compareTrades x y <=? 0)%Z then x :: l else y :: insertTrade x l'
  end.

Definition sortTrades (l : list Trade) : list Trade :=
  fold_right insertTrade [] l.

(** *** The whole import *)

Inductive ParseError : Type :=
  | NoDataRows : ParseError
  | MissingColumns (names : list string) : ParseError
  | NoValidTrades : ParseError.

Fixpoint join (sep : string) (l : list string) : string :=
  match l with
  | [] => ""
  | [x] => x
  | x :: l' => x +:+ sep +:+ join sep l'
  end.

Definition message (e : ParseError) : string :=
  match e with
  | NoDataRows => "CSV has no data rows."
  | MissingColumns names =>
      "Missing required columns: " +:+ join ", " names
  | NoValidTrades => "No valid trades found in CSV"
  end.

(** The trades of the data lines, before they are sorted. *)
Definition surviving (H : Host) (text : string) : list Trade :=
  match split is_newline (trim text) with
  | [] => []
  | header :: rows =>
      parseRows H (resolveColumns (columnMapOf (tokenize header))) 1 rows
  end.

(** The body of the outer [try] of [reader.onload] (lines 58-265). *)
Definition normalize (H : Host) (text : string)
    : ParseError + list Trade :=
  let lines := split is_newline (trim text) in
  if (length lines <? 2)%nat then inl NoDataRows
  else
    match lines with
    | [] => inl NoDataRows
    | header :: rows =>
        let columnMap := columnMapOf (tokenize header) in
        match missingColumns columnMap with
        | (_ :: _) as missing => inl (MissingColumns missing)
        | [] =>
            let trades := parseRows H (resolveColumns columnMap) 1 rows in
            match trades with
            | [] => inl NoValidTrades
            | _ => inr (sortTrades trades)
            end
        end
    end.

(** [reader.onload]: the store after the file has been read. *)
Definition parseCSV (H : Host) (text : string) (st : Store) : Store :=
  match normalize H text with
  | inr trades =>
      {| tradeList := trades;
         selectedTrade := head trades;
         tradeImages := tradeImages st;
         notification :=
           "Imported " +:+ Str.of_Z (Z.of_nat (length trades))
           +:+ " trades from CSV" |}
  | inl e =>
      {| tradeList := tradeList st;
         selectedTrade := selectedTrade st;
         tradeImages := tradeImages st;
         notification := "Error: " +:+ message e |}
  end.

End Normalizer.

(** ** The trade store: images and the debug recalculation *)

Module TradeStore.
Import Str.

(** [[...a]]: spreading an array turns its holes into [undefined]. *)
Definition spread (a : list cell) : list cell :=
  map (fun c => match c with Hole => Undefined | _ => c end) a.

(** [a[i] = v]: inside the array the element is replaced, beyond its end the
    array grows and the positions in between are holes. *)
Definition assign (a : list cell) (i : nat) (v : cell) : list cell :=
  if (i <? length a)%nat then <[i := v]> a
  else (a ++ replicate (i - length a) Hole ++ [v])%list.

(** [a.every(img => img === null)]; holes are not visited. *)
Definition everyNull (a : list cell) : bool :=
  forallb (fun c => match c with Null | Hole => true | _ => false end) a.

(** The update of [tradeImages] in [handleImageUpload] (lines 340-348),
    for [uploadingFor = tradeId], [uploadSlot = slot] and
    [reader.result = data]. *)
Definition attachImage (tradeId : Z) (slot : nat) (data : string)
    (prev : gmap Z (list cell)) : gmap Z (list cell) :=
  let tradeImagesArray := default [Null; Null; Null] (prev !! tradeId) in
  let updatedImages := assign (spread tradeImagesArray) slot (Image data) in
  <[tradeId := updatedImages]> prev.

(** [handleImageUpload] as far as the image map goes: nothing is stored
    unless [uploadingFor] is truthy and [uploadSlot] is defined (line 311). *)
Definition handleImageUpload (uploadingFor : option Z)
    (uploadSlot : option nat) (data : string)
    (prev : gmap Z (list cell)) : gmap Z (list cell) :=
  match uploadingFor, uploadSlot with
  | Some tradeId, Some slot =>
      if (tradeId =? 0)%Z then prev else attachImage tradeId slot data prev
  | _, _ => prev
  end.

(** The update of [tradeImages] in [removeImage] (lines 383-400). *)
Definition removeImage (tradeId : Z) (slot : nat)
    (prev : gmap Z (list cell)) : gmap Z (list cell) :=
  match prev !! tradeId with
  | None => prev
  | Some a =>
      let updatedImages := assign (spread a) slot Null in
      if everyNull updatedImages then delete tradeId prev
      else <[tradeId := updatedImages]> prev
  end.

(** [trade.instrument.toUpperCase().includes('XAUUSD')]. *)
Definition isXAUUSD (t : Trade) : bool :=
  includes (toUpperCase (instrument t)) "XAUUSD".

(** The new P/L of lines 811-813. *)
Definition recalculatedPnl (multiplier : num) (t : Trade) : num :=
  let priceDiff := Num.sub (exitPrice t) (entryPrice t) in
  let mult :=
    match tradeType t with Long => Num.of_Z 1 | Short => Num.of_Z (-1) end in
  Num.mul (Num.mul (Num.mul priceDiff mult) multiplier) (quantity t).

(** [{...trade, profitLoss: newPL}]. *)
Definition withProfitLoss (t : Trade) (newPL : num) : Trade :=
  {| id := id t;
     instrument := instrument t;
     entryTime := entryTime t;
     exitTime := exitTime t;
     entryNY := entryNY t;
     exitNY := exitNY t;
     quantity := quantity t;
     entryPrice := entryPrice t;
     exitPrice := exitPrice t;
     profitLoss := newPL;
     originalPnlString := originalPnlString t;
     shouldDisplayAsNegative := shouldDisplayAsNegative t;
     tradeType := tradeType t;
     isWinning := isWinning t;
     description := description t;
     exitReason := exitReason t;
     duration := duration t;
     durationMs := durationMs t |}.

Definition recalculateTrade (multiplier : num) (t : Trade) : Trade :=
  if isXAUUSD t then withProfitLoss t (recalculatedPnl multiplier t) else t.

(** The handler of the Apply button (lines 806-825).  [debugMultiplier] is
    [window.XAUUSD_DEBUG_MULTIPLIER]: [None] until the input has been
    edited, and nothing happens unless it is truthy. *)
Definition applyDebugMultiplier (debugMultiplier : option num) (st : Store)
    : Store :=
  match debugMultiplier with
  | Some m =>
      if Num.truthy m then
        let updatedTrades := map (recalculateTrade m) (tradeList st) in
        {| tradeList := updatedTrades;
           selectedTrade :=
             match selectedTrade st with
             | Some sel =>
                 match List.find (fun t => (id t =? id sel)%Z) updatedTrades with
                 | Some updated => Some updated
                 | None => Some sel
                 end
             | None => None
             end;
           tradeImages := tradeImages st;
           notification := notification st |}
      else st
  | None => st
  end.

(** The component as it is mounted. *)
Definition initialStore : Store :=
  {| tradeList := [];
     selectedTrade := None;
     tradeImages := ∅;
     notification := "" |}.

Definition setTradeImages (f : gmap Z (list cell) -> gmap Z (list cell))
    (st : Store) : Store :=
  {| tradeList := tradeList st;
     selectedTrade := selectedTrade st;
     tradeImages := f (tradeImages st);
     notification := notification st |}.

(** A completed upload and a click on a remove button, as steps of the
    store. *)
Definition uploadImage (uploadingFor : option Z) (uploadSlot : option nat)
    (data : string) (st : Store) : Store :=
  {| tradeList := tradeList st;
     selectedTrade := selectedTrade st;
     tradeImages :=
       handleImageUpload uploadingFor uploadSlot data (tradeImages st);
     notification :=
       match uploadingFor, uploadSlot with
       | Some tradeId, Some slot =>
           if (tradeId =? 0)%Z then notification st
           else "Image " +:+ Str.of_Z (Z.of_nat slot + 1)
                +:+ " added successfully"
       | _, _ => notification st
       end |}.

Definition detachImage (tradeId : Z) (slot : nat) (st : Store) : Store :=
  setTradeImages (removeImage tradeId slot) st.

End TradeStore.

Import Normalizer TradeStore.

(** ** Sample inputs *)

Module Sample.

(** A host that reads four ISO timestamps and rejects every other text.
    Its two formatting functions are stand-ins; no statement depends on
    them. *)
Definition host : Host :=
  {| parseDate := fun s =>
       if String.eqb s "2024-01-01T00:00:00.000Z" then Some 1704067200000
       else if String.eqb s "2024-01-01T01:30:00.000Z" then Some 1704072600000
       else if String.eqb s "2024-01-02T00:00:00.000Z" then Some 1704153600000
       else if String.eqb s "2024-01-02T00:20:00.000Z" then Some 1704154800000
       else None;
     now := fun i => 1762149600000 + Z.of_nat i;
     toNYTime := fun z => Str.of_Z z;
     numToString := fun _ => "#" |}.

Definition header : string :=
  "Symbol,BuyPrice,SellPrice,Qty,BoughtTimestamp,SoldTimestamp,PnL".

(** The columns of [header]: each at its own position, no duration. *)
Definition columns : Columns :=
  resolveColumns (columnMapOf (tokenize header)).

Definition fieldsWith (buy sell qty pnlText : string) : list string :=
  ["XAUUSD"; buy; sell; qty;
   "2024-01-01T00:00:00.000Z"; "2024-01-01T01:30:00.000Z"; pnlText].

(** The trade of line [i] when it holds these prices, this quantity and
    this P/L text. *)
Definition tradeOf (i : nat) (buy sell qty pnlText : string) : Trade :=
  buildTrade host i (fieldsWith buy sell qty pnlText) columns.

Definition newline : string := String (ascii_of_nat 10) "".

(** A line whose entry time no [Date] can read. *)
Definition unreadableTime : string :=
  "XAUUSD,1890,1900,2,yesterday,2024-01-02T00:20:00.000Z,$-5.00".

(** Six data lines: an unreadable P/L, the form [$(225.00)], a line with
    two fields, a blank line, an unreadable entry time, and an entry time
    that repeats the one of the first line. *)
Definition rows : list string :=
  ["XAUUSD,1900,1905,1,2024-01-01T00:00:00.000Z,2024-01-01T01:30:00.000Z,garbage";
   "XAUUSD,1900,1890,1,2024-01-02T00:00:00.000Z,2024-01-02T00:20:00.000Z,$(225.00)";
   "short,row";
   "";
   unreadableTime;
   "xauusd,1900,1900,1,2024-01-01T00:00:00.000Z,2024-01-01T01:30:00.000Z,$0.00"].

Definition csv : string := join newline (header :: rows).

(** A file with one trade, and the store after its import. *)
Definition oneTrade : string :=
  join newline
    [header;
     "XAUUSD,1900,1890,1,2024-01-02T00:00:00.000Z,2024-01-02T00:20:00.000Z,$(225.00)"].

Definition oneTradeStore : Store := parseCSV host oneTrade initialStore.

(** A header that names a column twice, and a line under it. *)
Definition repeatedHeader : string :=
  "Note,Note,Symbol,BuyPrice,SellPrice,Qty,BoughtTimestamp,SoldTimestamp,PnL".

Definition repeatedHeaderRow : string :=
  "n1,n2,XAUUSD,1900,1905,1,2024-01-01T00:00:00.000Z,2024-01-01T01:30:00.000Z,$500.00".

(** The trades [csv] is imported as. *)
Definition imported : list Trade :=
  match normalize host csv with
  | inr trades => trades
  | inl _ => []
  end.

End Sample.

(** ** Predicates used in the statements *)

(** [x < 0] is false: [x] is zero, positive, or not a number. *)
Definition notNegative (x : num) : Prop := Num.ltb x (Num.of_Z 0) = false.

(** [x > 0] is false: [x] is zero, negative, or not a number. *)
Definition notPositive (x : num) : Prop := Num.gtb x (Num.of_Z 0) = false.

(** A trade whose type agrees with its prices, as [parseCSV] derives it. *)
Definition typedByPrices (t : Trade) : Prop :=
  tradeType t = if Num.leb (entryPrice t) (exitPrice t) then Long else Short.

(** The P/L of the row is recomputed from its prices: the text does not
    read as a number, or there is no text. *)
Definition pnlRecomputed (fields : list string) (c : Columns) : bool :=
  match field fields (pnlCol c) with
  | Some raw => Num.isNaN (pnl (readPnl (Str.trim raw)))
  | None => true
  end.

(** [a] may stand before [b] in a list that shows the newest trade first. *)
Definition newerFirst (a b : Trade) : Prop := (entryTime b <= entryTime a)%Z.

(** [a] comes from an earlier line than [b]. *)
Definition earlierRow (a b : Trade) : Prop := (id a < id b)%Z.

(** The line has no field at some required position. *)
Definition tooShort (c : Columns) (line : string) : Prop :=
  (Z.of_nat (length (tokenize line)) < maxRequired c + 1)%Z.

(** A slot that holds [null] or an image. *)
Definition nullOrImage (c : cell) : Prop :=
  c = Null \/ exists data, c = Image data.

(** The image array of a trade as the component keeps it: three slots, each
    [null] or an image, not all of them [null]. *)
Definition wellFormedSlots (a : list cell) : Prop :=
  length a = 3%nat /\ Forall nullOrImage a /\ everyNull a = false.

(** The entry of [tradeId], when there is one, is well formed and has its
    images in slots of [allowed] only. *)
Definition imagesWithin (tradeId : Z) (allowed : list nat)
    (m : gmap Z (list cell)) : Prop :=
  match m !! tradeId with
  | None => True
  | Some a =>
      wellFormedSlots a
      /\ forall j data, a !! j = Some (Image data) -> j ∈ allowed
  end.

(** Uploads into the slots of [uploads], one after the other, and clicks on
    the remove buttons of [slots], one after the other. *)
Definition attachAll (tradeId : Z) (uploads : list (nat * string))
    (m : gmap Z (list cell)) : gmap Z (list cell) :=
  fold_left
    (fun m u => handleImageUpload (Some tradeId) (Some (fst u)) (snd u) m)
    uploads m.

Definition detachAll (tradeId : Z) (slots : list nat)
    (m : gmap Z (list cell)) : gmap Z (list cell) :=
  fold_left (fun m slot => removeImage tradeId slot m) slots m.

(** [t'] is [t] but for its P/L. *)
Definition sameExceptProfitLoss (t t' : Trade) : Prop :=
  id t' = id t
  /\ instrument t' = instrument t
  /\ entryTime t' = entryTime t
  /\ exitTime t' = exitTime t
  /\ entryNY t' = entryNY t
  /\ exitNY t' = exitNY t
  /\ quantity t' = quantity t
  /\ entryPrice t' = entryPrice t
  /\ exitPrice t' = exitPrice t
  /\ originalPnlString t' = originalPnlString t
  /\ shouldDisplayAsNegative t' = shouldDisplayAsNegative t
  /\ tradeType t' = tradeType t
  /\ isWinning t' = isWinning t
  /\ description t' = description t
  /\ exitReason t' = exitReason t
  /\ duration t' = duration t
  /\ durationMs t' = durationMs t.

(** The stores the component can be in: it starts empty, and each user
    action is one step.  Each import has its own host, since it reads the
    clock anew.  The buttons offer the slots 0, 1 and 2 only. *)
Inductive reachable : Store -> Prop :=
  | reach_initial : reachable initialStore
  | reach_import (H : Host) (text : string) (st : Store) :
      reachable st -> reachable (parseCSV H text st)
  | reach_debug (m : option num) (st : Store) :
      reachable st -> reachable (applyDebugMultiplier m st)
  | reach_upload (tradeId : Z) (slot : nat) (data : string) (st : Store) :
      (slot < 3)%nat ->
      reachable st ->
      reachable (uploadImage (Some tradeId) (Some slot) data st)
  | reach_remove (tradeId : Z) (slot : nat) (st : Store) :
      (slot < 3)%nat ->
      reachable st -> reachable (detachImage tradeId slot st).

(** ** Further parts of the component

    The file picker and the drop zone, the click on a trade of the list, and
    the PDF export, with the arithmetic the export adds. *)

Module NumArith.

(** Binary [+]. *)
Definition add (x y : num) : num :=
  match x, y with
  | NaN, _ | _, NaN => NaN
  | Inf s, Inf t => if Bool.eqb s t then Inf s else NaN
  | Inf s, Fin _ => Inf s
  | Fin _, Inf t => Inf t
  | Fin p, Fin q => Fin (p + q)%Qc
  end.

(** Binary [/]. *)
Definition div (x y : num) : num :=
  match x, y with
  | NaN, _ | _, NaN => NaN
  | Inf _, Inf _ => NaN
  | Inf s, Fin q => Inf (xorb s (Qc_ltb q 0))
  | Fin _, Inf _ => Fin 0%Qc
  | Fin p, Fin q =>
      if Qc_is0 q then (if Qc_is0 p then NaN else Inf (Qc_ltb p 0))
      else Fin (p / q)%Qc
  end.

End NumArith.

(** Text made of ASCII characters only.  On such text [Str.toLowerCase] and
    [Str.toUpperCase] are the case mappings of JavaScript; on other text the
    code also maps letters that are not ASCII. *)
Definition isAscii (s : string) : bool :=
  forallb (fun a => (Str.code a <? 128)%N) (Str.chars s).

Module Upload.
Import Str.

(** What the component reads of a [File]: its MIME type, its name and, once
    a [FileReader] has read it, its text. *)
Record File : Type := mkFile {
  fileType : string;
  fileName : string;
  fileText : string
}.

(** [isCSV] (line 52). *)
Definition isCSV (file : File) : bool :=
  String.eqb (fileType file) "text/csv"
  || endsWith (toLowerCase (fileName file)) ".csv".

Definition setNotification (text : string) (st : Store) : Store :=
  {| tradeList := tradeList st;
     selectedTrade := selectedTrade st;
     tradeImages := tradeImages st;
     notification := text |}.

(** [handleCSVUpload] (lines 280-288); [file] is [e.target.files[0]],
    [None] when no file was chosen. *)
Definition handleCSVUpload (H : Host) (file : option File) (st : Store)
    : Store :=
  match file with
  | Some f =>
      if isCSV f then parseCSV H (fileText f) st
      else setNotification "Error: Select a valid CSV file." st
  | None => setNotification "Error: Select a valid CSV file." st
  end.

(** [handleFileDrop] (lines 290-298). *)
Definition handleFileDrop (H : Host) (file : option File) (st : Store)
    : Store :=
  match file with
  | Some f =>
      if isCSV f then parseCSV H (fileText f) st
      else setNotification "Error: Drop a valid CSV file." st
  | None => setNotification "Error: Drop a valid CSV file." st
  end.

(** The click on a trade of the list (line 555). *)
Definition selectTrade (t : Trade) (st : Store) : Store :=
  {| tradeList := tradeList st;
     selectedTrade := Some t;
     tradeImages := tradeImages st;
     notification := notification st |}.

(** The condition under which the gallery of a trade is shown (line 676):
    [tradeImages[id] && tradeImages[id].some(img => img !== null)]. *)
Definition someNotNull (a : list cell) : bool :=
  existsb (fun c => match c with Null | Hole => false | _ => true end) a.

Definition hasGallery (tradeId : Z) (images : gmap Z (list cell)) : bool :=
  match images !! tradeId with
  | Some a => someNotNull a
  | None => false
  end.

End Upload.

Export Upload.

(** *** The PDF export: [handleExportPDF]

    The document is kept as the list of the calls made on it; what [jsPDF]
    and the image decoder do is a field of [PdfHost]. *)

Module PdfExport.
Import Str NumArith.

Inductive PdfCommand : Type :=
  | AddPage : PdfCommand
  | SetFontSize (size : Z) : PdfCommand
  | Text (text : string) (x y : Z) : PdfCommand
  | AddImage (imageData format : string) (x y width height : num)
      : PdfCommand.

Record PdfHost : Type := mkPdfHost {
  (** [doc.internal.pageSize.getWidth()] and [getHeight()] *)
  pageWidth : num;
  pageHeight : num;
  (** [loadImage]: the width and the height of the decoded image, [None]
      when it resolves to [null] *)
  loadImage : string -> option (num * num);
  (** whether [doc.addImage] takes the data; it throws when it does not *)
  addImageAccepts : string -> bool;
  (** how a template literal prints a number, and [toFixed(2)] *)
  showNumber : num -> string;
  toFixed2 : num -> string;
  (** the ISO string that [entryTime] and [exitTime] hold *)
  toISOString : Z -> string
}.

(** [a || b] on strings. *)
Definition orElse (a b : string) : string :=
  if String.eqb a "" then b else a.

(** The title of the page of a trade (line 429). *)
Definition title (t : Trade) : string :=
  "Trade #" +:+ Str.of_Z (id t) +:+ ": " +:+ instrument t.

(** The text of the page of a trade (lines 428-438). *)
Definition tradeTexts (P : PdfHost) (t : Trade) : list PdfCommand :=
  [SetFontSize 18;
   Text (title t) 10 20;
   SetFontSize 12;
   Text ("Type: " +:+ TradeType_name (tradeType t)) 10 35;
   Text ("Entry Time: "
         +:+ orElse (entryNY t) (toISOString P (entryTime t))) 10 45;
   Text ("Exit Time: "
         +:+ orElse (exitNY t) (toISOString P (exitTime t))) 10 55;
   Text ("Entry Price: " +:+ showNumber P (entryPrice t)) 10 65;
   Text ("Exit Price: " +:+ showNumber P (exitPrice t)) 10 75;
   Text ("Quantity: " +:+ showNumber P (quantity t)) 10 85;
   Text ("Profit/Loss: "
         +:+ (if Num.ltb (profitLoss t) (Num.of_Z 0) then "-" else "")
         +:+ "$" +:+ toFixed2 P (Num.abs (profitLoss t))) 10 95]
  ++ (if String.eqb (description t) "" then []
      else [Text ("Description: " +:+ description t) 10 110]).

(** The data of a slot when it is truthy. *)
Definition truthyImage (c : cell) : option string :=
  match c with
  | Image data => if String.eqb data "" then None else Some data
  | _ => None
  end.

Definition margin : num := Num.of_Z 10.

(** [pageWidth - margin * 2] (line 445). *)
Definition imgWidth (P : PdfHost) : num :=
  Num.sub (pageWidth P) (Num.mul margin (Num.of_Z 2)).

(** The loop over the slots of one trade (lines 448-466), from the height
    [yPosition] on; [None] when [doc.addImage] throws. *)
Fixpoint placeImages (P : PdfHost) (cells : list cell) (yPosition : num)
    : option (list PdfCommand) :=
  match cells with
  | [] => Some []
  | c :: rest =>
      match truthyImage c with
      | None => placeImages P rest yPosition
      | Some imageData =>
          match loadImage P imageData with
          | Some (width, height) =>
              if Num.truthy width && Num.truthy height then
                let imgHeight := Num.mul (imgWidth P) (div height width) in
                let break :=
                  Num.gtb (add yPosition imgHeight)
                    (Num.sub (pageHeight P) (Num.of_Z 10)) in
                let y := if break then Num.of_Z 20 else yPosition in
                if addImageAccepts P imageData then
                  match
                    placeImages P rest (add y (add imgHeight (Num.of_Z 10)))
                  with
                  | Some more =>
                      Some ((if break then [AddPage] else [])
                            ++ AddImage imageData "JPEG" margin y
                                 (imgWidth P) imgHeight
                            :: more)
                  | None => None
                  end
                else None
              else placeImages P rest yPosition
          | None => placeImages P rest yPosition
          end
      end
  end.

(** The images of one trade (lines 441-467). *)
Definition tradePictures (P : PdfHost) (images : gmap Z (list cell))
    (t : Trade) : option (list PdfCommand) :=
  match images !! id t with
  | Some a =>
      if someNotNull a then placeImages P a (Num.of_Z 120) else Some []
  | None => Some []
  end.

(** The loop over the trades (lines 421-468); [first] tells that [idx] is
    0. *)
Fixpoint exportTrades (P : PdfHost) (images : gmap Z (list cell))
    (first : bool) (trades : list Trade) : option (list PdfCommand) :=
  match trades with
  | [] => Some []
  | t :: rest =>
      match tradePictures P images t with
      | Some pictures =>
          match exportTrades P images false rest with
          | Some more =>
              Some ((if first then [] else [AddPage])
                    ++ tradeTexts P t ++ pictures ++ more)
          | None => None
          end
      | None => None
      end
  end.

(** What an export leaves: the document that was saved, if one was, the
    flag [isExporting] and the notification. *)
Record ExportResult : Type := mkExportResult {
  saved : option (list PdfCommand);
  isExportingAfter : bool;
  notificationAfter : string
}.

(** [handleExportPDF] (lines 404-480). *)
Definition handleExportPDF (P : PdfHost) (isExporting : bool) (st : Store)
    : ExportResult :=
  if (length (tradeList st) =? 0)%nat || isExporting then
    {| saved := None;
       isExportingAfter := isExporting;
       notificationAfter := notification st |}
  else
    match exportTrades P (tradeImages st) true (tradeList st) with
    | Some doc =>
        {| saved := Some doc;
           isExportingAfter := false;
           notificationAfter := "PDF export completed!" |}
    | None =>
        {| saved := None;
           isExportingAfter := false;
           notificationAfter := "Error exporting PDF. Please try again." |}
    end.

(** The titles drawn in a document, in the order of the calls. *)
Definition titles (doc : list PdfCommand) : list string :=
  omap (fun c => match c with
                 | Text text 10 20 => Some text
                 | _ => None
                 end) doc.

Definition isAddPage (c : PdfCommand) : bool :=
  match c with AddPage => true | _ => false end.

Definition isAddImage (c : PdfCommand) : bool :=
  match c with AddImage _ _ _ _ _ _ => true | _ => false end.

(** The number of pages of a document. *)
Definition pageCount (doc : list PdfCommand) : nat :=
  S (length (List.filter isAddPage doc)).

(** The images drawn in a document. *)
Definition pictures (doc : list PdfCommand) : list PdfCommand :=
  List.filter isAddImage doc.

(** An image drawn as the export lays it out: as JPEG, at the left margin,
    as wide as the page between its margins, as high as its proportions
    ask, and either not reaching below the bottom margin or at the top of
    a page. *)
Definition wellPlaced (P : PdfHost) (c : PdfCommand) : Prop :=
  match c with
  | AddImage imageData format x y width height =>
      format = "JPEG" /\ x = margin /\ width = imgWidth P
      /\ imageData <> ""
      /\ (exists w h,
            loadImage P imageData = Some (w, h)
            /\ Num.truthy w = true /\ Num.truthy h = true
            /\ height = Num.mul (imgWidth P) (div h w))
      /\ (y = Num.of_Z 20
          \/ Num.gtb (add y height)
               (Num.sub (pageHeight P) (Num.of_Z 10)) = false)
  | _ => True
  end.

End PdfExport.

Export PdfExport.

(** A line that the loop of [parseCSV] keeps: not blank, and long enough. *)
Definition kept (c : Columns) (line : string) : bool :=
  negb (String.eqb (Str.trim line) "")
  && negb (Z.of_nat (length (tokenize line)) <? maxRequired c + 1).

(** The stores of a session in which the user also picks and drops files
    and clicks on trades of the list. *)
Inductive session : Store -> Prop :=
  | session_initial : session initialStore
  | session_upload (H : Host) (file : option File) (st : Store) :
      session st -> session (handleCSVUpload H file st)
  | session_drop (H : Host) (file : option File) (st : Store) :
      session st -> session (handleFileDrop H file st)
  | session_select (t : Trade) (st : Store) :
      t ∈ tradeList st -> session st -> session (selectTrade t st)
  | session_debug (m : option num) (st : Store) :
      session st -> session (applyDebugMultiplier m st)
  | session_attach (tradeId : Z) (slot : nat) (data : string) (st : Store) :
      (slot < 3)%nat ->
      session st ->
      session (uploadImage (Some tradeId) (Some slot) data st)
  | session_remove (tradeId : Z) (slot : nat) (st : Store) :
      (slot < 3)%nat ->
      session st -> session (detachImage tradeId slot st).

(** What a session keeps true of its store: the ids of the list are
    pairwise distinct line numbers, the selection is a trade of the list and
    is missing only when the list is empty, every image array is well
    formed, and no images are kept for the id 0. *)
Definition consistent (st : Store) : Prop :=
  NoDup (map id (tradeList st))
  /\ Forall (fun t => 1 <= id t) (tradeList st)
  /\ (forall sel, selectedTrade st = Some sel -> sel ∈ tradeList st)
  /\ (selectedTrade st = None <-> tradeList st = [])
  /\ (forall k, imagesWithin k [0; 1; 2]%nat (tradeImages st))
  /\ tradeImages st !! 0 = None.

(** ** Sample inputs of a session *)

Module SampleSession.

(** The file of [Sample.oneTrade], and the store after it was picked. *)
Definition csvFile : File :=
  mkFile "text/csv" "trades.csv" Sample.oneTrade.

Definition imported : Store :=
  handleCSVUpload Sample.host (Some csvFile) initialStore.

(** The same store with a wide image in slot 0 and a tall one in slot 1 of
    its trade. *)
Definition withGallery : Store :=
  uploadImage (Some 1) (Some 1%nat) "data:tall"
    (uploadImage (Some 1) (Some 0%nat) "data:wide" imported).

(** An A4 page in millimetres, a decoder that knows the two images, and a
    [jsPDF] that takes every image.  The formatting functions are
    stand-ins. *)
Definition pdfHost : PdfHost :=
  {| pageWidth := Num.of_Z 210;
     pageHeight := Num.of_Z 297;
     loadImage := fun data =>
       if String.eqb data "data:wide"
       then Some (Num.of_Z 800, Num.of_Z 600)
       else if String.eqb data "data:tall"
       then Some (Num.of_Z 100, Num.of_Z 1000)
       else None;
     addImageAccepts := fun _ => true;
     showNumber := fun _ => "#";
     toFixed2 := fun _ => "#.##";
     toISOString := fun z => Str.of_Z z |}.

(** The document the export of [withGallery] saves. *)
Definition document : list PdfCommand :=
  default [] (saved (handleExportPDF pdfHost false withGallery)).

(** A line whose P/L is written with a thousands separator. *)
Definition thousands : string :=
  "XAUUSD,1900,1910,1,2024-01-01T00:00:00.000Z,2024-01-01T01:30:00.000Z,(1,000.50)".

End SampleSession.

(** * Properties *)

(** ** The embedding at work *)

Module Examples.
Import Str.

Ltac num_value := apply (f_equal Fin); apply Qc_is_canon; reflexivity.

Example parseFloat_decimal : parseFloat "225.00" = Num.of_Z 225.
Proof. vm_compute. num_value. Qed.

Example parseFloat_prefix :
  parseFloat "2024-01-01T01:30:00.000Z" = Num.of_Z 2024.
Proof. vm_compute. num_value. Qed.

Example parseFloat_exponent : parseFloat "  -1.5e2 USD" = Num.of_Z (-150).
Proof. vm_compute. num_value. Qed.

Example parseFloat_stops_at_comma : parseFloat "1,225.00" = Num.of_Z 1.
Proof. vm_compute. num_value. Qed.

Example parseFloat_words :
  parseFloat "garbage" = NaN /\ parseFloat "" = NaN /\ parseFloat "." = NaN
  /\ parseFloat "-Infinity" = Inf true.
Proof. repeat split; reflexivity. Qed.

Example trim_both_ends : trim "  $(225.00) " = "$(225.00)".
Proof. reflexivity. Qed.

Example split_keeps_empty_fields :
  split is_comma_or_tab "a,,b" = ["a"; ""; "b"]
  /\ split is_newline "" = [""].
Proof. split; reflexivity. Qed.

Example strip_pound_and_euro :
  strip_currency_commas "£1,000.50" = "1000.50"
  /\ strip_currency "€7,5" = "7,5".
Proof. split; reflexivity. Qed.

Example substring_of_parenthesised :
  substring "$(225.00)" 2 8 = "225.00" /\ substring "()" 1 1 = "".
Proof. split; reflexivity. Qed.

Example includes_is_case_sensitive :
  includes "buyprice_usd" "buyprice" = true
  /\ includes "BuyPrice_USD" "buyprice" = false
  /\ includes (toLowerCase "BuyPrice_USD") "buyprice" = true.
Proof. repeat split; reflexivity. Qed.

Example keys_indices_first :
  JsObject.keys (columnMapOf ["Qty"; "7"; "qty"; "3"; "PnL"; "03"])
  = ["3"; "7"; "qty"; "pnl"; "03"].
Proof. reflexivity. Qed.

Example keys_skip_proto :
  JsObject.keys (columnMapOf ["symbol"; "__proto__"; "pnl"])
  = ["symbol"; "pnl"].
Proof. reflexivity. Qed.

Example formatDuration_hours : formatDuration 5400000 = "1h 30m".
Proof. reflexivity. Qed.

Example formatDuration_minutes : formatDuration 1200000 = "20m".
Proof. reflexivity. Qed.

Example formatDuration_negative : formatDuration (-60001) = "-2m".
Proof. reflexivity. Qed.

Example formatDuration_zero : formatDuration 59999 = "0m".
Proof. reflexivity. Qed.

Example assign_beyond_the_end :
  assign [Null; Null; Null] 4 (Image "i")
  = [Null; Null; Null; Hole; Image "i"].
Proof. reflexivity. Qed.

Example sample_columns :
  Sample.columns = mkColumns 0 1 2 3 4 5 6 (-1).
Proof. reflexivity. Qed.

Example sample_import_order :
  map id Sample.imported = [5; 2; 1; 6]
  /\ map duration Sample.imported = ["1h 0m"; "20m"; "1h 30m"; "1h 30m"].
Proof. split; vm_compute; reflexivity. Qed.

End Examples.

(** ** Facts about numbers *)

Module NumFacts.

Lemma Qc_ltb_lt (p q : Qc) : Qc_ltb p q = true <-> (p < q)%Qc.
Proof.
  unfold Qc_ltb, Qclt. rewrite negb_true_iff.
  split.
  - intros Hb. apply Qnot_le_lt. intros Hle.
    apply Qle_bool_iff in Hle. congruence.
  - intros Hlt. destruct (Qle_bool q p) eqn:E; [|reflexivity].
    apply Qle_bool_iff in E. exfalso. exact (Qlt_not_le _ _ Hlt E).
Qed.

Lemma Qc_ltb_ge (p q : Qc) : Qc_ltb p q = false <-> (q <= p)%Qc.
Proof.
  unfold Qc_ltb, Qcle. rewrite negb_false_iff. apply Qle_bool_iff.
Qed.

Lemma Qc_leb_le (p q : Qc) : Qc_leb p q = true <-> (p <= q)%Qc.
Proof. unfold Qc_leb, Qcle. apply Qle_bool_iff. Qed.

Lemma Qc_leb_ltb (p q : Qc) : Qc_leb p q = negb (Qc_ltb q p).
Proof. unfold Qc_leb, Qc_ltb. now rewrite negb_involutive. Qed.

Lemma Qc_is0_eq (q : Qc) : Qc_is0 q = true <-> q = 0%Qc.
Proof.
  unfold Qc_is0. rewrite Qeq_bool_iff. split.
  - intros E. now apply Qc_is_canon.
  - intros ->. reflexivity.
Qed.

Lemma Qc_mul_nonneg (p q : Qc) : (0 <= p -> 0 <= q -> 0 <= p * q)%Qc.
Proof.
  unfold Qcle, Qcmult. intros Hp Hq.
  change (0 <= Qred (p * q))%Q. rewrite Qred_correct.
  now apply Qmult_le_0_compat.
Qed.

Lemma Qc_opp_nonneg (q : Qc) : (q < 0 -> 0 <= - q)%Qc.
Proof.
  unfold Qclt, Qcle, Qcopp. intros Hq.
  change (0 <= Qred (- q))%Q. rewrite Qred_correct.
  change (this 0%Qc) with 0%Q in Hq. lra.
Qed.

Lemma notNegative_geb (x : num) :
  Num.geb x (Num.of_Z 0) = true -> notNegative x.
Proof.
  unfold notNegative, Num.geb. change (Num.of_Z 0) with (Fin 0%Qc).
  destruct x as [|s|q]; simpl; try easy.
  - now destruct s.
  - rewrite Qc_leb_ltb, negb_true_iff. exact (fun E => E).
Qed.

Lemma geb_notNegative (x : num) :
  Num.isNaN x = false -> notNegative x -> Num.geb x (Num.of_Z 0) = true.
Proof.
  unfold notNegative, Num.geb. change (Num.of_Z 0) with (Fin 0%Qc).
  destruct x as [|s|q]; simpl; try easy.
  - now destruct s.
  - intros _ E. now rewrite Qc_leb_ltb, E.
Qed.

Lemma mul_notNegative (x y : num) :
  notNegative x -> notNegative y -> notNegative (Num.mul x y).
Proof.
  unfold notNegative. change (Num.of_Z 0) with (Fin 0%Qc).
  destruct x as [|s|p], y as [|t|q]; simpl; try easy.
  - now intros -> ->.
  - intros -> Hq. destruct (Qc_is0 q); [reflexivity|].
    simpl. now rewrite Hq.
  - intros Hp ->. destruct (Qc_is0 p); [reflexivity|].
    simpl. now rewrite Hp.
  - intros Hp Hq. apply Qc_ltb_ge. apply Qc_ltb_ge in Hp, Hq.
    now apply Qc_mul_nonneg.
Qed.

Lemma notNegative_abs (x : num) : notNegative (Num.abs x).
Proof.
  unfold notNegative. change (Num.of_Z 0) with (Fin 0%Qc).
  destruct x as [|s|q]; simpl; try reflexivity.
  destruct (Qc_ltb q 0) eqn:E; [|exact E].
  apply Qc_ltb_ge. apply Qc_ltb_lt in E. now apply Qc_opp_nonneg.
Qed.

Lemma of_Z_inj (a b : Z) : Num.of_Z a = Num.of_Z b -> a = b.
Proof.
  unfold Num.of_Z. intros E.
  assert (E' : Qred (inject_Z a) = Qred (inject_Z b)).
  { change (this (Q2Qc (inject_Z a)) = this (Q2Qc (inject_Z b))).
    congruence. }
  apply Qred_eq_iff in E'. now apply inject_Z_injective.
Qed.

End NumFacts.

(** ** The two recomputations of a P/L *)

Module PnlFacts.
Import NumFacts.

Ltac qc_eq :=
  apply Qc_is_canon;
  unfold Qcminus, Qcplus, Qcmult, Qcopp, Q2Qc; cbn [this];
  rewrite ?Qred_correct.

Lemma Qc_ltb_sub (p q : Qc) : Qc_ltb (p - q) 0 = Qc_ltb p q.
Proof.
  destruct (Qc_ltb p q) eqn:E.
  - apply Qc_ltb_lt. apply Qc_ltb_lt in E. revert E.
    unfold Qclt, Qcminus, Qcplus, Qcopp, Q2Qc; cbn [this].
    rewrite !Qred_correct. change (Qred 0) with 0%Q. lra.
  - apply Qc_ltb_ge. apply Qc_ltb_ge in E. revert E.
    unfold Qcle, Qcminus, Qcplus, Qcopp, Q2Qc; cbn [this].
    rewrite !Qred_correct. change (Qred 0) with 0%Q. lra.
Qed.

Lemma Qc_minus1_mul (q : Qc) : (Q2Qc (inject_Z (-1)) * q = - q)%Qc.
Proof. qc_eq. change (Qred (inject_Z (-1))) with (-1 # 1)%Q. ring. Qed.

Lemma Qc_one_mul (q : Qc) : (Q2Qc (inject_Z 1) * q = q)%Qc.
Proof. qc_eq. change (Qred (inject_Z 1)) with 1%Q. ring. Qed.

Lemma Qc_mul_minus1 (q : Qc) : (q * Q2Qc (inject_Z (-1)) = - q)%Qc.
Proof. rewrite Qcmult_comm. apply Qc_minus1_mul. Qed.

Lemma Qc_mul_one (q : Qc) : (q * Q2Qc (inject_Z 1) = q)%Qc.
Proof. rewrite Qcmult_comm. apply Qc_one_mul. Qed.

(** The factor [direction] turns the price difference into its absolute
    value, whatever the prices are. *)
Lemma direction_cancels (buyPrice sellPrice : num) :
  Num.mul (Num.of_Z (direction buyPrice sellPrice))
    (Num.sub sellPrice buyPrice)
  = Num.abs (Num.sub sellPrice buyPrice).
Proof.
  unfold direction, Num.gtb.
  destruct buyPrice as [|s|b], sellPrice as [|t|a]; try reflexivity.
  - now destruct s, t.
  - now destruct s.
  - now destruct t.
  - cbn [Num.ltb Num.sub Num.abs]. rewrite Qc_ltb_sub.
    destruct (Qc_ltb a b); unfold Num.of_Z; cbn [Num.mul];
      apply (f_equal Fin).
    + apply Qc_minus1_mul.
    + apply Qc_one_mul.
Qed.

(** So does the factor chosen from a trade type that was derived from the
    same two prices. *)
Lemma tradeType_cancels (entry exit : num) :
  Num.mul (Num.sub exit entry)
    (match (if Num.leb entry exit then Long else Short) with
     | Long => Num.of_Z 1
     | Short => Num.of_Z (-1)
     end)
  = Num.abs (Num.sub exit entry).
Proof.
  destruct entry as [|s|b], exit as [|t|a]; try reflexivity.
  - now destruct s, t.
  - now destruct s.
  - now destruct t.
  - cbn [Num.leb Num.sub Num.abs]. rewrite Qc_ltb_sub, Qc_leb_ltb.
    destruct (Qc_ltb a b); unfold Num.of_Z; cbn [negb Num.mul];
      apply (f_equal Fin).
    + apply Qc_mul_minus1.
    + apply Qc_mul_one.
Qed.

Lemma notNegative_multiplier : notNegative XAUUSD_MULTIPLIER.
Proof. reflexivity. Qed.

Lemma fallbackPnl_abs (buyPrice sellPrice quantity : num) :
  fallbackPnl buyPrice sellPrice quantity
  = Num.mul (Num.mul (Num.abs (Num.sub sellPrice buyPrice)) quantity)
      XAUUSD_MULTIPLIER.
Proof. unfold fallbackPnl. now rewrite direction_cancels. Qed.

Lemma fallbackPnl_notNegative (buyPrice sellPrice quantity : num) :
  notNegative quantity ->
  notNegative (fallbackPnl buyPrice sellPrice quantity).
Proof.
  intros Hq. rewrite fallbackPnl_abs.
  auto using mul_notNegative, notNegative_abs, notNegative_multiplier.
Qed.

Lemma recalculatedPnl_abs (m : num) (t : Trade) :
  typedByPrices t ->
  recalculatedPnl m t
  = Num.mul
      (Num.mul (Num.abs (Num.sub (exitPrice t) (entryPrice t))) m)
      (quantity t).
Proof.
  unfold typedByPrices, recalculatedPnl. intros ->.
  now rewrite tradeType_cancels.
Qed.

Lemma recalculatedPnl_notNegative (m : num) (t : Trade) :
  typedByPrices t -> notNegative m -> notNegative (quantity t) ->
  notNegative (recalculatedPnl m t).
Proof.
  intros Ht Hm Hq. rewrite recalculatedPnl_abs by exact Ht.
  auto using mul_notNegative, notNegative_abs.
Qed.

Lemma buildTrade_typedByPrices (H : Host) (i : nat) (fields : list string)
    (c : Columns) : typedByPrices (buildTrade H i fields c).
Proof.
  unfold typedByPrices, buildTrade.
  destruct (timestamps H i fields c). reflexivity.
Qed.

Lemma recalculateTrade_typedByPrices (m : num) (t : Trade) :
  typedByPrices t -> typedByPrices (recalculateTrade m t).
Proof.
  unfold recalculateTrade. destruct (isXAUUSD t); [|easy].
  unfold typedByPrices. now cbn.
Qed.

(** [buildTrade], field by field. *)
Lemma buildTrade_prices (H : Host) (i : nat) (fields : list string)
    (c : Columns) :
  let t := buildTrade H i fields c in
  entryPrice t = floatField fields (buyPriceCol c)
  /\ exitPrice t = floatField fields (sellPriceCol c)
  /\ quantity t = floatField fields (qtyCol c).
Proof. unfold buildTrade. destruct (timestamps H i fields c). now cbn. Qed.

Lemma buildTrade_pnl (H : Host) (i : nat) (fields : list string)
    (c : Columns) :
  let t := buildTrade H i fields c in
  let p :=
    parsePnl fields c (floatField fields (buyPriceCol c))
      (floatField fields (sellPriceCol c)) (floatField fields (qtyCol c)) in
  profitLoss t = pnl p
  /\ originalPnlString t = originalPnl p
  /\ shouldDisplayAsNegative t = displayNegative p
  /\ isWinning t = negb (displayNegative p).
Proof. unfold buildTrade. destruct (timestamps H i fields c). now cbn. Qed.

Lemma buildTrade_tradeType (H : Host) (i : nat) (fields : list string)
    (c : Columns) :
  let t := buildTrade H i fields c in
  tradeType t = if Num.leb (entryPrice t) (exitPrice t) then Long else Short.
Proof. apply buildTrade_typedByPrices. Qed.

End PnlFacts.

(** ** Unparseable P/L, and the sign of a recomputed P/L *)

Module PnlClaims.
Import NumFacts PnlFacts.

Ltac num_eq := apply (f_equal Fin); apply Qc_is_canon; reflexivity.

(** C2.  A row whose P/L text does not read as a number gets the P/L
    [direction * (exitPrice - entryPrice) * quantity * 100], with
    [direction = -1] when [entryPrice > exitPrice] and [1] otherwise.  In
    particular the row with the prices 1900 and 1905, the quantity 1 and the
    P/L text [garbage] gets the P/L 500, whatever the host is. *)
Theorem C2_unparseable_pnl_is_recomputed :
  (forall (H : Host) (i : nat) (fields : list string) (c : Columns)
          (raw : string),
      field fields (pnlCol c) = Some raw ->
      Num.isNaN (pnl (readPnl (Str.trim raw))) = true ->
      let t := buildTrade H i fields c in
      profitLoss t
      = Num.mul
          (Num.mul
             (Num.mul
                (Num.of_Z
                   (if Num.gtb (entryPrice t) (exitPrice t) then -1 else 1))
                (Num.sub (exitPrice t) (entryPrice t)))
             (quantity t))
          (Num.of_Z 100))
  /\ (forall (H : Host) (i : nat),
        option_map profitLoss
          (parseRow H Sample.columns i
             "XAUUSD,1900,1905,1,2024-01-01T00:00:00.000Z,2024-01-01T01:30:00.000Z,garbage")
        = Some (Num.of_Z 500)).
Proof.
  split.
  - intros H i fields c raw Hraw Hnan t.
    destruct (buildTrade_pnl H i fields c) as (Hp & _).
    destruct (buildTrade_prices H i fields c) as (He & Hx & Hq).
    fold t in Hp, He, Hx, Hq. rewrite Hp, He, Hx, Hq.
    unfold parsePnl. rewrite Hraw, Hnan. reflexivity.
  - intros H i. unfold parseRow.
    match goal with
    | |- context [String.eqb ?a ?b] =>
        replace (String.eqb a b) with false by (vm_compute; reflexivity)
    end.
    match goal with
    | |- context [tokenize ?l] =>
        let v := eval vm_compute in (tokenize l) in
        change (tokenize l) with v
    end.
    match goal with
    | |- context [(?a <? ?b)%Z] =>
        replace (a <? b)%Z with false by (vm_compute; reflexivity)
    end.
    cbn [option_map]. apply f_equal.
    match goal with
    | |- profitLoss (buildTrade H i ?f ?c) = _ =>
        destruct (buildTrade_pnl H i f c) as (Hp & _); rewrite Hp
    end.
    vm_compute. num_eq.
Qed.
End PnlClaims.

(** ** Facts about the import *)

Module NormalizerFacts.
Import PnlFacts.

Lemma insertTrade_perm (x : Trade) (l : list Trade) :
  insertTrade x l ≡ₚ x :: l.
Proof.
  induction l as [|y l IH]; cbn; [reflexivity|].
  destruct (compareTrades x y <=? 0)%Z; [reflexivity|].
  rewrite IH. apply Permutation_swap.
Qed.

Lemma sortTrades_perm (l : list Trade) : sortTrades l ≡ₚ l.
Proof.
  induction l as [|x l IH]; cbn; [reflexivity|].
  rewrite insertTrade_perm. now rewrite IH.
Qed.

Lemma insertTrade_sorted (x : Trade) (l : list Trade) :
  StronglySorted newerFirst l -> StronglySorted newerFirst (insertTrade x l).
Proof.
  induction l as [|y l IH]; cbn; intros Hs.
  - repeat constructor.
  - apply StronglySorted_inv in Hs as [Hl Hy].
    destruct (compareTrades x y <=? 0)%Z eqn:E.
    + apply Z.leb_le in E. unfold compareTrades in E.
      constructor; [now constructor|].
      constructor; [unfold newerFirst; lia|].
      eapply Forall_impl; [exact Hy|].
      unfold newerFirst. intros z Hz. lia.
    + apply Z.leb_gt in E. unfold compareTrades in E.
      constructor; [now apply IH|].
      rewrite insertTrade_perm. constructor; [unfold newerFirst; lia|].
      exact Hy.
Qed.

Lemma sortTrades_sorted (l : list Trade) :
  StronglySorted newerFirst (sortTrades l).
Proof.
  induction l as [|x l IH]; cbn; [constructor|].
  now apply insertTrade_sorted.
Qed.

(** Insertion never moves a trade across one with the same entry time. *)
Lemma insertTrade_stable (time : Z) (x : Trade) (l : list Trade) :
  filter (fun t => entryTime t = time) (insertTrade x l)
  = filter (fun t => entryTime t = time) (x :: l).
Proof.
  induction l as [|y l IH]; cbn [insertTrade]; [reflexivity|].
  destruct (compareTrades x y <=? 0)%Z eqn:E; [reflexivity|].
  apply Z.leb_gt in E. unfold compareTrades in E.
  rewrite (filter_cons _ y), IH, !(filter_cons _ x), (filter_cons _ y).
  repeat case_decide; try reflexivity. lia.
Qed.

Lemma sortTrades_stable (time : Z) (l : list Trade) :
  filter (fun t => entryTime t = time) (sortTrades l)
  = filter (fun t => entryTime t = time) l.
Proof.
  induction l as [|x l IH]; cbn [sortTrades fold_right]; [reflexivity|].
  fold (sortTrades l). rewrite insertTrade_stable, !(filter_cons _ x), IH.
  reflexivity.
Qed.

(** What one turn of the loop does. *)
Lemma parseRow_None (H : Host) (c : Columns) (i : nat) (line : string) :
  parseRow H c i line = None <-> Str.trim line = "" \/ tooShort c line.
Proof.
  unfold parseRow, tooShort.
  destruct (String.eqb_spec (Str.trim line) "") as [E|E].
  - tauto.
  - destruct (Z.ltb_spec (Z.of_nat (length (tokenize line)))
               (maxRequired c + 1)); split; try tauto; try easy.
    intros [?|?]; [contradiction|lia].
Qed.

Lemma parseRow_Some (H : Host) (c : Columns) (i : nat) (line : string)
    (t : Trade) :
  parseRow H c i line = Some t ->
  t = buildTrade H i (tokenize line) c.
Proof.
  unfold parseRow.
  destruct (String.eqb _ _); [easy|].
  destruct (_ <? _)%Z; [easy|]. congruence.
Qed.

Lemma parseRow_kept (H : Host) (c : Columns) (i : nat) (line : string) :
  Str.trim line <> "" -> ~ tooShort c line ->
  parseRow H c i line = Some (buildTrade H i (tokenize line) c).
Proof.
  intros Hb Hs. destruct (parseRow H c i line) as [t|] eqn:E.
  - now rewrite (parseRow_Some _ _ _ _ _ E).
  - apply parseRow_None in E. tauto.
Qed.

(** The loop treats each line on its own. *)
Lemma parseRows_app (H : Host) (c : Columns) (i : nat)
    (before after : list string) :
  parseRows H c i (before ++ after)
  = parseRows H c i before ++ parseRows H c (i + length before) after.
Proof.
  revert i. induction before as [|l before IH]; intros i; cbn.
  - now rewrite Nat.add_0_r.
  - rewrite IH, Nat.add_succ_r.
    destruct (parseRow H c i l); reflexivity.
Qed.

Lemma parseRows_elem (H : Host) (c : Columns) (i : nat)
    (lines : list string) (t : Trade) :
  t ∈ parseRows H c i lines ->
  exists j line, (i <= j)%nat /\ parseRow H c j line = Some t.
Proof.
  revert i. induction lines as [|l lines IH]; intros i; cbn.
  - intros Hin. inversion Hin.
  - destruct (parseRow H c i l) as [u|] eqn:E.
    + intros Hin. apply elem_of_cons in Hin as [->|Hin].
      * exists i, l. split; [lia|exact E].
      * destruct (IH _ Hin) as (j & line & Hj & Hp).
        exists j, line. split; [lia|exact Hp].
    + intros Hin. destruct (IH _ Hin) as (j & line & Hj & Hp).
      exists j, line. split; [lia|exact Hp].
Qed.

Lemma buildTrade_id (H : Host) (i : nat) (fields : list string)
    (c : Columns) : id (buildTrade H i fields c) = Z.of_nat i.
Proof. unfold buildTrade. destruct (timestamps H i fields c). now cbn. Qed.

Lemma parseRows_ids (H : Host) (c : Columns) (i : nat)
    (lines : list string) :
  Forall (fun t => (Z.of_nat i <= id t)%Z) (parseRows H c i lines)
  /\ StronglySorted earlierRow (parseRows H c i lines).
Proof.
  revert i. induction lines as [|l lines IH]; intros i; cbn.
  - split; constructor.
  - destruct (IH (S i)) as [Hge Hs].
    assert (Hge' : Forall (fun t => (Z.of_nat i < id t)%Z)
                     (parseRows H c (S i) lines)).
    { eapply Forall_impl; [exact Hge|]. cbn. intros t Ht. lia. }
    destruct (parseRow H c i l) as [u|] eqn:E.
    + apply parseRow_Some in E. subst u. split.
      * constructor; [rewrite buildTrade_id; lia|].
        eapply Forall_impl; [exact Hge'|]. cbn. intros; lia.
      * constructor; [exact Hs|].
        eapply Forall_impl; [exact Hge'|]. unfold earlierRow.
        intros t Ht. now rewrite buildTrade_id.
    + split; [|exact Hs].
      eapply Forall_impl; [exact Hge'|]. cbn. intros; lia.
Qed.

(** The three ways out of [normalize], in the order they are tested. *)
Lemma normalize_cases (H : Host) (text : string) :
  let lines := Str.split Str.is_newline (Str.trim text) in
  let columnMap := columnMapOf (tokenize (hd "" lines)) in
  normalize H text =
    if (length lines <? 2)%nat then inl NoDataRows
    else match missingColumns columnMap with
         | (_ :: _) as missing => inl (MissingColumns missing)
         | [] => match surviving H text with
                 | [] => inl NoValidTrades
                 | trades => inr (sortTrades trades)
                 end
         end.
Proof.
  unfold normalize, surviving. cbn zeta.
  destruct (Str.split Str.is_newline (Str.trim text)) as [|header rows];
    [reflexivity|].
  cbn [hd]. destruct (length (header :: rows) <? 2)%nat; [reflexivity|].
  destruct (missingColumns _); [|reflexivity].
  destruct (parseRows _ _ _ _); reflexivity.
Qed.

Lemma normalize_inr (H : Host) (text : string) (trades : list Trade) :
  normalize H text = inr trades ->
  trades = sortTrades (surviving H text) /\ surviving H text <> [].
Proof.
  rewrite normalize_cases. cbn zeta.
  destruct (_ <? _)%nat; [easy|].
  destruct (missingColumns _); [|easy].
  destruct (surviving H text) as [|t l]; [easy|].
  intros E. injection E as <-. split; [reflexivity|easy].
Qed.

End NormalizerFacts.

(** ** Errors, repairs and the order of the result *)

Module NormalizerClaims.
Import NormalizerFacts.

(** C5.  The import fails as a whole exactly when the text has fewer than two
    lines, or a required column has no header, or no line yields a trade;
    the error says which.  Nothing in a line can make it fail: the loop
    treats each line on its own, it skips a line only when the line is blank
    or too short, and every other line yields its trade whatever its
    timestamps and its P/L text are. *)
Theorem C5_abort_iff_header_level_failure (H : Host) (text : string) :
  let lines := Str.split Str.is_newline (Str.trim text) in
  let columnMap := columnMapOf (tokenize (hd "" lines)) in
  ((exists e, normalize H text = inl e) <->
     (length lines < 2)%nat \/ missingColumns columnMap <> []
     \/ surviving H text = [])
  /\ (normalize H text = inl NoDataRows <-> (length lines < 2)%nat)
  /\ (forall names, normalize H text = inl (MissingColumns names) <->
        (2 <= length lines)%nat /\ names <> []
        /\ missingColumns columnMap = names)
  /\ (normalize H text = inl NoValidTrades <->
        (2 <= length lines)%nat /\ missingColumns columnMap = []
        /\ surviving H text = [])
  /\ (forall c i before line after,
        parseRows H c i (before ++ line :: after)
        = parseRows H c i before
          ++ option_list (parseRow H c (i + length before) line)
          ++ parseRows H c (S (i + length before)) after)
  /\ (forall c i line,
        parseRow H c i line = None <-> Str.trim line = "" \/ tooShort c line)
  /\ (forall c i line,
        parseRow H c i line <> None <->
        parseRow H c i line = Some (buildTrade H i (tokenize line) c)).
Proof.
  intros lines columnMap.
  pose proof (normalize_cases H text) as E. cbn zeta in E.
  fold lines in E. fold columnMap in E.
  split; [|split; [|split; [|split; [|split; [|split]]]]].
  1-4: rewrite E; destruct (Nat.ltb_spec (length lines) 2) as [Hl|Hl];
    [|destruct (missingColumns columnMap) as [|n ns] eqn:Em;
      [destruct (surviving H text) as [|t ts] eqn:Es|]].
  1-16: try (intros names).
  1-16: split; intros Hyp;
    repeat match goal with
           | Hx : exists _, _ |- _ => destruct Hx
           | Hx : _ /\ _ |- _ => destruct Hx
           | Hx : _ \/ _ |- _ => destruct Hx
           end;
    try discriminate; try lia; try congruence; eauto;
    try (repeat split; try lia; congruence).
  - intros c i before line after. rewrite parseRows_app.
    cbn [parseRows].
    destruct (parseRow H c (i + length before) line); reflexivity.
  - intros c i line. apply parseRow_None.
  - intros c i line. split.
    + intros Hk. destruct (parseRow H c i line) as [t|] eqn:Ep; [|easy].
      now rewrite (parseRow_Some _ _ _ _ _ Ep).
    + intros Hk. now rewrite Hk.
Qed.
End NormalizerClaims.

Module OrderClaims.
Import NormalizerFacts.

Lemma StronglySorted_filter {A : Type} (R : A -> A -> Prop) (P : A -> Prop)
    `{!forall x, Decision (P x)} (l : list A) :
  StronglySorted R l -> StronglySorted R (filter P l).
Proof.
  induction 1 as [|x l Hs IH Hx]; [constructor|].
  rewrite filter_cons. case_decide; [|exact IH].
  constructor; [exact IH|].
  apply Forall_forall. intros y Hy.
  apply list_elem_of_filter in Hy as [_ Hy].
  rewrite Forall_forall in Hx. now apply Hx.
Qed.

Lemma timestamps_replaced (H : Host) (i : nat) (fields : list string)
    (c : Columns) :
  dateField H fields (buyTimeCol c) = None
  \/ dateField H fields (sellTimeCol c) = None ->
  timestamps H i fields c = (now H i, now H i + 3600000).
Proof.
  unfold timestamps. intros [-> | ->]; [reflexivity|].
  destruct (dateField H fields (buyTimeCol c)); reflexivity.
Qed.

(** C7.  A line with an unreadable entry or exit timestamp (a line that is
    not blank and has a field at every required position) still yields its
    trade: the entry time is the clock, the exit time is one hour
    (3600000 ms) later, also when one of the two texts was readable; and an
    import that contains such a line under a complete header succeeds and
    lists that trade. *)
Theorem C7_unreadable_timestamp_is_replaced (H : Host) (c : Columns)
    (i : nat) (line : string) :
  Str.trim line <> "" ->
  ~ tooShort c line ->
  dateField H (tokenize line) (buyTimeCol c) = None
  \/ dateField H (tokenize line) (sellTimeCol c) = None ->
  exists t,
    parseRow H c i line = Some t
    /\ entryTime t = now H i
    /\ exitTime t = now H i + 3600000
    /\ forall text header before after,
         Str.split Str.is_newline (Str.trim text)
         = header :: before ++ line :: after ->
         missingColumns (columnMapOf (tokenize header)) = [] ->
         c = resolveColumns (columnMapOf (tokenize header)) ->
         i = S (length before) ->
         exists trades, normalize H text = inr trades /\ t ∈ trades.
Proof.
  intros Hblank Hshort Hbad.
  exists (buildTrade H i (tokenize line) c).
  split; [now apply parseRow_kept|].
  split; [|split].
  1-2: unfold buildTrade;
    rewrite (timestamps_replaced H i _ c Hbad); reflexivity.
  intros text header before after Hlines Hmiss -> ->.
  pose proof (normalize_cases H text) as E. cbn zeta in E.
  assert (Hsurv : surviving H text
                  = parseRows H (resolveColumns (columnMapOf (tokenize header)))
                      1 (before ++ line :: after)).
  { unfold surviving. now rewrite Hlines. }
  rewrite Hlines in E. cbn [hd] in E. rewrite Hmiss in E.
  replace (length (header :: before ++ line :: after) <? 2)%nat
    with false in E.
  2:{ symmetry. apply Nat.ltb_ge. cbn. rewrite length_app. cbn. lia. }
  assert (Hin : buildTrade H (S (length before)) (tokenize line)
                  (resolveColumns (columnMapOf (tokenize header)))
                ∈ surviving H text).
  { rewrite Hsurv, parseRows_app. cbn [parseRows].
    rewrite (parseRow_kept _ _ _ _ Hblank Hshort).
    apply elem_of_app. right. apply elem_of_cons. now left. }
  destruct (surviving H text) as [|t0 ts] eqn:Es.
  - inversion Hin.
  - eexists. split; [exact E|].
    rewrite sortTrades_perm. exact Hin.
Qed.

(** C8.  The imported list shows the newest entry time first, it holds
    exactly the trades of the lines in some order, and trades with the same
    entry time stand in the order of their lines. *)
Theorem C8_newest_first_and_stable (H : Host) (text : string)
    (trades : list Trade) :
  normalize H text = inr trades ->
  StronglySorted newerFirst trades
  /\ trades ≡ₚ surviving H text
  /\ StronglySorted earlierRow (surviving H text)
  /\ (forall time,
        filter (fun t => entryTime t = time) trades
        = filter (fun t => entryTime t = time) (surviving H text))
  /\ (forall time,
        StronglySorted earlierRow
          (filter (fun t => entryTime t = time) trades)).
Proof.
  intros E. apply normalize_inr in E as [-> _].
  assert (Hrows : StronglySorted earlierRow (surviving H text)).
  { unfold surviving.
    destruct (Str.split Str.is_newline (Str.trim text)); [constructor|].
    apply parseRows_ids. }
  split; [apply sortTrades_sorted|].
  split; [apply sortTrades_perm|].
  split; [exact Hrows|].
  split; intros time; rewrite sortTrades_stable; [reflexivity|].
  now apply StronglySorted_filter.
Qed.

End OrderClaims.

(** ** The sign of a recomputed P/L and the two direction tests *)

Module SignClaims.
Import NumFacts PnlFacts NormalizerFacts.

Lemma normalize_typedByPrices (H : Host) (text : string)
    (trades : list Trade) :
  normalize H text = inr trades -> Forall typedByPrices trades.
Proof.
  intros E. apply normalize_inr in E as [-> _].
  apply Forall_forall. intros t Ht.
  rewrite sortTrades_perm in Ht. unfold surviving in Ht.
  destruct (Str.split Str.is_newline (Str.trim text)) as [|header rows];
    [inversion Ht|].
  apply parseRows_elem in Ht as (j & line & _ & Hp).
  apply parseRow_Some in Hp as ->. apply buildTrade_typedByPrices.
Qed.

(** Every trade the component ever holds has the type its prices give. *)
Lemma reachable_typedByPrices (st : Store) :
  reachable st -> Forall typedByPrices (tradeList st).
Proof.
  induction 1 as [|H text st Hr IH|m st Hr IH|tradeId slot data st Hs Hr IH
                 |tradeId slot st Hs Hr IH].
  - constructor.
  - unfold parseCSV. destruct (normalize H text) as [e|trades] eqn:E.
    + exact IH.
    + cbn. eapply normalize_typedByPrices, E.
  - unfold applyDebugMultiplier. destruct m as [m|]; [|exact IH].
    destruct (Num.truthy m); [|exact IH]. cbn.
    apply Forall_fmap. eapply Forall_impl; [exact IH|].
    intros t Ht. now apply recalculateTrade_typedByPrices.
  - exact IH.
  - exact IH.
Qed.

Lemma notNegative_or_number (x : num) :
  notNegative x ->
  Num.ltb x (Num.of_Z 0) = false
  /\ (Num.isNaN x = false -> Num.geb x (Num.of_Z 0) = true).
Proof. intros Hx. split; [exact Hx|]. intros Hn. now apply geb_notNegative. Qed.

(** C3, as amended.  A P/L that is recomputed from the prices is never
    negative when the quantity is not negative: the direction factor turns
    the price difference into its absolute value.  This holds for the fallback of an
    unreadable P/L text, for every row, and for the debug recalculation with
    a multiplier that is not negative, for every trade a reachable store
    holds.  The result is zero, positive, or not a number (when a price or
    the quantity is not a number, or infinite). *)
Theorem C3_recomputed_pnl_is_never_negative :
  (forall (H : Host) (i : nat) (fields : list string) (c : Columns),
      let t := buildTrade H i fields c in
      pnlRecomputed fields c = true ->
      Num.geb (quantity t) (Num.of_Z 0) = true ->
      profitLoss t
      = Num.mul
          (Num.mul (Num.abs (Num.sub (exitPrice t) (entryPrice t)))
             (quantity t))
          (Num.of_Z 100)
      /\ Num.ltb (profitLoss t) (Num.of_Z 0) = false
      /\ (Num.isNaN (profitLoss t) = false ->
          Num.geb (profitLoss t) (Num.of_Z 0) = true))
  /\ (forall (st : Store) (t : Trade) (m : num),
        reachable st ->
        t ∈ tradeList st ->
        isXAUUSD t = true ->
        Num.geb m (Num.of_Z 0) = true ->
        Num.geb (quantity t) (Num.of_Z 0) = true ->
        let newPL := profitLoss (recalculateTrade m t) in
        newPL
        = Num.mul
            (Num.mul (Num.abs (Num.sub (exitPrice t) (entryPrice t))) m)
            (quantity t)
        /\ Num.ltb newPL (Num.of_Z 0) = false
        /\ (Num.isNaN newPL = false ->
            Num.geb newPL (Num.of_Z 0) = true)).
Proof.
  split.
  - intros H i fields c t Hrec Hq.
    destruct (buildTrade_pnl H i fields c) as (Hp & _).
    destruct (buildTrade_prices H i fields c) as (He & Hx & Hqty).
    fold t in Hp, He, Hx, Hqty.
    assert (Hpl : profitLoss t
                  = fallbackPnl (entryPrice t) (exitPrice t) (quantity t)).
    { rewrite Hp, He, Hx, Hqty. unfold parsePnl, pnlRecomputed in *.
      destruct (field fields (pnlCol c)) as [raw|]; [|reflexivity].
      now rewrite Hrec. }
    split; [rewrite Hpl; apply fallbackPnl_abs|].
    apply notNegative_or_number. rewrite Hpl.
    apply fallbackPnl_notNegative. now apply notNegative_geb.
  - intros st t m Hr Hin Hx Hm Hq newPL.
    assert (Ht : typedByPrices t).
    { pose proof (reachable_typedByPrices st Hr) as Hall.
      rewrite Forall_forall in Hall. now apply Hall. }
    assert (Hpl : newPL = recalculatedPnl m t).
    { unfold newPL, recalculateTrade. now rewrite Hx. }
    split; [rewrite Hpl; now apply recalculatedPnl_abs|].
    apply notNegative_or_number. rewrite Hpl.
    apply recalculatedPnl_notNegative; auto using notNegative_geb.
Qed.

Lemma leb_negb_gtb (x y : num) :
  Num.isNaN x = false -> Num.isNaN y = false ->
  Num.leb x y = negb (Num.gtb x y).
Proof.
  unfold Num.gtb.
  destruct x as [|s|p], y as [|t|q]; cbn; try easy; intros _ _;
    repeat match goal with b : bool |- _ => destruct b end;
    try reflexivity.
  apply Qc_leb_ltb.
Qed.

(** C6, as amended.  On a row whose two prices are numbers the trade type
    and the direction of the fallback agree: [Long] goes with [+1] and with
    [entryPrice <= exitPrice], [Short] goes with [-1] and with
    [entryPrice > exitPrice].  When a price is not a number the type is
    [Short] and the direction is [+1]. *)
Theorem C6_directions_agree_on_numbers (H : Host) (i : nat)
    (fields : list string) (c : Columns) :
  let t := buildTrade H i fields c in
  (Num.isNaN (entryPrice t) = false ->
   Num.isNaN (exitPrice t) = false ->
   (tradeType t = Long <-> direction (entryPrice t) (exitPrice t) = 1)
   /\ (tradeType t = Short <-> direction (entryPrice t) (exitPrice t) = -1)
   /\ (tradeType t = Long <-> Num.leb (entryPrice t) (exitPrice t) = true)
   /\ (tradeType t = Short <-> Num.gtb (entryPrice t) (exitPrice t) = true))
  /\ (Num.isNaN (entryPrice t) = true \/ Num.isNaN (exitPrice t) = true ->
      tradeType t = Short /\ direction (entryPrice t) (exitPrice t) = 1).
Proof.
  intros t. pose proof (buildTrade_tradeType H i fields c) as Ht.
  cbn zeta in Ht. fold t in Ht. rewrite Ht. unfold direction. split.
  - intros He Hx. rewrite (leb_negb_gtb _ _ He Hx).
    destruct (Num.gtb (entryPrice t) (exitPrice t)); cbn;
      repeat split; intros; congruence || lia || eauto.
  - unfold Num.gtb.
    destruct (entryPrice t) as [|s|p], (exitPrice t) as [|u|q];
      cbn; intros [?|?]; try discriminate; split; reflexivity.
Qed.

End SignClaims.

Module SignWitnesses.
Import PnlClaims SignClaims.

Lemma C2_witness :
  field (Sample.fieldsWith "1900" "1905" "1" "garbage")
    (pnlCol Sample.columns) = Some "garbage"
  /\ Num.isNaN (pnl (readPnl (Str.trim "garbage"))) = true
  /\ profitLoss (Sample.tradeOf 1 "1900" "1905" "1" "garbage")
     = Num.mul
         (Num.mul
            (Num.mul (Num.of_Z 1)
               (Num.sub (Num.of_Z 1905) (Num.of_Z 1900)))
            (Num.of_Z 1))
         (Num.of_Z 100).
Proof.
  split; [reflexivity|]. split; [reflexivity|].
  unfold Sample.tradeOf.
  rewrite (proj1 C2_unparseable_pnl_is_recomputed Sample.host 1%nat
             (Sample.fieldsWith "1900" "1905" "1" "garbage") Sample.columns
             "garbage" eq_refl eq_refl).
  reflexivity.
Defined.

Lemma C3_witness :
  (pnlRecomputed (Sample.fieldsWith "1905" "1900" "1" "garbage")
     Sample.columns = true
   /\ Num.geb (quantity (Sample.tradeOf 1 "1905" "1900" "1" "garbage"))
        (Num.of_Z 0) = true
   /\ Num.ltb (profitLoss (Sample.tradeOf 1 "1905" "1900" "1" "garbage"))
        (Num.of_Z 0) = false)
  /\ Forall
       (fun u =>
          Num.ltb (profitLoss (recalculateTrade (Num.of_Z 10) u))
            (Num.of_Z 0) = false)
       (tradeList Sample.oneTradeStore).
Proof.
  split.
  - split; [reflexivity|]. split; [reflexivity|].
    apply (proj1 C3_recomputed_pnl_is_never_negative Sample.host 1%nat
             (Sample.fieldsWith "1905" "1900" "1" "garbage") Sample.columns);
      reflexivity.
  - apply Forall_forall. intros u Hu.
    apply (proj2 C3_recomputed_pnl_is_never_negative
             Sample.oneTradeStore u (Num.of_Z 10)).
    + apply reach_import, reach_initial.
    + exact Hu.
    + revert Hu. vm_compute. intros Hu.
      apply list_elem_of_singleton in Hu. now subst u.
    + reflexivity.
    + revert Hu. vm_compute. intros Hu.
      apply list_elem_of_singleton in Hu. now subst u.
Defined.

(** C3 as stated fails on a row whose buy price is not a number: its
    quantity is 1 and its P/L is recomputed from the prices, but the result
    is not a number, so it is not at least 0; the same holds for the debug
    recalculation of that trade with the multiplier 10. *)
Lemma C3_counterexample_unreadable_price :
  pnlRecomputed (Sample.fieldsWith "abc" "1905" "1" "garbage")
    Sample.columns = true
  /\ Num.geb (quantity (Sample.tradeOf 1 "abc" "1905" "1" "garbage"))
       (Num.of_Z 0) = true
  /\ profitLoss (Sample.tradeOf 1 "abc" "1905" "1" "garbage") = NaN
  /\ Num.geb (profitLoss (Sample.tradeOf 1 "abc" "1905" "1" "garbage"))
       (Num.of_Z 0) = false
  /\ isXAUUSD (Sample.tradeOf 1 "abc" "1905" "1" "garbage") = true
  /\ Num.geb (Num.of_Z 10) (Num.of_Z 0) = true
  /\ Num.geb
       (profitLoss
          (recalculateTrade (Num.of_Z 10)
             (Sample.tradeOf 1 "abc" "1905" "1" "garbage")))
       (Num.of_Z 0) = false.
Proof. repeat split; vm_compute; reflexivity. Qed.

(** C6 as stated fails on a row whose buy price is not a number: the trade
    is [Short] while the direction of the fallback is [+1]. *)
Lemma C6_counterexample_unreadable_price :
  tradeType (Sample.tradeOf 1 "abc" "1905" "1" "garbage") = Short
  /\ direction (entryPrice (Sample.tradeOf 1 "abc" "1905" "1" "garbage"))
       (exitPrice (Sample.tradeOf 1 "abc" "1905" "1" "garbage")) = 1
  /\ ~ (tradeType (Sample.tradeOf 1 "abc" "1905" "1" "garbage") = Long
        <-> direction
              (entryPrice (Sample.tradeOf 1 "abc" "1905" "1" "garbage"))
              (exitPrice (Sample.tradeOf 1 "abc" "1905" "1" "garbage")) = 1).
Proof.
  split; [reflexivity|]. split; [reflexivity|].
  intros [_ Hd]. discriminate (Hd eq_refl).
Qed.

Lemma C6_witness :
  Num.isNaN (entryPrice (Sample.tradeOf 1 "1905" "1900" "1" "garbage"))
  = false
  /\ Num.isNaN (exitPrice (Sample.tradeOf 1 "1905" "1900" "1" "garbage"))
     = false
  /\ (tradeType (Sample.tradeOf 1 "1905" "1900" "1" "garbage") = Short
      <-> direction
            (entryPrice (Sample.tradeOf 1 "1905" "1900" "1" "garbage"))
            (exitPrice (Sample.tradeOf 1 "1905" "1900" "1" "garbage")) = -1).
Proof.
  split; [reflexivity|]. split; [reflexivity|].
  apply (proj1 (C6_directions_agree_on_numbers Sample.host 1%nat
                  (Sample.fieldsWith "1905" "1900" "1" "garbage")
                  Sample.columns)); reflexivity.
Defined.

End SignWitnesses.

(** ** Reading the P/L text *)

Module ReadFacts.
Import Str ParseFloat NumFacts PnlFacts.

Lemma span_digits_digits (l ds rest : list ascii) :
  span_digits l = (ds, rest) -> Forall (fun c => is_digit c = true) ds.
Proof.
  revert ds rest. induction l as [|c l IH]; cbn; intros ds rest E.
  - injection E as <- <-. constructor.
  - destruct (is_digit c) eqn:Ec.
    + destruct (span_digits l) as [ds' rest'].
      injection E as <- <-. constructor; [exact Ec|]. eapply IH. reflexivity.
    + injection E as <- <-. constructor.
Qed.

Lemma digit_val_nonneg (c : ascii) : is_digit c = true -> 0 <= digit_val c.
Proof.
  unfold is_digit, digit_val. intros E%andb_prop. destruct E as [E _].
  apply N.leb_le in E. lia.
Qed.

Lemma fold_digits_nonneg (ds : list ascii) (acc : Z) :
  Forall (fun c => is_digit c = true) ds -> 0 <= acc ->
  0 <= fold_left (fun a c => 10 * a + digit_val c) ds acc.
Proof.
  intros Hds. revert acc.
  induction Hds as [|c ds Hc Hds IH]; intros acc Hacc; cbn.
  - exact Hacc.
  - apply IH. apply digit_val_nonneg in Hc. lia.
Qed.

Lemma digits_val_nonneg (ds : list ascii) :
  Forall (fun c => is_digit c = true) ds -> 0 <= digits_val ds.
Proof. intros Hds. now apply fold_digits_nonneg. Qed.

Lemma pow10_nonneg (e : Z) : (0 <= pow10 e)%Q.
Proof. apply Qpower_0_le. easy. Qed.

Lemma decimal_nonneg (m e : Z) :
  0 <= m -> (0 <= Q2Qc (inject_Z m * pow10 e))%Qc.
Proof.
  intros Hm. unfold Qcle, Q2Qc. cbn [this].
  change (Qred 0) with 0%Q. rewrite Qred_correct.
  apply Qmult_le_0_compat; [|apply pow10_nonneg].
  change 0%Q with (inject_Z 0). now rewrite <- Zle_Qle.
Qed.

Lemma Qc_opp_nonpos (q : Qc) : (0 <= q -> - q <= 0)%Qc.
Proof.
  unfold Qcle, Qcopp. intros Hq.
  change (Qred (- q) <= 0)%Q. rewrite Qred_correct.
  change (this 0%Qc) with 0%Q in Hq. lra.
Qed.

Lemma neg_notPositive (x : num) : notNegative x -> notPositive (Num.neg x).
Proof.
  unfold notNegative, notPositive, Num.gtb.
  change (Num.of_Z 0) with (Fin 0%Qc).
  destruct x as [|s|q]; cbn; try easy.
  - now intros ->.
  - intros Hq. apply Qc_ltb_ge. apply Qc_ltb_ge in Hq.
    now apply Qc_opp_nonpos.
Qed.

(** A text that begins with a minus sign never reads as a positive number. *)
Lemma parseFloat_minus (s : string) (l : list ascii) :
  chars s = "-"%char :: l -> notPositive (parseFloat s).
Proof.
  intros Hs. unfold parseFloat. rewrite Hs.
  change (drop_ws ("-"%char :: l)) with ("-"%char :: l).
  change (take_sign ("-"%char :: l)) with (true, l).
  cbv iota beta.
  destruct (String.prefix "Infinity" (of_chars l)); [reflexivity|].
  destruct (span_digits l) as [ip l1] eqn:Eip.
  apply span_digits_digits in Eip.
  set (frac := match l1 with
               | c :: l1' =>
                   if (code c =? 46)%N then span_digits l1' else ([], l1)
               | [] => ([], [])
               end).
  assert (Hfp : Forall (fun c => is_digit c = true) (fst frac)).
  { unfold frac. destruct l1 as [|c l1']; [constructor|].
    destruct (code c =? 46)%N; [|constructor].
    destruct (span_digits l1') as [fp l2] eqn:Efp.
    now apply span_digits_digits in Efp. }
  destruct frac as [fp l2]. cbn [fst] in Hfp.
  assert (Hds : Forall (fun c => is_digit c = true) (ip ++ fp))
    by now apply Forall_app.
  destruct (ip ++ fp) as [|d ds] eqn:Eds; [reflexivity|].
  unfold notPositive, Num.gtb. change (Num.of_Z 0) with (Fin 0%Qc).
  cbn [Num.ltb]. apply Qc_ltb_ge. apply Qc_opp_nonpos.
  apply decimal_nonneg. now apply digits_val_nonneg.
Qed.

Lemma drop_ws_snoc (l : list ascii) (c : ascii) :
  is_ws c = false -> exists l', drop_ws (l ++ [c]) = l' ++ [c].
Proof.
  intros Hc. induction l as [|a l IH]; cbn.
  - rewrite Hc. now exists [].
  - destruct (is_ws a); [exact IH|]. now exists (a :: l).
Qed.

Lemma trim_keeps_first (c : ascii) (x : string) :
  is_ws c = false -> exists l, chars (trim (String c x)) = c :: l.
Proof.
  intros Hc. unfold trim, chars, of_chars.
  cbn [list_ascii_of_string drop_ws]. rewrite Hc.
  cbn [rev].
  destruct (drop_ws_snoc (rev (list_ascii_of_string x)) c Hc) as [l' ->].
  rewrite rev_app_distr. cbn [rev app].
  rewrite list_ascii_of_string_of_list_ascii. now eexists.
Qed.

Lemma startsWith_minus (s : string) :
  startsWith s "-" = true -> exists s', s = String "-" s'.
Proof.
  unfold startsWith. destruct s as [|c s']; cbn [String.prefix]; [easy|].
  destruct (ascii_dec "-" c) as [<-|]; [|easy]. now eexists.
Qed.

(** A text that begins with a minus sign still does after it is cleaned. *)
Lemma clean_minus (s : string) :
  startsWith s "-" = true ->
  notPositive (parseFloat (trim (strip_currency_commas s))).
Proof.
  intros [s' ->]%startsWith_minus.
  unfold strip_currency_commas.
  change (delete_tokens currency_symbols_and_comma 0 (String "-" s'))
    with (String "-" (delete_tokens currency_symbols_and_comma 0 s')).
  destruct (trim_keeps_first "-"
              (delete_tokens currency_symbols_and_comma 0 s') eq_refl)
    as [l Hl].
  exact (parseFloat_minus _ _ Hl).
Qed.

Lemma readPnl_225 :
  readPnl "$(225.00)"
  = {| pnl := Num.of_Z (-225);
       originalPnl := "-$225.00";
       displayNegative := true |}.
Proof.
  vm_compute. apply (f_equal (fun x => mkPnl x _ _)).
  apply (f_equal Fin). apply Qc_is_canon. reflexivity.
Qed.

End ReadFacts.

Module ReadClaims.
Import Str NumFacts PnlFacts ReadFacts.

Lemma parsePnl_read (fields : list string) (c : Columns)
    (buyPrice sellPrice quantity : num) (raw : string) :
  field fields (pnlCol c) = Some raw ->
  let r := readPnl (trim raw) in
  let p := parsePnl fields c buyPrice sellPrice quantity in
  originalPnl p = originalPnl r
  /\ displayNegative p = displayNegative r
  /\ (Num.isNaN (pnl r) = false -> pnl p = pnl r).
Proof.
  intros Hraw r p. unfold p, parsePnl. rewrite Hraw. fold r.
  destruct (Num.isNaN (pnl r)); cbn; repeat split; congruence.
Qed.

Lemma isNaN_neg (x : num) : Num.isNaN (Num.neg x) = Num.isNaN x.
Proof. now destruct x. Qed.

Lemma isNaN_abs (x : num) : Num.isNaN (Num.abs x) = Num.isNaN x.
Proof. now destruct x. Qed.

(** The reading of a P/L text, case by case.  The trimmed P/L text [s] of a
    row is read by the first of four cases that applies.
    (a) [s] starts with [$(] and ends with [)]: the P/L is minus the number
        read from the enclosed text and the display text is [-$] followed by
        the enclosed text.
    (b) Otherwise [s] starts with [(] and ends with [)]: the P/L is minus the
        absolute value of the number read from the enclosed text without
        currency symbols and commas; it is negative or zero.
    (c) Otherwise [s] starts with [-]: the P/L is the number read from [s]
        without currency symbols and commas; it is negative or zero.
    (d) Otherwise the P/L is the number read from [s] without currency
        symbols and commas, with the sign the text gives it.
    In (c) and (d) the display text is [s]; [shouldDisplayAsNegative] is set
    exactly in (a), (b) and (c).  Each P/L is meant for a text that reads as
    a number.  The text [$(225.00)] gives the P/L -225 and the display text
    [-$225.00]. *)
Lemma pnl_reading_cases (H : Host) (i : nat)
    (fields : list string) (c : Columns) (raw : string) :
  field fields (pnlCol c) = Some raw ->
  let s := trim raw in
  let t := buildTrade H i fields c in
  let enclosed2 := substring s 2 (String.length s - 1) in
  let enclosed1 := substring s 1 (String.length s - 1) in
  let clean := fun x => trim (strip_currency_commas x) in
  let caseA := startsWith s "$(" && endsWith s ")" in
  let caseB := negb caseA && (startsWith s "(" && endsWith s ")") in
  let caseC := negb caseA && negb caseB && startsWith s "-" in
  let caseD := negb caseA && negb caseB && negb caseC in
  (caseA = true ->
     originalPnlString t = "-$" +:+ enclosed2
     /\ (Num.isNaN (parseFloat enclosed2) = false ->
         profitLoss t = Num.neg (parseFloat enclosed2)))
  /\ (caseB = true ->
        originalPnlString t = "-$" +:+ strip_currency enclosed1
        /\ (Num.isNaN (parseFloat (clean enclosed1)) = false ->
            profitLoss t = Num.neg (Num.abs (parseFloat (clean enclosed1)))
            /\ Num.gtb (profitLoss t) (Num.of_Z 0) = false))
  /\ (caseC = true ->
        originalPnlString t = s
        /\ (Num.isNaN (parseFloat (clean s)) = false ->
            profitLoss t = parseFloat (clean s)
            /\ Num.gtb (profitLoss t) (Num.of_Z 0) = false))
  /\ (caseD = true ->
        originalPnlString t = s
        /\ (Num.isNaN (parseFloat (clean s)) = false ->
            profitLoss t = parseFloat (clean s)))
  /\ shouldDisplayAsNegative t = caseA || caseB || caseC
  /\ (s = "$(225.00)" ->
        profitLoss t = Num.of_Z (-225)
        /\ originalPnlString t = "-$225.00"
        /\ shouldDisplayAsNegative t = true).
Proof.
  intros Hraw s t enclosed2 enclosed1 clean caseA caseB caseC caseD.
  destruct (buildTrade_pnl H i fields c) as (Hp & Ho & Hd & _).
  fold t in Hp, Ho, Hd.
  destruct (parsePnl_read fields c (floatField fields (buyPriceCol c))
              (floatField fields (sellPriceCol c))
              (floatField fields (qtyCol c)) raw Hraw) as (Ho' & Hd' & Hp').
  cbn zeta in Ho', Hd', Hp'. fold s in Ho', Hd', Hp'.
  rewrite <- Hp in Hp'. rewrite <- Ho in Ho'. rewrite <- Hd in Hd'.
  clear Hp Ho Hd.
  assert (Hex : s = "$(225.00)" ->
                profitLoss t = Num.of_Z (-225)
                /\ originalPnlString t = "-$225.00"
                /\ shouldDisplayAsNegative t = true).
  { intros Es. rewrite Es in *. rewrite readPnl_225 in *.
    repeat split; auto. }
  revert Ho' Hd' Hp'. unfold readPnl.
  fold enclosed2. fold enclosed1.
  unfold caseD, caseC, caseB, caseA.
  destruct (startsWith s "$(" && endsWith s ")") eqn:EA;
    [|destruct (startsWith s "(" && endsWith s ")") eqn:EB;
      [|destruct (startsWith s "-") eqn:EC]];
    cbn [pnl originalPnl displayNegative negb andb orb];
    intros Ho' Hd' Hp'.
  - split; [intros _; split; [exact Ho'|]|].
    { intros Hn. apply Hp'. now rewrite isNaN_neg. }
    repeat (split; [discriminate|]). split; [exact Hd'|exact Hex].
  - split; [discriminate|].
    split; [intros _; split; [exact Ho'|]|].
    { intros Hn. rewrite Hp' by now rewrite isNaN_neg, isNaN_abs.
      split; [reflexivity|]. apply neg_notPositive, notNegative_abs. }
    repeat (split; [discriminate|]). split; [exact Hd'|exact Hex].
  - repeat (split; [discriminate|]).
    split; [intros _; split; [exact Ho'|]|].
    { intros Hn. rewrite (Hp' Hn). split; [reflexivity|].
      now apply clean_minus. }
    split; [discriminate|]. split; [exact Hd'|exact Hex].
  - repeat (split; [discriminate|]).
    split; [intros _; split; [exact Ho'|exact Hp']|].
    split; [exact Hd'|exact Hex].
Qed.

(** The text [$(225.00)] of the sample file, read by the first case. *)
Lemma pnl_reading_cases_225 :
  field (Sample.fieldsWith "1900" "1890" "1" "$(225.00)")
    (pnlCol Sample.columns) = Some "$(225.00)"
  /\ profitLoss (Sample.tradeOf 2 "1900" "1890" "1" "$(225.00)")
     = Num.of_Z (-225)
  /\ originalPnlString (Sample.tradeOf 2 "1900" "1890" "1" "$(225.00)")
     = "-$225.00"
  /\ shouldDisplayAsNegative (Sample.tradeOf 2 "1900" "1890" "1" "$(225.00)")
     = true.
Proof.
  split; [reflexivity|].
  apply (pnl_reading_cases Sample.host 2%nat
           (Sample.fieldsWith "1900" "1890" "1" "$(225.00)") Sample.columns
           "$(225.00)" eq_refl).
  reflexivity.
Defined.

(** C1, on the P/L text [$-5.00]: the text starts with neither [$(], [(]
    nor [-], so it is read by the last case, the one the source calls a
    normal positive number.  Its P/L is -5, which is not positive, the
    trade is not flagged as negative and it counts as winning.  The same
    loss written [-$5.00] is read by the third case: its P/L is -5 as well,
    and the trade is flagged as negative and does not count as winning. *)
Theorem C1_minus_after_currency_counts_as_winning (H : Host) (i : nat) :
  let written :=
    buildTrade H i (Sample.fieldsWith "1900" "1895" "1" "$-5.00")
      Sample.columns in
  let sibling :=
    buildTrade H i (Sample.fieldsWith "1900" "1895" "1" "-$5.00")
      Sample.columns in
  (startsWith "$-5.00" "$(" = false
   /\ startsWith "$-5.00" "(" = false
   /\ startsWith "$-5.00" "-" = false)
  /\ (profitLoss written = Num.of_Z (-5)
      /\ Num.gtb (profitLoss written) (Num.of_Z 0) = false
      /\ Num.ltb (profitLoss written) (Num.of_Z 0) = true
      /\ originalPnlString written = "$-5.00"
      /\ shouldDisplayAsNegative written = false
      /\ isWinning written = true)
  /\ (profitLoss sibling = Num.of_Z (-5)
      /\ originalPnlString sibling = "-$5.00"
      /\ shouldDisplayAsNegative sibling = true
      /\ isWinning sibling = false).
Proof.
  intros written sibling.
  destruct (buildTrade_pnl H i
              (Sample.fieldsWith "1900" "1895" "1" "$-5.00") Sample.columns)
    as (Hp & Ho & Hd & Hw).
  destruct (buildTrade_pnl H i
              (Sample.fieldsWith "1900" "1895" "1" "-$5.00") Sample.columns)
    as (Hp' & Ho' & Hd' & Hw').
  fold written in Hp, Ho, Hd, Hw. fold sibling in Hp', Ho', Hd', Hw'.
  split; [repeat split; reflexivity|].
  rewrite Hp, Ho, Hd, Hw, Hp', Ho', Hd', Hw'.
  repeat split; vm_compute; reflexivity.
Qed.

End ReadClaims.

(** ** The image map *)

Module ImageFacts.

Lemma spread_id (a : list cell) : Forall nullOrImage a -> spread a = a.
Proof.
  unfold spread. induction 1 as [|c a Hc Ha IH]; cbn [map]; [reflexivity|].
  rewrite IH. f_equal. destruct Hc as [->|[d ->]]; reflexivity.
Qed.

Lemma assign_inside (a : list cell) (i : nat) (v : cell) :
  (i < length a)%nat -> assign a i v = <[i := v]> a.
Proof.
  intros Hi. unfold assign.
  destruct (Nat.ltb_spec i (length a)); [reflexivity|lia].
Qed.

Lemma everyNull_true (a : list cell) :
  Forall nullOrImage a ->
  everyNull a = true <-> forall j, (j < length a)%nat -> a !! j = Some Null.
Proof.
  induction 1 as [|c a Hc Ha IH]; cbn.
  - split; [intros _ j Hj; lia|reflexivity].
  - rewrite andb_true_iff, IH. split.
    + intros [Hn Hrest] [|j] Hj; cbn.
      * destruct Hc as [->|[d ->]]; [reflexivity|discriminate].
      * apply Hrest. lia.
    + intros Hall. split.
      * specialize (Hall 0%nat ltac:(lia)). cbn in Hall.
        injection Hall as ->. reflexivity.
      * intros j Hj. apply (Hall (S j)). lia.
Qed.

Lemma everyNull_image (a : list cell) (j : nat) (data : string) :
  a !! j = Some (Image data) -> everyNull a = false.
Proof.
  unfold everyNull. revert j.
  induction a as [|c a IH]; intros [|j]; cbn [forallb lookup list_lookup];
    try easy.
  - now intros [= ->].
  - intros Hj. rewrite (IH _ Hj). apply andb_false_r.
Qed.

Lemma nullOrImage_insert (a : list cell) (i : nat) (v : cell) :
  nullOrImage v -> Forall nullOrImage a -> Forall nullOrImage (<[i := v]> a).
Proof. intros Hv Ha. now apply Forall_insert. Qed.

Lemma imagesWithin_weaken (tradeId : Z) (allowed allowed' : list nat)
    (m : gmap Z (list cell)) :
  (forall j, j ∈ allowed -> j ∈ allowed') ->
  imagesWithin tradeId allowed m -> imagesWithin tradeId allowed' m.
Proof.
  unfold imagesWithin. intros Hsub.
  destruct (m !! tradeId); [|easy]. intros [Hw Hin]. eauto.
Qed.

(** One upload keeps the entry well formed and adds its slot. *)
Lemma attach_step (tradeId : Z) (slot : nat) (data : string)
    (allowed : list nat) (m : gmap Z (list cell)) :
  (slot < 3)%nat ->
  imagesWithin tradeId allowed m ->
  imagesWithin tradeId (slot :: allowed)
    (handleImageUpload (Some tradeId) (Some slot) data m).
Proof.
  intros Hslot Hm. unfold handleImageUpload.
  destruct (tradeId =? 0)%Z.
  { eapply imagesWithin_weaken; [|exact Hm]. intros j Hj. now right. }
  unfold imagesWithin in *. unfold attachImage.
  rewrite lookup_insert_eq.
  assert (Ha : exists a, default [Null; Null; Null] (m !! tradeId) = a
                 /\ length a = 3%nat /\ Forall nullOrImage a
                 /\ forall j d, a !! j = Some (Image d) -> j ∈ allowed).
  { destruct (m !! tradeId) as [a|]; cbn.
    - destruct Hm as ((Hl & Hc & _) & Hin). eauto.
    - eexists. split; [reflexivity|]. split; [reflexivity|].
      split; [repeat constructor; now left|].
      intros [|[|[|j]]] d; cbn; discriminate. }
  destruct Ha as (a & -> & Hl & Hc & Hin).
  rewrite (spread_id _ Hc), assign_inside by lia.
  split; [split; [|split]|].
  - now rewrite length_insert.
  - apply nullOrImage_insert; [right; eauto|exact Hc].
  - apply (everyNull_image _ slot data).
    apply list_lookup_insert_eq. lia.
  - intros j d Hj. destruct (decide (j = slot)) as [->|Hne].
    + now left.
    + right. rewrite list_lookup_insert_ne in Hj by congruence. eauto.
Qed.

(** What a click on a remove button does to a well-formed entry. *)
Lemma removeImage_wellFormed (tradeId : Z) (slot : nat) (a : list cell)
    (m : gmap Z (list cell)) :
  (slot < 3)%nat -> m !! tradeId = Some a -> wellFormedSlots a ->
  removeImage tradeId slot m
  = if everyNull (<[slot := Null]> a) then delete tradeId m
    else <[tradeId := <[slot := Null]> a]> m.
Proof.
  intros Hslot Hm (Hl & Hc & _). unfold removeImage. rewrite Hm.
  now rewrite (spread_id _ Hc), assign_inside by lia.
Qed.

(** One removal keeps the entry well formed and leaves no image in its
    slot. *)
Lemma remove_step (tradeId : Z) (slot : nat) (allowed : list nat)
    (m : gmap Z (list cell)) :
  (slot < 3)%nat ->
  imagesWithin tradeId (slot :: allowed) m ->
  imagesWithin tradeId allowed (removeImage tradeId slot m).
Proof.
  intros Hslot Hm. unfold imagesWithin in Hm.
  destruct (m !! tradeId) as [a|] eqn:Ea.
  - destruct Hm as (Hw & Hin).
    rewrite (removeImage_wellFormed _ _ a) by assumption.
    destruct Hw as (Hl & Hc & Hn). unfold imagesWithin.
    destruct (everyNull (<[slot := Null]> a)) eqn:En.
    + now rewrite lookup_delete_eq.
    + rewrite lookup_insert_eq. split; [split; [|split]|].
      * now rewrite length_insert.
      * apply nullOrImage_insert; [now left|exact Hc].
      * exact En.
      * intros j d Hj. destruct (decide (j = slot)) as [->|Hne].
        -- rewrite list_lookup_insert_eq in Hj by lia. discriminate.
        -- rewrite list_lookup_insert_ne in Hj by congruence.
           apply Hin in Hj. apply elem_of_cons in Hj as [?|?]; [lia|easy].
  - unfold removeImage, imagesWithin. now rewrite Ea, Ea.
Qed.

(** An entry without images does not exist. *)
Lemma imagesWithin_nil (tradeId : Z) (m : gmap Z (list cell)) :
  imagesWithin tradeId [] m -> m !! tradeId = None.
Proof.
  unfold imagesWithin. destruct (m !! tradeId) as [a|]; [|easy].
  intros ((Hl & Hc & Hn) & Hin). exfalso.
  assert (He : everyNull a = true); [|congruence].
  apply everyNull_true; [exact Hc|]. intros j Hj.
  destruct (lookup_lt_is_Some_2 a j Hj) as [x Hx]. rewrite Hx.
  rewrite Forall_forall in Hc.
  destruct (Hc x (list_elem_of_lookup_2 _ _ _ Hx)) as [->|[d ->]];
    [reflexivity|].
  apply Hin in Hx. inversion Hx.
Qed.

Lemma attachAll_within (tradeId : Z) (uploads : list (nat * string))
    (allowed : list nat) (m : gmap Z (list cell)) :
  Forall (fun u => (fst u < 3)%nat) uploads ->
  imagesWithin tradeId allowed m ->
  imagesWithin tradeId (rev (map fst uploads) ++ allowed)
    (attachAll tradeId uploads m).
Proof.
  intros Hu. revert allowed m.
  induction Hu as [|u uploads Hslot Hu IH]; intros allowed m Hm; cbn.
  - exact Hm.
  - rewrite <- app_assoc. cbn. apply IH. now apply attach_step.
Qed.

Lemma detachAll_within (tradeId : Z) (slots : list nat)
    (m : gmap Z (list cell)) :
  Forall (fun slot => (slot < 3)%nat) slots ->
  imagesWithin tradeId slots m ->
  imagesWithin tradeId [] (detachAll tradeId slots m).
Proof.
  intros Hs. revert m.
  induction Hs as [|slot slots Hslot Hs IH]; intros m Hm; cbn.
  - exact Hm.
  - apply IH. now apply remove_step.
Qed.

Lemma handleImageUpload_other (tradeId other : Z) (slot : nat)
    (data : string) (m : gmap Z (list cell)) :
  other <> tradeId ->
  handleImageUpload (Some tradeId) (Some slot) data m !! other = m !! other.
Proof.
  intros Hne. unfold handleImageUpload, attachImage.
  destruct (tradeId =? 0)%Z; [reflexivity|].
  now rewrite lookup_insert_ne by congruence.
Qed.

Lemma removeImage_other (tradeId other : Z) (slot : nat)
    (m : gmap Z (list cell)) :
  other <> tradeId -> removeImage tradeId slot m !! other = m !! other.
Proof.
  intros Hne. unfold removeImage.
  destruct (m !! tradeId) as [a|]; [|reflexivity].
  destruct (everyNull _).
  - now rewrite lookup_delete_ne by congruence.
  - now rewrite lookup_insert_ne by congruence.
Qed.

Lemma attachAll_other (tradeId other : Z) (uploads : list (nat * string))
    (m : gmap Z (list cell)) :
  other <> tradeId -> attachAll tradeId uploads m !! other = m !! other.
Proof.
  intros Hne. revert m. induction uploads as [|u uploads IH]; intros m; cbn.
  - reflexivity.
  - unfold attachAll in IH. rewrite IH.
    now apply handleImageUpload_other.
Qed.

Lemma detachAll_other (tradeId other : Z) (slots : list nat)
    (m : gmap Z (list cell)) :
  other <> tradeId -> detachAll tradeId slots m !! other = m !! other.
Proof.
  intros Hne. revert m. induction slots as [|slot slots IH]; intros m; cbn.
  - reflexivity.
  - unfold detachAll in IH. rewrite IH. now apply removeImage_other.
Qed.

End ImageFacts.

Module ImageClaims.
Import ImageFacts.

Lemma imagesWithin_lookup (tradeId : Z) (allowed : list nat)
    (m m' : gmap Z (list cell)) :
  m' !! tradeId = m !! tradeId ->
  imagesWithin tradeId allowed m -> imagesWithin tradeId allowed m'.
Proof. unfold imagesWithin. now intros ->. Qed.

(** Every image array the component ever holds is well formed. *)
Lemma reachable_images (st : Store) :
  reachable st ->
  forall tradeId, imagesWithin tradeId [0; 1; 2]%nat (tradeImages st).
Proof.
  induction 1 as [|H text st Hr IH|m st Hr IH|tradeId slot data st Hs Hr IH
                 |tradeId slot st Hs Hr IH]; intros k.
  - exact I.
  - unfold parseCSV. destruct (normalize H text); apply IH.
  - unfold applyDebugMultiplier. destruct m as [m|]; [|apply IH].
    destruct (Num.truthy m); apply IH.
  - cbn [uploadImage tradeImages].
    destruct (decide (k = tradeId)) as [->|Hne].
    + eapply imagesWithin_weaken; [|apply attach_step; [exact Hs|apply IH]].
      intros j [->|Hj]%elem_of_cons; [|exact Hj].
      destruct slot as [|[|[|?]]]; [set_solver..|lia].
    + eapply imagesWithin_lookup; [|apply IH].
      now apply handleImageUpload_other.
  - cbn [detachImage setTradeImages tradeImages].
    destruct (decide (k = tradeId)) as [->|Hne].
    + apply remove_step; [exact Hs|].
      eapply imagesWithin_weaken; [|apply IH]. intros j Hj. now right.
    + eapply imagesWithin_lookup; [|apply IH].
      now apply removeImage_other.
Qed.

Lemma attachAll_present (tradeId : Z) (uploads : list (nat * string))
    (m : gmap Z (list cell)) :
  tradeId <> 0 -> uploads <> [] \/ is_Some (m !! tradeId) ->
  is_Some (attachAll tradeId uploads m !! tradeId).
Proof.
  intros Hid. revert m.
  induction uploads as [|u uploads IH]; intros m Hm; cbn.
  - destruct Hm; [congruence|assumption].
  - apply IH. right. unfold handleImageUpload, attachImage.
    destruct (Z.eqb_spec tradeId 0); [congruence|].
    rewrite lookup_insert_eq. eauto.
Qed.

(** C9.  In every store the component can reach, a click on the remove
    button of slot 0, 1 or 2 of a trade sets that slot to [null], leaves the
    two other slots as they were, and drops the entry of the trade from the
    image map exactly when the three slots are then all [null]; no other
    entry changes.  Hence, for a trade without an entry, uploads into any of
    its slots followed by a removal for each of these slots leave the map
    without an entry for the trade, while the entry did exist in between
    (for a trade whose id is not 0, the id on which uploads are refused). *)
Theorem C9_detach_clears_slot_and_drops_empty_entry :
  (forall (st : Store) (tradeId : Z) (slot : nat) (a : list cell),
      reachable st ->
      (slot < 3)%nat ->
      tradeImages st !! tradeId = Some a ->
      let a' := <[slot := Null]> a in
      let after := tradeImages (detachImage tradeId slot st) in
      a' !! slot = Some Null
      /\ (forall j, j <> slot -> a' !! j = a !! j)
      /\ (after !! tradeId = None <->
          forall j, (j < 3)%nat -> a' !! j = Some Null)
      /\ (after !! tradeId <> None -> after !! tradeId = Some a')
      /\ (forall other, other <> tradeId ->
          after !! other = tradeImages st !! other))
  /\ (forall (m : gmap Z (list cell)) (tradeId : Z)
             (uploads : list (nat * string)) (slots : list nat),
        m !! tradeId = None ->
        Forall (fun u => (fst u < 3)%nat) uploads ->
        Forall (fun slot => (slot < 3)%nat) slots ->
        (forall u, u ∈ uploads -> fst u ∈ slots) ->
        let between := attachAll tradeId uploads m in
        let after := detachAll tradeId slots between in
        after !! tradeId = None
        /\ (forall other, other <> tradeId -> after !! other = m !! other)
        /\ (tradeId <> 0 -> uploads <> [] -> between !! tradeId <> None)).
Proof.
  split.
  - intros st tradeId slot a Hr Hslot Ha a' after.
    pose proof (reachable_images st Hr tradeId) as Hw.
    unfold imagesWithin in Hw. rewrite Ha in Hw. destruct Hw as [Hw _].
    assert (Hafter : after
                     = if everyNull a' then delete tradeId (tradeImages st)
                       else <[tradeId := a']> (tradeImages st)).
    { unfold after. cbn [detachImage setTradeImages tradeImages].
      now apply removeImage_wellFormed. }
    destruct Hw as (Hl & Hc & Hn).
    assert (Hc' : Forall nullOrImage a')
      by (apply nullOrImage_insert; [now left|exact Hc]).
    pose proof (everyNull_true a' Hc') as Hall.
    unfold a' in Hall at 2. rewrite length_insert, Hl in Hall.
    split; [apply list_lookup_insert_eq; lia|].
    split; [intros j Hj; now apply list_lookup_insert_ne|].
    rewrite Hafter. destruct (everyNull a') eqn:En.
    + rewrite lookup_delete_eq. split; [|split].
      * split; [intros _; now apply Hall|reflexivity].
      * congruence.
      * intros other Hne. now rewrite lookup_delete_ne by congruence.
    + rewrite lookup_insert_eq. split; [|split].
      * split; [discriminate|]. intros Hj. apply Hall in Hj. discriminate.
      * reflexivity.
      * intros other Hne. now rewrite lookup_insert_ne by congruence.
  - intros m tradeId uploads slots Hm Hu Hs Hcover between after.
    split; [|split].
    + apply imagesWithin_nil. apply detachAll_within; [exact Hs|].
      eapply imagesWithin_weaken;
        [|apply (attachAll_within tradeId uploads []); [exact Hu|]].
      * intros j Hj. rewrite app_nil_r in Hj.
        apply list_elem_of_In, in_rev, in_map_iff in Hj as (u & <- & Hin).
        apply Hcover. now apply list_elem_of_In.
      * unfold imagesWithin. now rewrite Hm.
    + intros other Hne. unfold after, between.
      now rewrite detachAll_other, attachAll_other.
    + intros Hid Hne Habs.
      destruct (attachAll_present tradeId uploads m Hid (or_introl Hne))
        as [a Ha].
      unfold between in Habs. congruence.
Qed.

Lemma C9_witness :
  tradeImages
    (detachImage 1 0
       (uploadImage (Some 1) (Some 0%nat) "data:image/png;base64,AA=="
          initialStore)) !! 1 = None
  /\ detachAll 1 [2; 0]%nat
       (attachAll 1 [(0%nat, "data:a"); (2%nat, "data:b")] ∅) !! 1 = None.
Proof.
  split.
  - apply (proj1 C9_detach_clears_slot_and_drops_empty_entry
             (uploadImage (Some 1) (Some 0%nat) "data:image/png;base64,AA=="
                initialStore)
             1 0%nat [Image "data:image/png;base64,AA=="; Null; Null]).
    + apply reach_upload; [lia|apply reach_initial].
    + lia.
    + reflexivity.
    + intros [|[|[|j]]] Hj; [reflexivity..|lia].
  - apply (proj2 C9_detach_clears_slot_and_drops_empty_entry
             ∅ 1 [(0%nat, "data:a"); (2%nat, "data:b")] [2; 0]%nat).
    + reflexivity.
    + repeat constructor.
    + repeat constructor.
    + intros u Hu.
      apply elem_of_cons in Hu as [->|Hu];
        [|apply elem_of_cons in Hu as [->|Hu]; [|inversion Hu]];
        cbn [fst]; repeat constructor.
Defined.

End ImageClaims.

(** ** The debug recalculation *)

Module OverrideClaims.
Import NumFacts.

Lemma truthy_spec (m : num) :
  Num.truthy m = true <-> m <> NaN /\ m <> Fin 0%Qc.
Proof.
  destruct m as [|s|q]; cbn.
  - split; [discriminate|]. now intros [? _].
  - split; [|reflexivity]. intros _. split; discriminate.
  - rewrite negb_true_iff. split.
    + intros Hq. split; [discriminate|]. intros [= ->]. discriminate.
    + intros [_ Hq]. destruct (Qc_is0 q) eqn:E; [|reflexivity].
      apply Qc_is0_eq in E. congruence.
Qed.

Lemma withProfitLoss_same (t : Trade) (newPL : num) :
  sameExceptProfitLoss t (withProfitLoss t newPL)
  /\ profitLoss (withProfitLoss t newPL) = newPL.
Proof. unfold sameExceptProfitLoss. cbn. tauto. Qed.

(** C10, as amended.  With a multiplier [m] that is neither 0 nor not a
    number, the recalculation gives every trade whose instrument contains
    [XAUUSD] in any letter case the P/L
    [(exitPrice - entryPrice) * (tradeType = Long ? 1 : -1) * m * quantity]
    and changes nothing else: the other fields of these trades, the other
    trades, the length and the order of the list and the image map stay as
    they were, and the selection stays on the trade with the same id.  With
    the multiplier 0, a multiplier that is not a number, or no multiplier,
    the recalculation changes nothing at all. *)
Theorem C10_recalculation_replaces_only_the_pnl (m : num) (st : Store) :
  Num.truthy m = true ->
  let st' := applyDebugMultiplier (Some m) st in
  length (tradeList st') = length (tradeList st)
  /\ (forall k t,
        tradeList st !! k = Some t ->
        exists t',
          tradeList st' !! k = Some t'
          /\ (isXAUUSD t = true ->
              profitLoss t'
              = Num.mul
                  (Num.mul
                     (Num.mul (Num.sub (exitPrice t) (entryPrice t))
                        (match tradeType t with
                         | Long => Num.of_Z 1
                         | Short => Num.of_Z (-1)
                         end))
                     m)
                  (quantity t)
              /\ sameExceptProfitLoss t t')
          /\ (isXAUUSD t = false -> t' = t))
  /\ tradeImages st' = tradeImages st
  /\ notification st' = notification st
  /\ (selectedTrade st = None -> selectedTrade st' = None)
  /\ (forall sel, selectedTrade st = Some sel ->
        exists sel', selectedTrade st' = Some sel' /\ id sel' = id sel)
  /\ (forall m', Num.truthy m' = false ->
        applyDebugMultiplier (Some m') st = st)
  /\ applyDebugMultiplier None st = st.
Proof.
  intros Hm st'. unfold st', applyDebugMultiplier. rewrite Hm.
  cbn [tradeList tradeImages notification selectedTrade].
  split; [apply length_map|].
  split.
  { intros k t Hk. exists (recalculateTrade m t).
    split; [now rewrite list_lookup_fmap, Hk|].
    unfold recalculateTrade. split; intros Hx; rewrite Hx; [|reflexivity].
    split; [reflexivity|]. apply withProfitLoss_same. }
  split; [reflexivity|]. split; [reflexivity|].
  split; [now intros ->|].
  split.
  { intros sel ->.
    destruct (List.find _ _) as [u|] eqn:Ef; [|eauto].
    exists u. split; [reflexivity|].
    apply find_some in Ef as [_ Ef]. now apply Z.eqb_eq in Ef. }
  split; [|reflexivity].
  intros m' Hm'. now rewrite Hm'.
Qed.

(** C10 as stated fails for the multiplier 0: the claimed P/L of the trade
    of [oneTrade] is [(1890 - 1900) * -1 * 0 * 1 = 0], and the store is left
    as it was, with the P/L -225. *)
Lemma C10_counterexample_zero_multiplier :
  map isXAUUSD (tradeList Sample.oneTradeStore) = [true]
  /\ map (recalculatedPnl (Num.of_Z 0)) (tradeList Sample.oneTradeStore)
     = [Num.of_Z 0]
  /\ map profitLoss
       (tradeList
          (applyDebugMultiplier (Some (Num.of_Z 0)) Sample.oneTradeStore))
     = [Num.of_Z (-225)]
  /\ applyDebugMultiplier (Some (Num.of_Z 0)) Sample.oneTradeStore
     = Sample.oneTradeStore.
Proof.
  split; [reflexivity|]. split; [|split; [|reflexivity]].
  - vm_compute. apply (f_equal (fun x => [x])). apply (f_equal Fin).
    apply Qc_is_canon. reflexivity.
  - vm_compute. apply (f_equal (fun x => [x])). apply (f_equal Fin).
    apply Qc_is_canon. reflexivity.
Qed.

Lemma C10_witness :
  Num.truthy (Num.of_Z 10) = true
  /\ length
       (tradeList
          (applyDebugMultiplier (Some (Num.of_Z 10)) Sample.oneTradeStore))
     = length (tradeList Sample.oneTradeStore)
  /\ tradeImages
       (applyDebugMultiplier (Some (Num.of_Z 10)) Sample.oneTradeStore)
     = tradeImages Sample.oneTradeStore.
Proof.
  split; [reflexivity|].
  pose proof (C10_recalculation_replaces_only_the_pnl (Num.of_Z 10)
                Sample.oneTradeStore eq_refl) as Hw.
  split; [exact (proj1 Hw)|exact (proj1 (proj2 (proj2 Hw)))].
Defined.

End OverrideClaims.

(** ** Header resolution *)

Module HeaderFacts.
Import Str.

Lemma update_fresh {V : Type} (k : string) (v : V) (o : JsObject.obj V) :
  k ∉ map fst o -> JsObject.update k v o = o ++ [(k, v)].
Proof.
  induction o as [|[k' v'] o IH]; cbn; intros Hk; [reflexivity|].
  apply not_elem_of_cons in Hk as [Hne Hk].
  destruct (String.eqb_spec k k') as [->|_]; [congruence|].
  now rewrite IH.
Qed.

Lemma fillColumnMap_keys (headers : list string) (index : Z)
    (o : JsObject.obj Z) :
  NoDup (map fst o ++ map toLowerCase headers) ->
  Forall (fun h => toLowerCase h <> "__proto__") headers ->
  map fst (fillColumnMap headers index o)
  = map fst o ++ map toLowerCase headers.
Proof.
  revert index o.
  induction headers as [|h headers IH]; intros index o Hnd Hp; cbn.
  - now rewrite app_nil_r.
  - apply Forall_cons in Hp as [Hh Hp].
    unfold JsObject.set.
    destruct (String.eqb_spec (toLowerCase h) "__proto__"); [congruence|].
    assert (Hfresh : toLowerCase h ∉ map fst o).
    { apply NoDup_app in Hnd as (_ & Hdis & _). intros Hin.
      apply (Hdis _ Hin). now left. }
    rewrite (update_fresh _ _ _ Hfresh), IH.
    + rewrite map_app. cbn. now rewrite <- app_assoc.
    + rewrite map_app. cbn. now rewrite <- app_assoc.
    + exact Hp.
Qed.

Lemma index_keys_none {V : Type} (o : JsObject.obj V) :
  Forall (fun k => JsObject.array_index k = None) (map fst o) ->
  JsObject.index_keys o = [].
Proof.
  unfold JsObject.index_keys.
  induction o as [|[k v] o IH]; cbn; intros Hk; [reflexivity|].
  apply Forall_cons in Hk as [Hk Hrest]. rewrite Hk. now apply IH.
Qed.

Lemma name_keys_all {V : Type} (o : JsObject.obj V) :
  Forall (fun k => JsObject.array_index k = None) (map fst o) ->
  JsObject.name_keys o = map fst o.
Proof.
  unfold JsObject.name_keys.
  induction o as [|[k v] o IH]; cbn; intros Hk; [reflexivity|].
  apply Forall_cons in Hk as [Hk Hrest]. rewrite Hk. cbn.
  now rewrite IH.
Qed.

Lemma keys_without_indices {V : Type} (o : JsObject.obj V) :
  Forall (fun k => JsObject.array_index k = None) (map fst o) ->
  JsObject.keys o = map fst o.
Proof.
  intros Hk. unfold JsObject.keys.
  now rewrite index_keys_none, name_keys_all.
Qed.

Lemma findIndex_map {A B : Type} (f : A -> B) (p : B -> bool)
    (l : list A) :
  findIndex p (map f l) = findIndex (fun x => p (f x)) l.
Proof.
  induction l as [|x l IH]; cbn; [reflexivity|]. now rewrite IH.
Qed.

(** When no two headers agree up to letter case and none is an array index
    or [__proto__], a column is resolved to the position of the first
    header that contains its name, whatever the letter case of the
    headers. *)
Lemma getColumnIndex_distinct_headers (headers : list string)
    (baseName : string) :
  NoDup (map toLowerCase headers) ->
  Forall (fun h => toLowerCase h <> "__proto__"
                   /\ JsObject.array_index (toLowerCase h) = None) headers ->
  getColumnIndex (columnMapOf headers) baseName
  = findIndex (fun h => includes (toLowerCase h) (toLowerCase baseName))
      headers.
Proof.
  intros Hnd Hh. unfold getColumnIndex, columnMapOf.
  assert (Hkeys : map fst (fillColumnMap headers 0 JsObject.empty)
                  = map toLowerCase headers).
  { apply (fillColumnMap_keys headers 0 []); [exact Hnd|].
    eapply Forall_impl; [exact Hh|]. now intros h [? _]. }
  rewrite keys_without_indices, Hkeys; [apply findIndex_map|].
  rewrite Hkeys. apply Forall_fmap.
  eapply Forall_impl; [exact Hh|]. now intros h [_ ?].
Qed.

Lemma findIndex_range {A : Type} (p : A -> bool) (l : list A) :
  -1 <= findIndex p l < Z.of_nat (length l)
  /\ (0 <= findIndex p l <-> existsb p l = true).
Proof.
  induction l as [|x l [Hr Hi]]; cbn [findIndex existsb length].
  - split; [lia|]. split; [lia|discriminate].
  - destruct (p x); cbn [orb].
    + split; [lia|]. split; [reflexivity|lia].
    + destruct (Z.ltb_spec (findIndex p l) 0) as [Hn|Hn].
      * split; [lia|]. rewrite <- Hi. lia.
      * split; [lia|]. rewrite <- Hi. lia.
Qed.

Lemma filter_nil {A : Type} (f : A -> bool) (l : list A) (x : A) :
  List.filter f l = [] -> In x l -> f x = false.
Proof.
  induction l as [|y l IH]; cbn; [easy|].
  destruct (f y) eqn:E; [discriminate|].
  intros Hl [<-|Hx]; [exact E|now apply IH].
Qed.

(** Once no column is reported missing, every required column is resolved
    to a position, and a line that is not too short has a field there: the
    reads of [undefined] that [field] provides for do not occur. *)
Lemma required_fields_present (columnMap : JsObject.obj Z) (line : string) :
  missingColumns columnMap = [] ->
  ~ tooShort (resolveColumns columnMap) line ->
  let c := resolveColumns columnMap in
  let fields := tokenize line in
  is_Some (field fields (symbolCol c))
  /\ is_Some (field fields (buyPriceCol c))
  /\ is_Some (field fields (sellPriceCol c))
  /\ is_Some (field fields (qtyCol c))
  /\ is_Some (field fields (buyTimeCol c))
  /\ is_Some (field fields (sellTimeCol c))
  /\ is_Some (field fields (pnlCol c)).
Proof.
  intros Hm Hs c fields. unfold tooShort in Hs. fold c fields in Hs.
  assert (Hpos : forall col, In col requiredColumns ->
                   0 <= getColumnIndex columnMap col).
  { intros col Hcol. unfold getColumnIndex. apply findIndex_range.
    pose proof (filter_nil _ _ col Hm Hcol) as Hf.
    now apply negb_false_iff in Hf. }
  assert (Hfield : forall k, 0 <= k <= maxRequired c ->
                     is_Some (field fields k)).
  { intros k Hk. unfold field.
    destruct (Z.ltb_spec k 0); [lia|].
    apply lookup_lt_is_Some_2. lia. }
  unfold maxRequired in Hfield. unfold requiredColumns in Hpos.
  repeat split; apply Hfield; (split; [apply Hpos; cbn; tauto|]);
    cbn [symbolCol buyPriceCol sellPriceCol qtyCol buyTimeCol sellTimeCol
         pnlCol c resolveColumns]; lia.
Qed.

End HeaderFacts.

Module HeaderClaims.
Import Str.

(** C4, on the header [Note,Note,Symbol,...]: the map of the columns has one
    key for the two headers [Note], and a column is resolved to the position
    of its key among the keys, not to the index stored under the key.  So
    [Symbol], stored with its index 2, is resolved to 1, and each later
    column to the position before its own; no column is reported missing,
    and the line under this header becomes a trade made of the wrong
    fields. *)
Theorem C4_repeated_header_shifts_the_columns (H : Host) (i : nat) :
  let headers := tokenize Sample.repeatedHeader in
  let c := resolveColumns (columnMapOf headers) in
  (headers !! 2%nat = Some "Symbol"
   /\ headers !! 3%nat = Some "BuyPrice"
   /\ headers !! 8%nat = Some "PnL"
   /\ JsObject.get "symbol" (columnMapOf headers) = Some 2
   /\ JsObject.get "buyprice" (columnMapOf headers) = Some 3
   /\ JsObject.get "pnl" (columnMapOf headers) = Some 8
   /\ missingColumns (columnMapOf headers) = []
   /\ c = mkColumns 1 2 3 4 5 6 7 (-1))
  /\ option_map instrument (parseRow H c i Sample.repeatedHeaderRow)
     = Some "n2"
  /\ option_map entryPrice (parseRow H c i Sample.repeatedHeaderRow)
     = Some NaN
  /\ option_map exitPrice (parseRow H c i Sample.repeatedHeaderRow)
     = Some (Num.of_Z 1900)
  /\ option_map quantity (parseRow H c i Sample.repeatedHeaderRow)
     = Some (Num.of_Z 1905).
Proof.
  cbv zeta.
  assert (Hc : resolveColumns (columnMapOf (tokenize Sample.repeatedHeader))
               = mkColumns 1 2 3 4 5 6 7 (-1)) by (vm_compute; reflexivity).
  split; [repeat split; try exact Hc; vm_compute; reflexivity|].
  rewrite Hc.
  assert (Hrow : parseRow H (mkColumns 1 2 3 4 5 6 7 (-1)) i
                   Sample.repeatedHeaderRow
                 = Some (buildTrade H i (tokenize Sample.repeatedHeaderRow)
                           (mkColumns 1 2 3 4 5 6 7 (-1)))).
  { apply NormalizerFacts.parseRow_kept.
    - vm_compute. discriminate.
    - unfold tooShort. vm_compute. discriminate. }
  rewrite Hrow. cbn [option_map].
  unfold buildTrade. destruct (timestamps H i _ _) as [b s].
  cbn [instrument entryPrice exitPrice quantity].
  split; [vm_compute; reflexivity|].
  split; [vm_compute; reflexivity|].
  split; apply f_equal; vm_compute; apply (f_equal Fin);
    apply Qc_is_canon; reflexivity.
Qed.

End HeaderClaims.

(** ** The sample file, imported *)

Module ImportWitnesses.
Import NormalizerClaims OrderClaims.

Lemma C5_witness :
  normalize Sample.host Sample.header = inl NoDataRows
  /\ parseRow Sample.host Sample.columns 3 "short,row" = None
  /\ parseRow Sample.host Sample.columns 5 Sample.unreadableTime
     = Some
         (buildTrade Sample.host 5 (tokenize Sample.unreadableTime)
            Sample.columns).
Proof.
  pose proof (C5_abort_iff_header_level_failure Sample.host Sample.header)
    as (_ & Hrows & _).
  pose proof (C5_abort_iff_header_level_failure Sample.host Sample.csv)
    as (_ & _ & _ & _ & _ & Hnone & Hsome).
  split; [apply Hrows; vm_compute; lia|].
  split.
  - apply Hnone. right. unfold tooShort. vm_compute. reflexivity.
  - apply Hsome. intros Habs. apply Hnone in Habs as [Habs|Habs].
    + vm_compute in Habs. discriminate Habs.
    + unfold tooShort in Habs. vm_compute in Habs. discriminate Habs.
Defined.

Lemma C7_witness :
  Str.trim Sample.unreadableTime <> ""
  /\ ~ tooShort Sample.columns Sample.unreadableTime
  /\ dateField Sample.host (tokenize Sample.unreadableTime)
       (buyTimeCol Sample.columns) = None
  /\ option_map entryTime
       (parseRow Sample.host Sample.columns 5 Sample.unreadableTime)
     = Some 1762149600005
  /\ option_map exitTime
       (parseRow Sample.host Sample.columns 5 Sample.unreadableTime)
     = Some 1762153200005
  /\ exists trades, normalize Sample.host Sample.csv = inr trades.
Proof.
  assert (Hblank : Str.trim Sample.unreadableTime <> "")
    by (vm_compute; discriminate).
  assert (Hshort : ~ tooShort Sample.columns Sample.unreadableTime)
    by (unfold tooShort; vm_compute; discriminate).
  assert (Hbad : dateField Sample.host (tokenize Sample.unreadableTime)
                   (buyTimeCol Sample.columns) = None) by reflexivity.
  destruct (C7_unreadable_timestamp_is_replaced Sample.host Sample.columns
              5%nat Sample.unreadableTime Hblank Hshort (or_introl Hbad))
    as (t & Hp & He & Hx & Hbatch).
  split; [exact Hblank|]. split; [exact Hshort|]. split; [exact Hbad|].
  rewrite Hp. cbn [option_map]. rewrite He, Hx.
  split; [reflexivity|]. split; [reflexivity|].
  destruct (Hbatch Sample.csv Sample.header (take 4 Sample.rows)
              (drop 5 Sample.rows))
    as (trades & Hn & _); [vm_compute; reflexivity..|].
  now exists trades.
Defined.

Lemma C8_witness :
  normalize Sample.host Sample.csv = inr Sample.imported
  /\ map id Sample.imported = [5; 2; 1; 6]
  /\ StronglySorted newerFirst Sample.imported.
Proof.
  assert (Hn : normalize Sample.host Sample.csv = inr Sample.imported)
    by (vm_compute; reflexivity).
  split; [exact Hn|]. split; [vm_compute; reflexivity|].
  exact (proj1 (C8_newest_first_and_stable Sample.host Sample.csv
                  Sample.imported Hn)).
Defined.

End ImportWitnesses.

(** * Further properties *)

(** ** Where the imported trades come from *)

Module ImportExtras.
Import NormalizerFacts.

Lemma parseRow_kept_eq (H : Host) (c : Columns) (i : nat) (line : string) :
  parseRow H c i line
  = if kept c line then Some (buildTrade H i (tokenize line) c) else None.
Proof.
  unfold parseRow, kept.
  destruct (String.eqb (Str.trim line) ""); [reflexivity|].
  destruct (_ <? _)%Z; reflexivity.
Qed.

Lemma parseRows_lookup (H : Host) (c : Columns) (i : nat)
    (lines : list string) (t : Trade) :
  t ∈ parseRows H c i lines <->
  exists j line,
    lines !! j = Some line /\ kept c line = true
    /\ t = buildTrade H (i + j) (tokenize line) c.
Proof.
  revert i. induction lines as [|l lines IH]; intros i; cbn [parseRows].
  - split; [intros Hin; inversion Hin|]. intros (j & line & Hj & _).
    discriminate Hj.
  - rewrite parseRow_kept_eq. split.
    + intros Hin.
      assert (Hcases : (kept c l = true
                        /\ t = buildTrade H i (tokenize l) c)
                       \/ t ∈ parseRows H c (S i) lines).
      { destruct (kept c l); [|now right].
        apply elem_of_cons in Hin as [->|Hin]; [now left|now right]. }
      destruct Hcases as [[Hk ->]|Hin'].
      * exists 0%nat, l. now rewrite Nat.add_0_r.
      * apply IH in Hin' as (j & line & Hj & Hk & ->).
        exists (S j), line. split; [exact Hj|]. split; [exact Hk|].
        now rewrite Nat.add_succ_r.
    + intros (j & line & Hj & Hk & ->). destruct j as [|j].
      * cbn in Hj. injection Hj as ->. rewrite Hk, Nat.add_0_r.
        apply elem_of_cons. now left.
      * assert (Hin : buildTrade H (i + S j) (tokenize line) c
                      ∈ parseRows H c (S i) lines).
        { apply IH. exists j, line. split; [exact Hj|]. split; [exact Hk|].
          now rewrite Nat.add_succ_r. }
        destruct (kept c l); [apply elem_of_cons; now right|exact Hin].
Qed.

Lemma parseRows_length (H : Host) (c : Columns) (i : nat)
    (lines : list string) :
  length (parseRows H c i lines) = length (List.filter (kept c) lines).
Proof.
  revert i. induction lines as [|l lines IH]; intros i; cbn; [reflexivity|].
  rewrite parseRow_kept_eq. destruct (kept c l); cbn; now rewrite IH.
Qed.

Lemma earlierRow_NoDup (l : list Trade) :
  StronglySorted earlierRow l -> NoDup (map id l).
Proof.
  induction 1 as [|x l Hs IH Hx]; cbn; constructor; [|exact IH].
  intros Hin. apply list_elem_of_In, in_map_iff in Hin as (y & Hy & Hin).
  rewrite Forall_forall in Hx. apply list_elem_of_In in Hin.
  specialize (Hx y Hin). unfold earlierRow in Hx. lia.
Qed.

Lemma surviving_rows (H : Host) (text : string) :
  let lines := Str.split Str.is_newline (Str.trim text) in
  surviving H text
  = parseRows H (resolveColumns (columnMapOf (tokenize (hd "" lines)))) 1
      (tail lines).
Proof.
  unfold surviving. cbn zeta.
  destruct (Str.split Str.is_newline (Str.trim text)); reflexivity.
Qed.

(** X1.  Every trade of a successful import is the trade of one data line:
    its id is the number of that line, counted from 1 after the header, the
    line is neither blank nor too short, and each such line has its trade in
    the result; so no two trades share an id and no id is 0. *)
Theorem X1_trades_are_the_kept_lines (H : Host) (text : string)
    (trades : list Trade) :
  normalize H text = inr trades ->
  let lines := Str.split Str.is_newline (Str.trim text) in
  let c := resolveColumns (columnMapOf (tokenize (hd "" lines))) in
  (forall t,
      t ∈ trades <->
      exists i line,
        (1 <= i)%nat /\ lines !! i = Some line /\ kept c line = true
        /\ id t = Z.of_nat i
        /\ t = buildTrade H i (tokenize line) c)
  /\ NoDup (map id trades)
  /\ Forall (fun t => 1 <= id t) trades.
Proof.
  intros E lines c. apply normalize_inr in E as [-> _].
  pose proof (surviving_rows H text) as Hs. cbn zeta in Hs.
  fold lines in Hs. fold c in Hs.
  assert (Hmem : forall t,
             t ∈ sortTrades (surviving H text) <->
             exists i line,
               (1 <= i)%nat /\ lines !! i = Some line /\ kept c line = true
               /\ id t = Z.of_nat i
               /\ t = buildTrade H i (tokenize line) c).
  { intros t. rewrite sortTrades_perm, Hs, parseRows_lookup. split.
    - intros (j & line & Hj & Hk & ->). exists (S j), line.
      split; [lia|]. split; [now rewrite <- lookup_tail|].
      split; [exact Hk|]. split; [apply buildTrade_id|reflexivity].
    - intros (i & line & Hi & Hl & Hk & _ & ->).
      destruct i as [|j]; [lia|]. exists j, line.
      split; [now rewrite lookup_tail|]. split; [exact Hk|reflexivity]. }
  split; [exact Hmem|]. split.
  - rewrite sortTrades_perm. apply earlierRow_NoDup.
    rewrite Hs. apply parseRows_ids.
  - apply Forall_forall. intros t Ht.
    apply Hmem in Ht as (i & line & Hi & _ & _ & -> & _). lia.
Qed.

(** X2.  A successful import lists as many trades as there are data lines
    that are neither blank nor too short, and announces that number. *)
Theorem X2_import_counts_the_kept_lines (H : Host) (text : string)
    (trades : list Trade) (st : Store) :
  normalize H text = inr trades ->
  let lines := Str.split Str.is_newline (Str.trim text) in
  let c := resolveColumns (columnMapOf (tokenize (hd "" lines))) in
  let n := length (List.filter (kept c) (tail lines)) in
  length trades = n
  /\ (1 <= n <= length lines - 1)%nat
  /\ tradeList (parseCSV H text st) = trades
  /\ notification (parseCSV H text st)
     = "Imported " +:+ Str.of_Z (Z.of_nat n) +:+ " trades from CSV".
Proof.
  intros E lines c n.
  pose proof (normalize_inr H text trades E) as [Ht Hne].
  pose proof (surviving_rows H text) as Hs. cbn zeta in Hs.
  fold lines in Hs. fold c in Hs.
  assert (Hlen : length trades = n).
  { rewrite Ht, sortTrades_perm, Hs. apply parseRows_length. }
  split; [exact Hlen|]. split.
  - split.
    + rewrite <- Hlen, Ht, sortTrades_perm.
      destruct (surviving H text); [congruence|cbn; lia].
    + unfold n. etransitivity; [apply filter_length_le|].
      destruct lines; cbn; lia.
  - unfold parseCSV. rewrite E. cbn. now rewrite Hlen.
Qed.

End ImportExtras.

(** ** The selection, the display text and the duration *)

Module RowExtras.
Import Str NormalizerFacts PnlFacts.

(** X3.  After a successful import the selected trade is the first of the
    list: no trade has a later entry time, and among the trades with its
    entry time it comes from the earliest line. *)
Theorem X3_import_selects_the_newest_trade (H : Host) (text : string)
    (trades : list Trade) (st : Store) :
  normalize H text = inr trades ->
  exists first,
    selectedTrade (parseCSV H text st) = Some first
    /\ head trades = Some first
    /\ forall t, t ∈ trades ->
         entryTime t <= entryTime first
         /\ (entryTime t = entryTime first -> id first <= id t).
Proof.
  intros E. pose proof (normalize_inr H text trades E) as [Ht Hne].
  assert (Hsorted : StronglySorted newerFirst trades)
    by (rewrite Ht; apply sortTrades_sorted).
  destruct trades as [|first rest].
  { exfalso. apply Hne. apply Permutation_nil_r.
    rewrite <- (sortTrades_perm (surviving H text)). now rewrite <- Ht. }
  assert (Hstable : StronglySorted earlierRow
            (filter (fun t => entryTime t = entryTime first)
               (first :: rest))).
  { rewrite Ht, sortTrades_stable.
    apply OrderClaims.StronglySorted_filter.
    rewrite ImportExtras.surviving_rows. apply parseRows_ids. }
  exists first. unfold parseCSV. rewrite E. cbn [selectedTrade head].
  split; [reflexivity|]. split; [reflexivity|].
  rewrite filter_cons in Hstable.
  destruct (decide (entryTime first = entryTime first)) as [_|Hn];
    [|congruence].
  apply StronglySorted_inv in Hsorted as [_ Hnew].
  apply StronglySorted_inv in Hstable as [_ Hold].
  rewrite Forall_forall in Hnew, Hold.
  intros t [->|Hin]%elem_of_cons; [split; [lia|intros; lia]|].
  split; [apply (Hnew t Hin)|]. intros Heq.
  assert (Hf : t ∈ filter (fun u => entryTime u = entryTime first) rest)
    by now apply list_elem_of_filter.
  specialize (Hold t Hf). unfold earlierRow in Hold. lia.
Qed.

(** X4.  For every row with a P/L text, the text shown for the P/L starts
    with a minus sign exactly when the row is flagged as negative, and the
    row counts as winning exactly when it does not. *)
Theorem X4_display_text_agrees_with_flag (H : Host) (i : nat)
    (fields : list string) (c : Columns) (raw : string) :
  field fields (pnlCol c) = Some raw ->
  let t := buildTrade H i fields c in
  shouldDisplayAsNegative t = startsWith (originalPnlString t) "-"
  /\ isWinning t = negb (startsWith (originalPnlString t) "-").
Proof.
  intros Hraw t.
  destruct (buildTrade_pnl H i fields c) as (_ & Ho & Hd & Hw).
  fold t in Ho, Hd, Hw.
  destruct (ReadClaims.parsePnl_read fields c
              (floatField fields (buyPriceCol c))
              (floatField fields (sellPriceCol c))
              (floatField fields (qtyCol c)) raw Hraw) as (Ho' & Hd' & _).
  cbn zeta in Ho', Hd'.
  rewrite Hw, Hd, Ho, Hd', Ho'. clear.
  assert (Hr : displayNegative (readPnl (trim raw))
               = startsWith (originalPnl (readPnl (trim raw))) "-").
  { unfold readPnl.
    destruct (startsWith (trim raw) "$(" && endsWith (trim raw) ")");
      [reflexivity|].
    destruct (startsWith (trim raw) "(" && endsWith (trim raw) ")");
      [reflexivity|].
    destruct (startsWith (trim raw) "-") eqn:E;
      cbn [displayNegative originalPnl]; now rewrite E. }
  now rewrite Hr.
Qed.

(** X5.  A row whose entry or exit timestamp is unreadable lasts one hour
    in milliseconds; its duration text is [1h 0m] when the file has no
    usable duration column, and the text of that column when it has one. *)
Theorem X5_duration_of_a_repaired_row (H : Host) (i : nat)
    (fields : list string) (c : Columns) :
  dateField H fields (buyTimeCol c) = None
  \/ dateField H fields (sellTimeCol c) = None ->
  let t := buildTrade H i fields c in
  durationMs t = 3600000
  /\ exitTime t - entryTime t = 3600000
  /\ (durationCol c < 0 \/ Z.of_nat (length fields) <= durationCol c ->
      duration t = "1h 0m")
  /\ (forall text, 0 <= durationCol c ->
        fields !! Z.to_nat (durationCol c) = Some text ->
        duration t = text).
Proof.
  intros Hbad t. unfold t, buildTrade.
  rewrite (OrderClaims.timestamps_replaced H i fields c Hbad).
  cbn [durationMs exitTime entryTime duration].
  replace (now H i + 3600000 - now H i) with 3600000 by lia.
  split; [reflexivity|]. split; [reflexivity|]. split.
  - intros Hout.
    destruct (Z.leb_spec 0 (durationCol c)); cbn [andb]; [|reflexivity].
    destruct (Z.ltb_spec (durationCol c) (Z.of_nat (length fields)));
      [lia|reflexivity].
  - intros text Hpos Htext.
    pose proof (lookup_lt_Some _ _ _ Htext) as Hlt.
    destruct (Z.leb_spec 0 (durationCol c)); [|lia]. cbn [andb].
    destruct (Z.ltb_spec (durationCol c) (Z.of_nat (length fields)));
      [|lia].
    unfold field. destruct (Z.ltb_spec (durationCol c) 0); [lia|].
    now rewrite Htext.
Qed.

End RowExtras.

(** ** Fields and headers *)

Module FieldExtras.
Import Str HeaderFacts.

Lemma chars_of_chars (l : list ascii) : chars (of_chars l) = l.
Proof. apply list_ascii_of_string_of_list_ascii. Qed.

Lemma split_chars_pieces (is_sep : ascii -> bool) (cur l : list ascii) :
  Forall (fun c => is_sep c = false) cur ->
  Forall (fun piece => Forall (fun c => is_sep c = false) (chars piece))
    (split_chars is_sep cur l).
Proof.
  revert cur. induction l as [|c l IH]; intros cur Hcur; cbn.
  - constructor; [|constructor]. rewrite chars_of_chars.
    apply Forall_forall. intros x Hx%list_elem_of_In%in_rev.
    rewrite Forall_forall in Hcur. apply Hcur. now apply list_elem_of_In.
  - destruct (is_sep c) eqn:Ec.
    + constructor; [|apply IH; constructor]. rewrite chars_of_chars.
      apply Forall_forall. intros x Hx%list_elem_of_In%in_rev.
      rewrite Forall_forall in Hcur. apply Hcur. now apply list_elem_of_In.
    + apply IH. now constructor.
Qed.

Lemma drop_ws_Forall (P : ascii -> Prop) (l : list ascii) :
  Forall P l -> Forall P (drop_ws l).
Proof.
  induction 1 as [|c l Hc Hl IH]; cbn; [constructor|].
  destruct (is_ws c); [exact IH|now constructor].
Qed.

Lemma rev_Forall (P : ascii -> Prop) (l : list ascii) :
  Forall P l -> Forall P (rev l).
Proof.
  rewrite !Forall_forall. intros Hl x Hx%list_elem_of_In%in_rev.
  apply Hl. now apply list_elem_of_In.
Qed.

Lemma trim_Forall (P : ascii -> Prop) (s : string) :
  Forall P (chars s) -> Forall P (chars (trim s)).
Proof.
  intros Hs. unfold trim. rewrite chars_of_chars.
  auto using rev_Forall, drop_ws_Forall.
Qed.

Lemma includes_single (x : ascii) (s : string) :
  Forall (fun c => c <> x) (chars s) -> includes s (String x "") = false.
Proof.
  induction s as [|c s IH]; cbn; [reflexivity|].
  intros Hs. apply Forall_cons in Hs as [Hc Hs].
  destruct (ascii_dec x c) as [->|_]; [congruence|].
  cbn. now apply IH.
Qed.

Lemma delete_tokens_without_comma (skip : nat) (s : string) :
  Forall (fun c => c <> ","%char) (chars s) ->
  delete_tokens currency_symbols_and_comma skip s
  = delete_tokens currency_symbols skip s.
Proof.
  revert skip. induction s as [|c s IH]; intros skip Hs; [reflexivity|].
  apply Forall_cons in Hs as [Hc Hs].
  cbn [delete_tokens]. destruct skip as [|k]; [|now apply IH].
  assert (Hm : match_len currency_symbols_and_comma (String c s)
               = match_len currency_symbols (String c s)).
  { unfold currency_symbols_and_comma, currency_symbols.
    cbn [match_len].
    destruct (String.prefix "$" (String c s)); [reflexivity|].
    destruct (String.prefix "£" (String c s)); [reflexivity|].
    destruct (String.prefix "€" (String c s)); [reflexivity|].
    cbn [String.prefix].
    destruct (ascii_dec "," c) as [<-|_]; [congruence|reflexivity]. }
  rewrite Hm.
  destruct (match_len currency_symbols (String c s)) as [[|k]|];
    now rewrite IH.
Qed.

(** X6.  No field of a line contains a comma or a tab: the line is cut at
    each of them, quoted or not.  So the removal of commas in the reading
    of a P/L text never removes anything, and a P/L written with a
    thousands separator reaches the reader cut at that comma. *)
Theorem X6_fields_hold_no_separator (line f : string) :
  f ∈ tokenize line ->
  includes f "," = false
  /\ includes f (String (ascii_of_nat 9) "") = false
  /\ strip_currency_commas f = strip_currency f
  /\ (1 <= length (tokenize line))%nat.
Proof.
  intros Hf. unfold tokenize in *.
  assert (Hsep : Forall (fun c => is_comma_or_tab c = false) (chars f)).
  { apply list_elem_of_fmap in Hf as (piece & -> & Hp).
    apply trim_Forall.
    pose proof (split_chars_pieces is_comma_or_tab [] (chars line)
                  (List.Forall_nil _)) as Hall.
    rewrite Forall_forall in Hall. now apply Hall. }
  assert (Hcomma : Forall (fun c => c <> ","%char) (chars f)).
  { eapply Forall_impl; [exact Hsep|]. intros c Hc ->. discriminate Hc. }
  assert (Htab : Forall (fun c => c <> ascii_of_nat 9) (chars f)).
  { eapply Forall_impl; [exact Hsep|]. intros c Hc ->. discriminate Hc. }
  split; [now apply includes_single|].
  split; [now apply includes_single|].
  split; [now apply delete_tokens_without_comma|].
  rewrite length_map. unfold split.
  destruct (chars line) as [|c l]; cbn; [lia|].
  destruct (is_comma_or_tab c); cbn; [lia|].
  generalize [c]. induction l as [|d l IH]; intros cur; cbn; [lia|].
  destruct (is_comma_or_tab d); cbn; [lia|apply IH].
Qed.

Lemma lower_upper_char (c : ascii) :
  lower_char (upper_char c) = lower_char c.
Proof.
  destruct c as [[] [] [] [] [] [] [] []]; reflexivity.
Qed.

Lemma toLowerCase_toUpperCase (s : string) :
  toLowerCase (toUpperCase s) = toLowerCase s.
Proof.
  unfold toLowerCase, toUpperCase. rewrite chars_of_chars, map_map.
  f_equal. apply map_ext. intros c. apply lower_upper_char.
Qed.

Lemma toLowerCase_idempotent (s : string) :
  toLowerCase (toLowerCase s) = toLowerCase s.
Proof.
  unfold toLowerCase. rewrite chars_of_chars, map_map.
  f_equal. apply map_ext. intros c.
  destruct c as [[] [] [] [] [] [] [] []]; reflexivity.
Qed.

Lemma fillColumnMap_lower (headers headers' : list string) (index : Z)
    (o : JsObject.obj Z) :
  map toLowerCase headers = map toLowerCase headers' ->
  fillColumnMap headers index o = fillColumnMap headers' index o.
Proof.
  revert headers' index o.
  induction headers as [|h headers IH]; intros [|h' headers'] index o E;
    try discriminate E; [reflexivity|].
  cbn in E. injection E as Eh Et. cbn. rewrite Eh. now apply IH.
Qed.

(** X7.  The letter case of the headers does not matter: two header rows
    that agree up to letter case give the same map of columns, the same
    resolved columns and the same missing columns; in particular a header
    row may be written in lower case throughout, and a header row of ASCII
    characters in upper case throughout. *)
Theorem X7_headers_up_to_letter_case (headers headers' : list string) :
  map toLowerCase headers = map toLowerCase headers' ->
  columnMapOf headers = columnMapOf headers'
  /\ resolveColumns (columnMapOf headers)
     = resolveColumns (columnMapOf headers')
  /\ missingColumns (columnMapOf headers)
     = missingColumns (columnMapOf headers')
  /\ (Forall (fun h => isAscii h = true) headers ->
      columnMapOf (map toUpperCase headers) = columnMapOf headers)
  /\ columnMapOf (map toLowerCase headers) = columnMapOf headers.
Proof.
  intros E.
  assert (Hm : columnMapOf headers = columnMapOf headers')
    by now apply fillColumnMap_lower.
  split; [exact Hm|].
  split; [now rewrite Hm|]. split; [now rewrite Hm|].
  split; [intros _|]; apply fillColumnMap_lower; rewrite map_map;
    apply map_ext; intros h;
    [apply toLowerCase_toUpperCase|apply toLowerCase_idempotent].
Qed.

Lemma findIndex_first {A : Type} (p : A -> bool) (l : list A) (k : nat) :
  findIndex p l = Z.of_nat k <->
  (exists x, l !! k = Some x /\ p x = true)
  /\ forall j y, (j < k)%nat -> l !! j = Some y -> p y = false.
Proof.
  revert k. induction l as [|x l IH]; intros k; cbn [findIndex].
  - split; [lia|]. intros [(y & Hy & _) _]. discriminate Hy.
  - destruct (p x) eqn:Ex.
    + split.
      * intros E. assert (k = 0%nat) as -> by lia.
        split; [now exists x|]. intros j y Hj. lia.
      * intros [(y & Hy & Hp) Hbefore]. destruct k as [|k]; [reflexivity|].
        specialize (Hbefore 0%nat x ltac:(lia) eq_refl). congruence.
    + pose proof (findIndex_range p l) as [Hr _].
      destruct (Z.ltb_spec (findIndex p l) 0) as [Hn|Hn].
      * split; [lia|]. intros [(y & Hy & Hp) Hbefore].
        destruct k as [|k]; [cbn in Hy; congruence|].
        exfalso. cbn in Hy.
        assert (E : findIndex p l = Z.of_nat k).
        { apply IH. split; [now exists y|].
          intros j z Hj Hz. apply (Hbefore (S j) z); [lia|exact Hz]. }
        lia.
      * split.
        -- intros E. destruct k as [|k]; [lia|].
           assert (E' : findIndex p l = Z.of_nat k) by lia.
           apply IH in E' as [(y & Hy & Hp) Hbefore].
           split; [now exists y|].
           intros [|j] z Hj Hz; cbn in Hz; [congruence|].
           apply (Hbefore j z); [lia|exact Hz].
        -- intros [(y & Hy & Hp) Hbefore].
           destruct k as [|k]; [cbn in Hy; congruence|].
           assert (E : findIndex p l = Z.of_nat k).
           { apply IH. split; [now exists y|].
             intros j z Hj Hz. apply (Hbefore (S j) z); [lia|exact Hz]. }
           lia.
Qed.

(** X8.  When no two headers agree up to letter case and none is an array
    index or [__proto__], a column is resolved to the position of the first
    header that contains its name in any letter case, and to -1 exactly when
    no header contains it. *)
Theorem X8_distinct_headers_resolve_to_their_positions
    (headers : list string) (baseName : string) :
  NoDup (map toLowerCase headers) ->
  Forall (fun h => toLowerCase h <> "__proto__"
                   /\ JsObject.array_index (toLowerCase h) = None) headers ->
  let k := getColumnIndex (columnMapOf headers) baseName in
  let matches h := includes (toLowerCase h) (toLowerCase baseName) in
  (forall n : nat,
      k = Z.of_nat n <->
      (exists h, headers !! n = Some h /\ matches h = true)
      /\ forall j h, (j < n)%nat -> headers !! j = Some h ->
           matches h = false)
  /\ (k = -1 <-> Forall (fun h => matches h = false) headers)
  /\ -1 <= k < Z.of_nat (length headers).
Proof.
  intros Hnd Hok k matches.
  assert (Hk : k = findIndex matches headers)
    by now apply getColumnIndex_distinct_headers.
  pose proof (findIndex_range matches headers) as [Hr Hex].
  split; [intros n; rewrite Hk; apply findIndex_first|].
  split; [|now rewrite Hk].
  rewrite Hk. split.
  - intros E. apply Forall_forall. intros h Hh.
    destruct (matches h) eqn:Em; [|reflexivity].
    assert (Hsome : existsb matches headers = true).
    { apply existsb_exists. exists h. split; [|exact Em].
      now apply list_elem_of_In. }
    apply Hex in Hsome. lia.
  - intros Hall. destruct (Z.eq_dec (findIndex matches headers) (-1)) as
      [E|Hne]; [exact E|].
    assert (Hpos : 0 <= findIndex matches headers) by lia.
    apply Hex, existsb_exists in Hpos as (h & Hh & Em).
    rewrite Forall_forall in Hall.
    rewrite (Hall h) in Em by now apply list_elem_of_In. discriminate.
Qed.

End FieldExtras.

(** ** The store during a session *)

Module StoreExtras.
Import Str NormalizerFacts ImageFacts.

Lemma normalize_ids (H : Host) (text : string) (trades : list Trade) :
  normalize H text = inr trades ->
  NoDup (map id trades) /\ Forall (fun t => 1 <= id t) trades
  /\ trades <> [].
Proof.
  intros E. apply normalize_inr in E as [-> Hne].
  pose proof (ImportExtras.surviving_rows H text) as Hs. cbn zeta in Hs.
  pose proof (parseRows_ids H
                (resolveColumns
                   (columnMapOf
                      (tokenize
                         (hd "" (split is_newline (trim text))))))
                1 (tail (split is_newline (trim text)))) as [Hge Hsorted].
  rewrite <- Hs in Hge, Hsorted.
  split; [|split].
  - rewrite sortTrades_perm. now apply ImportExtras.earlierRow_NoDup.
  - rewrite sortTrades_perm. eapply Forall_impl; [exact Hge|].
    cbn. intros t Ht. lia.
  - intros E. apply Hne. apply Permutation_nil_r.
    now rewrite <- (sortTrades_perm (surviving H text)), E.
Qed.

Lemma recalculateTrade_id (m : num) (t : Trade) :
  id (recalculateTrade m t) = id t.
Proof. unfold recalculateTrade. now destruct (isXAUUSD t). Qed.

Lemma recalculated_ids (m : num) (l : list Trade) :
  map id (map (recalculateTrade m) l) = map id l.
Proof.
  rewrite map_map. apply map_ext. intros t. apply recalculateTrade_id.
Qed.

(** In a list without repeated ids, looking a trade up by its id finds that
    trade. *)
Lemma find_by_id (l : list Trade) (sel : Trade) :
  NoDup (map id l) -> sel ∈ l ->
  List.find (fun t => id t =? id sel) l = Some sel.
Proof.
  induction l as [|x l IH]; cbn; intros Hnd Hin; [inversion Hin|].
  apply NoDup_cons in Hnd as [Hx Hnd].
  apply elem_of_cons in Hin as [->|Hin]; [now rewrite Z.eqb_refl|].
  destruct (Z.eqb_spec (id x) (id sel)) as [E|_]; [|now apply IH].
  exfalso. apply Hx. rewrite E. apply list_elem_of_In, in_map.
  now apply list_elem_of_In.
Qed.

Lemma parseCSV_consistent (H : Host) (text : string) (st : Store) :
  consistent st -> consistent (parseCSV H text st).
Proof.
  intros (Hnd & Hge & Hsel & Hnone & Himg & H0). unfold parseCSV.
  destruct (normalize H text) as [e|trades] eqn:E.
  - repeat split; cbn; try assumption; apply Hnone.
  - destruct (normalize_ids H text trades E) as (Hnd' & Hge' & Hne).
    repeat split; cbn; try assumption.
    + intros sel Hs. destruct trades as [|t l]; [discriminate|].
      injection Hs as <-. apply elem_of_cons. now left.
    + destruct trades; [congruence|discriminate].
    + intros ->. congruence.
Qed.

Lemma setNotification_consistent (text : string) (st : Store) :
  consistent st -> consistent (setNotification text st).
Proof. intros Hc. exact Hc. Qed.

Lemma applyDebugMultiplier_selected (m : num) (st : Store) :
  consistent st -> Num.truthy m = true ->
  selectedTrade (applyDebugMultiplier (Some m) st)
  = option_map (recalculateTrade m) (selectedTrade st).
Proof.
  intros (Hnd & _ & Hsel & _) Hm. unfold applyDebugMultiplier.
  rewrite Hm. cbn [selectedTrade].
  destruct (selectedTrade st) as [sel|]; [|reflexivity].
  specialize (Hsel sel eq_refl). cbn [option_map].
  assert (Hfind : List.find
                    (fun t => id t =? id (recalculateTrade m sel))
                    (map (recalculateTrade m) (tradeList st))
                  = Some (recalculateTrade m sel)).
  { apply find_by_id.
    - now rewrite recalculated_ids.
    - apply list_elem_of_In, in_map. now apply list_elem_of_In. }
  rewrite recalculateTrade_id in Hfind. now rewrite Hfind.
Qed.

Lemma applyDebugMultiplier_consistent (m : option num) (st : Store) :
  consistent st -> consistent (applyDebugMultiplier m st).
Proof.
  intros Hc. destruct m as [m|]; [|exact Hc].
  destruct (Num.truthy m) eqn:Hm;
    [|unfold applyDebugMultiplier; now rewrite Hm].
  pose proof (applyDebugMultiplier_selected m st Hc Hm) as Hs.
  destruct Hc as (Hnd & Hge & Hsel & Hnone & Himg & H0).
  assert (Hl : tradeList (applyDebugMultiplier (Some m) st)
               = map (recalculateTrade m) (tradeList st)).
  { unfold applyDebugMultiplier. now rewrite Hm. }
  assert (Hi : tradeImages (applyDebugMultiplier (Some m) st)
               = tradeImages st).
  { unfold applyDebugMultiplier. now rewrite Hm. }
  unfold consistent. rewrite Hl, Hi, Hs.
  split; [now rewrite recalculated_ids|]. split.
  { apply Forall_forall. intros t Ht.
    apply list_elem_of_In, in_map_iff in Ht as (u & <- & Hu).
    rewrite recalculateTrade_id. rewrite Forall_forall in Hge.
    apply Hge. now apply list_elem_of_In. }
  split.
  { intros sel Hsel'. destruct (selectedTrade st) as [old|]; [|discriminate].
    injection Hsel' as <-. apply list_elem_of_In, in_map.
    apply list_elem_of_In. now apply Hsel. }
  split; [|split; assumption].
  destruct (selectedTrade st) as [old|]; cbn.
  - split; [discriminate|]. intros E. apply map_eq_nil in E.
    apply Hnone in E. discriminate.
  - split; [|reflexivity]. intros _.
    now rewrite (proj1 Hnone eq_refl).
Qed.

Lemma uploadImage_consistent (tradeId : Z) (slot : nat) (data : string)
    (st : Store) :
  (slot < 3)%nat -> consistent st ->
  consistent (uploadImage (Some tradeId) (Some slot) data st).
Proof.
  intros Hs (Hnd & Hge & Hsel & Hnone & Himg & H0).
  repeat split; cbn [uploadImage tradeList selectedTrade tradeImages];
    try assumption; try apply Hnone.
  - intros k. destruct (decide (k = tradeId)) as [->|Hne].
    + eapply imagesWithin_weaken; [|apply attach_step; [exact Hs|apply Himg]].
      intros j [->|Hj]%elem_of_cons; [|exact Hj].
      destruct slot as [|[|[|?]]]; [repeat constructor..|lia].
    + eapply ImageClaims.imagesWithin_lookup; [|apply Himg].
      now apply handleImageUpload_other.
  - unfold handleImageUpload.
    destruct (Z.eqb_spec tradeId 0) as [->|Hne]; [exact H0|].
    unfold attachImage. now rewrite lookup_insert_ne.
Qed.

Lemma detachImage_consistent (tradeId : Z) (slot : nat) (st : Store) :
  (slot < 3)%nat -> consistent st ->
  consistent (detachImage tradeId slot st).
Proof.
  intros Hs (Hnd & Hge & Hsel & Hnone & Himg & H0).
  repeat split;
    cbn [detachImage setTradeImages tradeList selectedTrade tradeImages];
    try assumption; try apply Hnone.
  - intros k. destruct (decide (k = tradeId)) as [->|Hne].
    + apply remove_step; [exact Hs|].
      eapply imagesWithin_weaken; [|apply Himg]. intros j Hj. now right.
    + eapply ImageClaims.imagesWithin_lookup; [|apply Himg].
      now apply removeImage_other.
  - destruct (decide (tradeId = 0)) as [->|Hne].
    + unfold removeImage. now rewrite H0.
    + now rewrite removeImage_other.
Qed.

Lemma session_consistent (st : Store) : session st -> consistent st.
Proof.
  induction 1 as [|H file st Hs IH|H file st Hs IH|t st Ht Hs IH
                 |m st Hs IH|tradeId slot data st Hslot Hs IH
                 |tradeId slot st Hslot Hs IH].
  - repeat split; cbn; try constructor; try easy.
  - unfold handleCSVUpload. destruct file as [f|]; [|exact IH].
    destruct (isCSV f); [now apply parseCSV_consistent|exact IH].
  - unfold handleFileDrop. destruct file as [f|]; [|exact IH].
    destruct (isCSV f); [now apply parseCSV_consistent|exact IH].
  - destruct IH as (Hnd & Hge & Hsel & Hnone & Himg & H0).
    repeat split; cbn; try assumption.
    + now intros sel [= <-].
    + discriminate.
    + intros E. rewrite E in Ht. inversion Ht.
  - now apply applyDebugMultiplier_consistent.
  - now apply uploadImage_consistent.
  - now apply detachImage_consistent.
Qed.

End StoreExtras.

Module SessionExtras.
Import Str ImageFacts StoreExtras.

(** X9.  Throughout a session the ids of the listed trades are pairwise
    distinct and at least 1, the selected trade is one of the listed trades,
    and no trade is selected exactly when the list is empty. *)
Theorem X9_selection_is_a_listed_trade (st : Store) :
  session st ->
  NoDup (map id (tradeList st))
  /\ Forall (fun t => 1 <= id t) (tradeList st)
  /\ (forall sel, selectedTrade st = Some sel -> sel ∈ tradeList st)
  /\ (selectedTrade st = None <-> tradeList st = []).
Proof.
  intros Hs. destruct (session_consistent st Hs) as (? & ? & ? & ? & _).
  auto.
Qed.

(** X10.  After a recalculation with a multiplier that is neither 0 nor not
    a number, the selected trade is the recalculated version of the trade
    that was selected, and the list shows that same record at the same
    place. *)
Theorem X10_recalculation_keeps_the_selection (m : num) (st : Store) :
  session st ->
  Num.truthy m = true ->
  let st' := applyDebugMultiplier (Some m) st in
  selectedTrade st' = option_map (recalculateTrade m) (selectedTrade st)
  /\ (forall k sel,
        selectedTrade st = Some sel -> tradeList st !! k = Some sel ->
        tradeList st' !! k = selectedTrade st').
Proof.
  intros Hs Hm st'. pose proof (session_consistent st Hs) as Hc.
  pose proof (applyDebugMultiplier_selected m st Hc Hm) as Hsel.
  split; [exact Hsel|].
  intros k sel Hsome Hk. unfold st' in *. rewrite Hsel, Hsome.
  unfold applyDebugMultiplier. rewrite Hm. cbn [tradeList option_map].
  change (map (recalculateTrade m) (tradeList st))
    with (recalculateTrade m <$> tradeList st).
  now rewrite list_lookup_fmap, Hk.
Qed.

Lemma someNotNull_everyNull (a : list cell) :
  someNotNull a = negb (everyNull a).
Proof.
  unfold someNotNull, everyNull.
  induction a as [|c a IH]; cbn; [reflexivity|].
  rewrite IH. now destruct c; cbn; try rewrite negb_andb.
Qed.

Lemma wellFormed_has_image (a : list cell) :
  Forall nullOrImage a -> everyNull a = false ->
  exists j data, a !! j = Some (Image data).
Proof.
  induction 1 as [|c a Hc Ha IH]; cbn; [discriminate|].
  destruct Hc as [->|[d ->]]; cbn.
  - intros Hn. destruct (IH Hn) as (j & data & Hj). now exists (S j), data.
  - intros _. now exists 0%nat, d.
Qed.

(** X11.  Throughout a session every image array that is kept has exactly
    three slots, each empty or holding an image, and at least one image; so
    the gallery of a trade is shown exactly when the map has an entry for
    it, and there is never an entry for the id 0. *)
Theorem X11_image_arrays_are_well_formed (st : Store) (tradeId : Z) :
  session st ->
  (forall a, tradeImages st !! tradeId = Some a ->
     length a = 3%nat
     /\ Forall nullOrImage a
     /\ exists j data, (j < 3)%nat /\ a !! j = Some (Image data))
  /\ (hasGallery tradeId (tradeImages st) = true <->
      tradeImages st !! tradeId <> None)
  /\ tradeImages st !! 0 = None.
Proof.
  intros Hs.
  destruct (session_consistent st Hs) as (_ & _ & _ & _ & Himg & H0).
  specialize (Himg tradeId). unfold imagesWithin in Himg.
  unfold hasGallery.
  destruct (tradeImages st !! tradeId) as [a|].
  - destruct Himg as ((Hl & Hc & Hn) & _).
    split; [|split; [|exact H0]].
    + intros ? [= <-]. split; [exact Hl|]. split; [exact Hc|].
      destruct (wellFormed_has_image a Hc Hn) as (j & data & Hj).
      exists j, data. split; [|exact Hj].
      apply lookup_lt_Some in Hj. lia.
    + rewrite someNotNull_everyNull, Hn. split; [discriminate|reflexivity].
  - split; [discriminate|]. split; [|exact H0].
    split; [discriminate|congruence].
Qed.

(** X12.  An upload into slot 0, 1 or 2 of a trade whose id is not 0 puts
    the image into that slot, creating the three empty slots first when the
    trade had none, and leaves the other slots and the other trades as they
    were; an upload for the id 0 stores nothing. *)
Theorem X12_upload_fills_its_slot (st : Store) (tradeId : Z) (slot : nat)
    (data : string) :
  session st ->
  (slot < 3)%nat ->
  let before := default [Null; Null; Null] (tradeImages st !! tradeId) in
  let after :=
    tradeImages (uploadImage (Some tradeId) (Some slot) data st) in
  (tradeId <> 0 ->
     after !! tradeId = Some (<[slot := Image data]> before)
     /\ <[slot := Image data]> before !! slot = Some (Image data)
     /\ (forall j, j <> slot ->
           <[slot := Image data]> before !! j = before !! j))
  /\ (forall other, other <> tradeId ->
        after !! other = tradeImages st !! other)
  /\ (tradeId = 0 -> after = tradeImages st).
Proof.
  intros Hs Hslot before after.
  destruct (session_consistent st Hs) as (_ & _ & _ & _ & Himg & _).
  specialize (Himg tradeId). unfold imagesWithin in Himg.
  assert (Hb : length before = 3%nat /\ Forall nullOrImage before).
  { unfold before. destruct (tradeImages st !! tradeId) as [a|]; cbn.
    - destruct Himg as ((Hl & Hc & _) & _). now split.
    - split; [reflexivity|repeat constructor; now left]. }
  destruct Hb as [Hl Hc].
  unfold after. cbn [uploadImage tradeImages].
  split; [|split].
  - intros Hid. unfold handleImageUpload.
    destruct (Z.eqb_spec tradeId 0); [congruence|].
    unfold attachImage. fold before.
    rewrite lookup_insert_eq, (spread_id _ Hc), assign_inside by lia.
    split; [reflexivity|].
    split; [apply list_lookup_insert_eq; lia|].
    intros j Hj. now apply list_lookup_insert_ne.
  - intros other Hne. now apply handleImageUpload_other.
  - intros ->. reflexivity.
Qed.

(** X13.  Uploading an image into an empty slot and removing it again
    gives back the image map as it was. *)
Theorem X13_upload_then_remove_restores (st : Store) (tradeId : Z)
    (slot : nat) (data : string) :
  session st ->
  (slot < 3)%nat ->
  default [Null; Null; Null] (tradeImages st !! tradeId) !! slot
  = Some Null ->
  tradeImages
    (detachImage tradeId slot
       (uploadImage (Some tradeId) (Some slot) data st))
  = tradeImages st.
Proof.
  intros Hs Hslot Hempty.
  destruct (session_consistent st Hs) as (_ & _ & _ & _ & Himg & H0).
  specialize (Himg tradeId). unfold imagesWithin in Himg.
  cbn [detachImage setTradeImages uploadImage tradeImages].
  unfold handleImageUpload.
  destruct (Z.eqb_spec tradeId 0) as [->|Hid].
  { unfold removeImage. now rewrite H0. }
  unfold attachImage.
  destruct (tradeImages st !! tradeId) as [a|] eqn:Ea;
    cbn [from_option] in *; unfold Datatypes.id in *.
  - destruct Himg as ((Hl & Hc & Hn) & _).
    rewrite (spread_id _ Hc), assign_inside by lia.
    rewrite (removeImage_wellFormed tradeId slot
               (<[slot := Image data]> a)).
    + rewrite list_insert_insert_eq, (list_insert_id a slot Null Hempty), Hn.
      rewrite insert_insert_eq. now apply insert_id.
    + exact Hslot.
    + apply lookup_insert_eq.
    + split; [now rewrite length_insert|]. split.
      * apply nullOrImage_insert; [right; eauto|exact Hc].
      * apply (everyNull_image _ slot data).
        apply list_lookup_insert_eq. lia.
  - unfold removeImage. rewrite lookup_insert_eq.
    assert (Hnull : everyNull
                      (assign
                         (spread (assign (spread [Null; Null; Null]) slot
                                    (Image data))) slot Null) = true).
    { destruct slot as [|[|[|?]]]; [reflexivity..|lia]. }
    rewrite Hnull, delete_insert_eq. now apply delete_id.
Qed.

Lemma everyNull_insert_null (a : list cell) (slot : nat) :
  everyNull a = true -> everyNull (<[slot := Null]> a) = true.
Proof.
  unfold everyNull. revert slot.
  induction a as [|c a IH]; intros [|slot]; cbn; try easy.
  - intros [_ Ha]%andb_prop. exact Ha.
  - intros [Hc Ha]%andb_prop. rewrite Hc. cbn. now apply IH.
Qed.

Lemma removeImage_twice (tradeId : Z) (s1 s2 : nat) (a : list cell)
    (m : gmap Z (list cell)) :
  (s1 < 3)%nat -> (s2 < 3)%nat ->
  m !! tradeId = Some a -> wellFormedSlots a ->
  removeImage tradeId s2 (removeImage tradeId s1 m)
  = if everyNull (<[s2 := Null]> (<[s1 := Null]> a)) then delete tradeId m
    else <[tradeId := <[s2 := Null]> (<[s1 := Null]> a)]> m.
Proof.
  intros H1 H2 Ha Hw.
  rewrite (removeImage_wellFormed tradeId s1 a m H1 Ha Hw).
  destruct Hw as (Hl & Hc & Hn).
  destruct (everyNull (<[s1 := Null]> a)) eqn:E1.
  - rewrite (everyNull_insert_null _ s2 E1).
    unfold removeImage. now rewrite lookup_delete_eq.
  - rewrite (removeImage_wellFormed tradeId s2 (<[s1 := Null]> a)).
    + destruct (everyNull (<[s2 := Null]> (<[s1 := Null]> a))).
      * apply delete_insert_eq.
      * apply insert_insert_eq.
    + exact H2.
    + apply lookup_insert_eq.
    + split; [now rewrite length_insert|]. split; [|exact E1].
      apply nullOrImage_insert; [now left|exact Hc].
Qed.

(** X14.  Throughout a session, removing the image of a slot a second time
    changes nothing, and two removals for a trade give the same image map
    in either order. *)
Theorem X14_removals_are_idempotent_and_commute (st : Store) (tradeId : Z)
    (s1 s2 : nat) :
  session st ->
  (s1 < 3)%nat -> (s2 < 3)%nat ->
  removeImage tradeId s1 (removeImage tradeId s1 (tradeImages st))
  = removeImage tradeId s1 (tradeImages st)
  /\ removeImage tradeId s2 (removeImage tradeId s1 (tradeImages st))
     = removeImage tradeId s1 (removeImage tradeId s2 (tradeImages st)).
Proof.
  intros Hs H1 H2.
  destruct (session_consistent st Hs) as (_ & _ & _ & _ & Himg & _).
  specialize (Himg tradeId). unfold imagesWithin in Himg.
  destruct (tradeImages st !! tradeId) as [a|] eqn:Ea.
  - destruct Himg as (Hw & _).
    rewrite !(removeImage_twice tradeId _ _ a) by assumption.
    split.
    + rewrite list_insert_insert_eq.
      now rewrite (removeImage_wellFormed tradeId s1 a).
    + destruct (decide (s1 = s2)) as [->|Hne]; [reflexivity|].
      now rewrite (list_insert_insert_ne a s2 s1) by congruence.
  - unfold removeImage. now rewrite !Ea.
Qed.

(** X15.  A file whose name is made of ASCII characters is taken as CSV
    whatever the letter case of that name, and an offered file that is not imported (none was chosen, it is not CSV, or
    its import fails) changes nothing but the notification, which then
    starts with [Error: ]; no offered file ever changes the image map. *)
Theorem X15_rejected_files_change_nothing (H : Host) (file : option File)
    (st : Store) :
  (forall f, isAscii (fileName f) = true ->
     isCSV (mkFile (fileType f) (toUpperCase (fileName f)) (fileText f))
     = isCSV f)
  /\ tradeImages (handleCSVUpload H file st) = tradeImages st
  /\ tradeImages (handleFileDrop H file st) = tradeImages st
  /\ ((forall f, file = Some f -> isCSV f = true ->
         exists e, normalize H (fileText f) = inl e) ->
      tradeList (handleCSVUpload H file st) = tradeList st
      /\ selectedTrade (handleCSVUpload H file st) = selectedTrade st
      /\ startsWith (notification (handleCSVUpload H file st)) "Error: "
         = true
      /\ tradeList (handleFileDrop H file st) = tradeList st
      /\ selectedTrade (handleFileDrop H file st) = selectedTrade st
      /\ startsWith (notification (handleFileDrop H file st)) "Error: "
         = true).
Proof.
  split.
  { intros f _. unfold isCSV. cbn [fileType fileName].
    now rewrite FieldExtras.toLowerCase_toUpperCase. }
  unfold handleCSVUpload, handleFileDrop, parseCSV.
  destruct file as [f|]; [|repeat split; reflexivity].
  destruct (isCSV f) eqn:Ecsv; [|repeat split; reflexivity].
  split; [destruct (normalize H (fileText f)); reflexivity|].
  split; [destruct (normalize H (fileText f)); reflexivity|].
  intros Hfail. destruct (Hfail f eq_refl Ecsv) as [e ->].
  cbn [tradeList selectedTrade notification].
  assert (Hprefix : startsWith ("Error: " +:+ message e) "Error: " = true).
  { unfold startsWith. cbn [String.append String.prefix].
    repeat (match goal with
            | |- context [ascii_dec ?a ?b] =>
                destruct (ascii_dec a b); [|congruence]
            end).
    now destruct (message e). }
  rewrite Hprefix. repeat split; reflexivity.
Qed.

End SessionExtras.

(** ** The PDF export *)

Module ExportExtras.
Import Str NumArith.

Lemma titles_app (a b : list PdfCommand) :
  titles (a ++ b) = titles a ++ titles b.
Proof. apply omap_app. Qed.

Lemma titles_tradeTexts (P : PdfHost) (t : Trade) :
  titles (tradeTexts P t) = [title t].
Proof.
  unfold tradeTexts. rewrite titles_app.
  destruct (String.eqb (description t) ""); reflexivity.
Qed.

Lemma pages_tradeTexts (P : PdfHost) (t : Trade) :
  List.filter isAddPage (tradeTexts P t) = []
  /\ List.filter isAddImage (tradeTexts P t) = []
  /\ Forall (wellPlaced P) (tradeTexts P t).
Proof.
  unfold tradeTexts.
  destruct (String.eqb (description t) ""); cbn;
    repeat split; repeat constructor.
Qed.

(** What the loop over the slots draws: page breaks and well-placed images
    of these slots, and nothing else. *)
Lemma placeImages_draws (P : PdfHost) (cells : list cell) (y : num)
    (cmds : list PdfCommand) :
  placeImages P cells y = Some cmds ->
  titles cmds = []
  /\ Forall (wellPlaced P) cmds
  /\ Forall
       (fun c =>
          match c with
          | AddPage => True
          | AddImage imageData _ _ _ _ _ => Image imageData ∈ cells
          | _ => False
          end) cmds.
Proof.
  revert y cmds. induction cells as [|c cells IH]; intros y cmds; cbn.
  - intros [= <-]. repeat split; constructor.
  - assert (Hskip : forall y', placeImages P cells y' = Some cmds ->
              titles cmds = []
              /\ Forall (wellPlaced P) cmds
              /\ Forall
                   (fun c0 =>
                      match c0 with
                      | AddPage => True
                      | AddImage imageData _ _ _ _ _ =>
                          Image imageData ∈ c :: cells
                      | _ => False
                      end) cmds).
    { intros y' E. destruct (IH _ _ E) as (Ht & Hw & Hin).
      split; [exact Ht|]. split; [exact Hw|].
      eapply Forall_impl; [exact Hin|].
      intros [] Hc; try exact Hc. now apply elem_of_cons; right. }
    destruct (truthyImage c) as [imageData|] eqn:Ec; [|apply Hskip].
    assert (Hcell : c = Image imageData /\ imageData <> "").
    { destruct c; try discriminate Ec. cbn in Ec.
      destruct (String.eqb_spec data ""); [discriminate|].
      injection Ec as <-. now split. }
    destruct Hcell as [-> Hdata].
    destruct (loadImage P imageData) as [[width height]|] eqn:El;
      [|apply Hskip].
    destruct (Num.truthy width && Num.truthy height) eqn:Et;
      [|apply Hskip].
    apply andb_prop in Et as [Hw Hh].
    destruct (addImageAccepts P imageData); [|discriminate].
    match goal with
    | |- context [placeImages P cells ?y'] =>
        destruct (placeImages P cells y') as [more|] eqn:Em;
          [|discriminate]
    end.
    destruct (IH _ _ Em) as (Ht & Hwp & Hin).
    intros [= <-].
    assert (Himage : wellPlaced P
              (AddImage imageData "JPEG" margin
                 (if Num.gtb
                       (add y (Num.mul (imgWidth P) (div height width)))
                       (Num.sub (pageHeight P) (Num.of_Z 10))
                  then Num.of_Z 20 else y)
                 (imgWidth P) (Num.mul (imgWidth P) (div height width)))).
    { cbn. repeat split; try reflexivity; try exact Hdata.
      - exists width, height. now repeat split.
      - destruct (Num.gtb _ _) eqn:Eb; [now left|].
        right. exact Eb. }
    assert (Hrest : Forall
              (fun c0 =>
                 match c0 with
                 | AddPage => True
                 | AddImage d _ _ _ _ _ => Image d ∈ Image imageData :: cells
                 | _ => False
                 end) more).
    { eapply Forall_impl; [exact Hin|].
      intros [] Hc; try exact Hc. now apply elem_of_cons; right. }
    destruct (Num.gtb _ _); cbn [app].
    + split; [exact Ht|]. split.
      * constructor; [exact I|]. now constructor.
      * constructor; [exact I|]. constructor; [|exact Hrest].
        apply elem_of_cons. now left.
    + split; [exact Ht|]. split.
      * now constructor.
      * constructor; [|exact Hrest]. apply elem_of_cons. now left.
Qed.

Lemma placeImages_accepted (P : PdfHost) (cells : list cell) (y : num) :
  (forall data, addImageAccepts P data = true) ->
  exists cmds, placeImages P cells y = Some cmds.
Proof.
  intros Hacc. revert y. induction cells as [|c cells IH]; intros y; cbn.
  - now eexists.
  - destruct (truthyImage c) as [imageData|]; [|apply IH].
    destruct (loadImage P imageData) as [[width height]|]; [|apply IH].
    destruct (Num.truthy width && Num.truthy height); [|apply IH].
    rewrite Hacc.
    match goal with
    | |- context [placeImages P cells ?y'] =>
        destruct (IH y') as [more ->]
    end.
    now eexists.
Qed.

Lemma tradePictures_draws (P : PdfHost) (images : gmap Z (list cell))
    (t : Trade) (cmds : list PdfCommand) :
  tradePictures P images t = Some cmds ->
  titles cmds = []
  /\ Forall (wellPlaced P) cmds
  /\ Forall
       (fun c =>
          match c with
          | AddPage => True
          | AddImage imageData _ _ _ _ _ =>
              exists a, images !! id t = Some a /\ Image imageData ∈ a
          | _ => False
          end) cmds
  /\ (hasGallery (id t) images = false -> cmds = []).
Proof.
  unfold tradePictures, hasGallery.
  destruct (images !! id t) as [a|].
  - destruct (someNotNull a).
    + intros E. destruct (placeImages_draws P a _ _ E) as (Ht & Hw & Hin).
      split; [exact Ht|]. split; [exact Hw|]. split; [|discriminate].
      eapply Forall_impl; [exact Hin|]. intros [] Hc; try exact Hc.
      now exists a.
    + intros [= <-]. repeat split; constructor.
  - intros [= <-]. repeat split; constructor.
Qed.

Lemma filter_app_length {A : Type} (f : A -> bool) (l1 l2 : list A) :
  length (List.filter f (l1 ++ l2))
  = (length (List.filter f l1) + length (List.filter f l2))%nat.
Proof. now rewrite List.filter_app, length_app. Qed.

(** The document of a list of trades. *)
Lemma exportTrades_draws (P : PdfHost) (images : gmap Z (list cell))
    (first : bool) (trades : list Trade) (doc : list PdfCommand) :
  exportTrades P images first trades = Some doc ->
  titles doc = map title trades
  /\ Forall (wellPlaced P) doc
  /\ Forall
       (fun c =>
          match c with
          | AddImage imageData _ _ _ _ _ =>
              exists t a,
                t ∈ trades /\ images !! id t = Some a
                /\ Image imageData ∈ a
          | _ => True
          end) doc.
Proof.
  revert first doc.
  induction trades as [|t trades IH]; intros first doc; cbn [exportTrades].
  - intros [= <-]. repeat split; constructor.
  - destruct (tradePictures P images t) as [pics|] eqn:Ep; [|discriminate].
    destruct (exportTrades P images false trades) as [more|] eqn:Em;
      [|discriminate].
    intros E.
    assert (Hdoc : doc = (if first then [] else [AddPage])
                         ++ tradeTexts P t ++ pics ++ more) by congruence.
    clear E. subst doc.
    destruct (tradePictures_draws P images t pics Ep) as (Ht & Hw & Hin & _).
    destruct (IH false more Em) as (Ht' & Hw' & Hin').
    destruct (pages_tradeTexts P t) as (_ & _ & Hwt).
    split; [|split].
    + rewrite (titles_app (if first then [] else [AddPage])),
        (titles_app (tradeTexts P t)), (titles_app pics),
        titles_tradeTexts, Ht, Ht'.
      now destruct first.
    + apply Forall_app_2; [destruct first; repeat constructor|].
      apply Forall_app_2; [exact Hwt|].
      apply Forall_app_2; [exact Hw|exact Hw'].
    + apply Forall_app_2; [|apply Forall_app_2; [|apply Forall_app_2]].
      * destruct first; repeat constructor.
      * unfold tradeTexts. apply Forall_app_2;
          [repeat constructor|].
        destruct (String.eqb (description t) ""); repeat constructor.
      * eapply Forall_impl; [exact Hin|]. intros [] Hc; try exact I.
        destruct Hc as (a & Ha & Hd). exists t, a.
        split; [apply elem_of_cons; now left|now split].
      * eapply Forall_impl; [exact Hin'|]. intros [] Hc; try exact I.
        destruct Hc as (u & a & Hu & Ha & Hd). exists u, a.
        split; [apply elem_of_cons; now right|now split].
Qed.

Lemma exportTrades_pages (P : PdfHost) (images : gmap Z (list cell))
    (first : bool) (trades : list Trade) (doc : list PdfCommand) :
  exportTrades P images first trades = Some doc ->
  (length trades - (if first then 1 else 0)
   <= length (List.filter isAddPage doc))%nat
  /\ (Forall (fun t => hasGallery (id t) images = false) trades ->
      length (List.filter isAddPage doc)
      = (length trades - (if first then 1 else 0))%nat
      /\ List.filter isAddImage doc = []).
Proof.
  revert first doc.
  induction trades as [|t trades IH]; intros first doc; cbn [exportTrades].
  - intros [= <-]. cbn. split; [lia|]. intros _. split; [lia|reflexivity].
  - destruct (tradePictures P images t) as [pics|] eqn:Ep; [|discriminate].
    destruct (exportTrades P images false trades) as [more|] eqn:Em;
      [|discriminate].
    intros E.
    assert (Hdoc : doc = (if first then [] else [AddPage])
                         ++ tradeTexts P t ++ pics ++ more) by congruence.
    clear E. subst doc.
    destruct (tradePictures_draws P images t pics Ep) as (_ & _ & _ & Hno).
    destruct (IH false more Em) as (Hle & Heq).
    destruct (pages_tradeTexts P t) as (Hp & Hi & _).
    rewrite Nat.sub_0_r in Hle, Heq.
    assert (Hpages : length (List.filter isAddPage
                       ((if first then [] else [AddPage])
                        ++ tradeTexts P t ++ pics ++ more))
                     = ((if first then 0 else 1)
                        + length (List.filter isAddPage pics)
                        + length (List.filter isAddPage more))%nat).
    { rewrite (filter_app_length _ (if first then [] else [AddPage])),
        (filter_app_length _ (tradeTexts P t)), (filter_app_length _ pics),
        Hp.
      destruct first; cbn; lia. }
    rewrite Hpages. cbn [length].
    split; [destruct first; lia|].
    intros Hall. apply Forall_cons in Hall as [Ht Hall].
    destruct (Heq Hall) as (Heq' & Himg).
    pose proof (Hno Ht) as Hpics. split.
    + rewrite Hpics. cbn. destruct first; lia.
    + rewrite (List.filter_app _ (if first then [] else [AddPage])),
        (List.filter_app _ (tradeTexts P t)), (List.filter_app _ pics),
        Hi, Himg, Hpics.
      now destruct first.
Qed.

Lemma exportTrades_accepted (P : PdfHost) (images : gmap Z (list cell))
    (first : bool) (trades : list Trade) :
  (forall data, addImageAccepts P data = true) ->
  exists doc, exportTrades P images first trades = Some doc.
Proof.
  intros Hacc. revert first.
  induction trades as [|t trades IH]; intros first; cbn [exportTrades].
  - now eexists.
  - assert (Hp : exists pics, tradePictures P images t = Some pics).
    { unfold tradePictures. destruct (images !! id t) as [a|]; [|now eexists].
      destruct (someNotNull a); [|now eexists].
      now apply placeImages_accepted. }
    destruct Hp as [pics ->]. destruct (IH false) as [more ->].
    now eexists.
Qed.

Lemma handleExportPDF_saved (P : PdfHost) (isExporting : bool) (st : Store)
    (doc : list PdfCommand) :
  saved (handleExportPDF P isExporting st) = Some doc ->
  tradeList st <> [] /\ isExporting = false
  /\ exportTrades P (tradeImages st) true (tradeList st) = Some doc.
Proof.
  unfold handleExportPDF.
  destruct (tradeList st) as [|t l] eqn:El; [discriminate|].
  destruct isExporting; [discriminate|]. cbn [length Nat.eqb orb].
  destruct (exportTrades _ _ _ _); [|discriminate].
  intros [= <-]. now repeat split.
Qed.

(** X16.  A saved document shows the trades in the order of the list, one
    title each, on at least as many pages as there are trades, and on
    exactly that many, without any image, when no listed trade has a
    gallery. *)
Theorem X16_export_shows_the_trades_in_order (P : PdfHost)
    (isExporting : bool) (st : Store) (doc : list PdfCommand) :
  saved (handleExportPDF P isExporting st) = Some doc ->
  titles doc = map title (tradeList st)
  /\ (length (tradeList st) <= pageCount doc)%nat
  /\ (Forall (fun t => hasGallery (id t) (tradeImages st) = false)
        (tradeList st) ->
      pageCount doc = length (tradeList st) /\ pictures doc = []).
Proof.
  intros Hs. apply handleExportPDF_saved in Hs as (Hne & _ & E).
  destruct (exportTrades_draws _ _ _ _ _ E) as (Ht & _).
  destruct (exportTrades_pages _ _ _ _ _ E) as (Hle & Heq).
  unfold pageCount, pictures.
  split; [exact Ht|]. split; [lia|].
  intros Hall. destruct (Heq Hall) as (Hp & Hi). split; [|exact Hi].
  rewrite Hp. destruct (tradeList st); [congruence|cbn; lia].
Qed.

(** X17.  Every image of a saved document is the image of a slot of a
    listed trade, drawn as JPEG at the left margin, as wide as the page
    between its margins and as high as its proportions ask; it either does
    not reach below the bottom margin or stands at the top of a page. *)
Theorem X17_export_places_images_within_the_page (P : PdfHost)
    (isExporting : bool) (st : Store) (doc : list PdfCommand) :
  saved (handleExportPDF P isExporting st) = Some doc ->
  Forall (wellPlaced P) doc
  /\ (forall imageData format x y width height,
        AddImage imageData format x y width height ∈ doc ->
        exists t a j,
          t ∈ tradeList st /\ tradeImages st !! id t = Some a
          /\ a !! j = Some (Image imageData)).
Proof.
  intros Hs. apply handleExportPDF_saved in Hs as (_ & _ & E).
  destruct (exportTrades_draws _ _ _ _ _ E) as (_ & Hw & Hin).
  split; [exact Hw|].
  intros imageData format x y width height Hc.
  rewrite Forall_forall in Hin. specialize (Hin _ Hc). cbn in Hin.
  destruct Hin as (t & a & Ht & Ha & Hd).
  apply list_elem_of_lookup_1 in Hd as [j Hj]. now exists t, a, j.
Qed.

(** X18.  An export is not started when the list is empty or another export
    is running: nothing is saved and nothing changes.  Otherwise the flag
    [isExporting] is off when the export ends, whether it saved a document
    or failed, and it can only fail when [jsPDF] refuses an image. *)
Theorem X18_export_guard_and_busy_flag (P : PdfHost) (isExporting : bool)
    (st : Store) :
  let r := handleExportPDF P isExporting st in
  (tradeList st = [] \/ isExporting = true ->
     saved r = None /\ isExportingAfter r = isExporting
     /\ notificationAfter r = notification st)
  /\ (tradeList st <> [] -> isExporting = false ->
      isExportingAfter r = false
      /\ (saved r = None ->
          notificationAfter r = "Error exporting PDF. Please try again.")
      /\ (saved r <> None -> notificationAfter r = "PDF export completed!")
      /\ ((forall data, addImageAccepts P data = true) ->
          saved r <> None)).
Proof.
  intros r. unfold r, handleExportPDF. split.
  - intros [Hl | Hb].
    + now rewrite Hl.
    + rewrite Hb. now rewrite orb_true_r.
  - intros Hne ->. destruct (tradeList st) as [|t l] eqn:El; [congruence|].
    cbn [length Nat.eqb orb]. rewrite <- El.
    destruct (exportTrades P (tradeImages st) true (tradeList st))
      as [doc|] eqn:E; cbn.
    + repeat split; try discriminate; congruence.
    + repeat split; try congruence. intros Hacc.
      destruct (exportTrades_accepted P (tradeImages st) true
                  (tradeList st) Hacc) as [doc Hd]. congruence.
Qed.

End ExportExtras.

(** ** The further properties on the sample inputs *)

Module ExtraWitnesses.
Import Str ImportExtras RowExtras FieldExtras SessionExtras ExportExtras.

Lemma sample_normalized :
  normalize Sample.host Sample.csv = inr Sample.imported.
Proof. vm_compute. reflexivity. Qed.

Lemma X1_witness :
  normalize Sample.host Sample.csv = inr Sample.imported
  /\ NoDup (map id Sample.imported)
  /\ Forall (fun t => 1 <= id t) Sample.imported.
Proof.
  split; [exact sample_normalized|].
  exact (proj2 (X1_trades_are_the_kept_lines Sample.host Sample.csv
                  Sample.imported sample_normalized)).
Defined.

Lemma X2_witness :
  normalize Sample.host Sample.csv = inr Sample.imported
  /\ length Sample.imported = 4%nat.
Proof.
  split; [exact sample_normalized|].
  exact (proj1 (X2_import_counts_the_kept_lines Sample.host Sample.csv
                  Sample.imported initialStore sample_normalized)).
Defined.

Lemma X3_witness :
  normalize Sample.host Sample.csv = inr Sample.imported
  /\ exists first,
       head Sample.imported = Some first
       /\ forall t, t ∈ Sample.imported -> entryTime t <= entryTime first.
Proof.
  split; [exact sample_normalized|].
  destruct (X3_import_selects_the_newest_trade Sample.host Sample.csv
              Sample.imported initialStore sample_normalized)
    as (first & _ & Hhead & Hall).
  exists first. split; [exact Hhead|].
  intros t Ht. exact (proj1 (Hall t Ht)).
Defined.

Lemma X4_witness :
  field (Sample.fieldsWith "1900" "1890" "1" "$(225.00)")
    (pnlCol Sample.columns) = Some "$(225.00)"
  /\ shouldDisplayAsNegative (Sample.tradeOf 2 "1900" "1890" "1" "$(225.00)")
     = startsWith
         (originalPnlString (Sample.tradeOf 2 "1900" "1890" "1" "$(225.00)"))
         "-".
Proof.
  split; [reflexivity|].
  exact (proj1 (X4_display_text_agrees_with_flag Sample.host 2%nat
                  (Sample.fieldsWith "1900" "1890" "1" "$(225.00)")
                  Sample.columns "$(225.00)" eq_refl)).
Defined.

Lemma X5_witness :
  dateField Sample.host (tokenize Sample.unreadableTime)
    (buyTimeCol Sample.columns) = None
  /\ durationMs
       (buildTrade Sample.host 5 (tokenize Sample.unreadableTime)
          Sample.columns) = 3600000
  /\ duration
       (buildTrade Sample.host 5 (tokenize Sample.unreadableTime)
          Sample.columns) = "1h 0m".
Proof.
  assert (Hbad : dateField Sample.host (tokenize Sample.unreadableTime)
                   (buyTimeCol Sample.columns) = None) by reflexivity.
  destruct (X5_duration_of_a_repaired_row Sample.host 5%nat
              (tokenize Sample.unreadableTime) Sample.columns
              (or_introl Hbad)) as (Hms & _ & Hd & _).
  split; [exact Hbad|]. split; [exact Hms|].
  apply Hd. left. vm_compute. reflexivity.
Defined.

Lemma X6_witness :
  "(1" ∈ tokenize SampleSession.thousands
  /\ "000.50)" ∈ tokenize SampleSession.thousands
  /\ includes "(1" "," = false.
Proof.
  assert (H1 : "(1" ∈ tokenize SampleSession.thousands).
  { vm_compute. do 6 apply list_elem_of_further. apply list_elem_of_here. }
  split; [exact H1|]. split.
  - vm_compute. do 7 apply list_elem_of_further. apply list_elem_of_here.
  - exact (proj1 (X6_fields_hold_no_separator SampleSession.thousands
                    "(1" H1)).
Defined.

Lemma X7_witness :
  map toLowerCase ["SYMBOL"; "PnL"] = map toLowerCase ["Symbol"; "pnl"]
  /\ Forall (fun h => isAscii h = true) ["SYMBOL"; "PnL"]
  /\ resolveColumns (columnMapOf ["SYMBOL"; "PnL"])
     = resolveColumns (columnMapOf ["Symbol"; "pnl"])
  /\ columnMapOf (map toUpperCase ["SYMBOL"; "PnL"])
     = columnMapOf ["SYMBOL"; "PnL"].
Proof.
  assert (Hascii : Forall (fun h => isAscii h = true) ["SYMBOL"; "PnL"])
    by (repeat constructor).
  destruct (X7_headers_up_to_letter_case ["SYMBOL"; "PnL"]
              ["Symbol"; "pnl"] eq_refl) as (_ & Hc & _ & Hupper & _).
  split; [reflexivity|]. split; [exact Hascii|].
  split; [exact Hc|exact (Hupper Hascii)].
Defined.

Lemma sample_headers_distinct :
  NoDup (map toLowerCase (tokenize Sample.header))
  /\ Forall (fun h => toLowerCase h <> "__proto__"
                      /\ JsObject.array_index (toLowerCase h) = None)
       (tokenize Sample.header).
Proof.
  split.
  - apply (bool_decide_unpack _). vm_compute. reflexivity.
  - remember (tokenize Sample.header) as hs eqn:E.
    vm_compute in E. subst hs.
    repeat (apply List.Forall_cons; [split|]); try apply List.Forall_nil;
      vm_compute; (discriminate || reflexivity).
Qed.

Lemma X8_witness :
  NoDup (map toLowerCase (tokenize Sample.header))
  /\ -1 <= getColumnIndex (columnMapOf (tokenize Sample.header)) "pnl"
     < Z.of_nat (length (tokenize Sample.header)).
Proof.
  split; [exact (proj1 sample_headers_distinct)|].
  exact (proj2 (proj2 (X8_distinct_headers_resolve_to_their_positions
                         (tokenize Sample.header) "pnl"
                         (proj1 sample_headers_distinct)
                         (proj2 sample_headers_distinct)))).
Defined.

Lemma sample_session : session SampleSession.imported.
Proof. apply session_upload, session_initial. Qed.

Lemma sample_gallery_session : session SampleSession.withGallery.
Proof.
  apply session_attach; [lia|]. apply session_attach; [lia|].
  exact sample_session.
Qed.

Lemma X9_witness :
  session SampleSession.imported
  /\ NoDup (map id (tradeList SampleSession.imported))
  /\ (selectedTrade SampleSession.imported = None <->
      tradeList SampleSession.imported = []).
Proof.
  split; [exact sample_session|].
  destruct (X9_selection_is_a_listed_trade SampleSession.imported
              sample_session) as (Hnd & _ & _ & Hnone).
  now split.
Defined.

Lemma X10_witness :
  session SampleSession.imported
  /\ Num.truthy (Num.of_Z 10) = true
  /\ selectedTrade
       (applyDebugMultiplier (Some (Num.of_Z 10)) SampleSession.imported)
     = option_map (recalculateTrade (Num.of_Z 10))
         (selectedTrade SampleSession.imported).
Proof.
  split; [exact sample_session|]. split; [reflexivity|].
  exact (proj1 (X10_recalculation_keeps_the_selection (Num.of_Z 10)
                  SampleSession.imported sample_session eq_refl)).
Defined.

Lemma X11_witness :
  session SampleSession.withGallery
  /\ (hasGallery 1 (tradeImages SampleSession.withGallery) = true <->
      tradeImages SampleSession.withGallery !! 1 <> None)
  /\ tradeImages SampleSession.withGallery !! 0 = None.
Proof.
  split; [exact sample_gallery_session|].
  exact (proj2 (X11_image_arrays_are_well_formed SampleSession.withGallery 1
                  sample_gallery_session)).
Defined.

Lemma X12_witness :
  session SampleSession.imported
  /\ tradeImages
       (uploadImage (Some 1) (Some 2%nat) "data:wide" SampleSession.imported)
     !! 1
     = Some [Null; Null; Image "data:wide"].
Proof.
  split; [exact sample_session|].
  destruct (X12_upload_fills_its_slot SampleSession.imported 1 2%nat
              "data:wide" sample_session ltac:(lia)) as (Hput & _).
  destruct (Hput ltac:(lia)) as (Hafter & _).
  rewrite Hafter. vm_compute. reflexivity.
Defined.

Lemma X13_witness :
  session SampleSession.withGallery
  /\ default [Null; Null; Null]
       (tradeImages SampleSession.withGallery !! 1) !! 2%nat = Some Null
  /\ tradeImages
       (detachImage 1 2
          (uploadImage (Some 1) (Some 2%nat) "data:third"
             SampleSession.withGallery))
     = tradeImages SampleSession.withGallery.
Proof.
  assert (Hempty : default [Null; Null; Null]
                     (tradeImages SampleSession.withGallery !! 1) !! 2%nat
                   = Some Null) by (vm_compute; reflexivity).
  split; [exact sample_gallery_session|]. split; [exact Hempty|].
  exact (X13_upload_then_remove_restores SampleSession.withGallery 1 2%nat
           "data:third" sample_gallery_session ltac:(lia) Hempty).
Defined.

Lemma X14_witness :
  session SampleSession.withGallery
  /\ removeImage 1 1
       (removeImage 1 0 (tradeImages SampleSession.withGallery))
     = removeImage 1 0
         (removeImage 1 1 (tradeImages SampleSession.withGallery)).
Proof.
  split; [exact sample_gallery_session|].
  exact (proj2 (X14_removals_are_idempotent_and_commute
                  SampleSession.withGallery 1 0%nat 1%nat
                  sample_gallery_session ltac:(lia) ltac:(lia))).
Defined.

Lemma X15_witness :
  isAscii "trades.csv" = true
  /\ isCSV (mkFile "" (toUpperCase "trades.csv") "")
     = isCSV (mkFile "" "trades.csv" "")
  /\ tradeList
       (handleCSVUpload Sample.host (Some (mkFile "image/png" "a.png" ""))
          SampleSession.imported)
     = tradeList SampleSession.imported.
Proof.
  destruct (X15_rejected_files_change_nothing Sample.host
              (Some (mkFile "image/png" "a.png" "")) SampleSession.imported)
    as (Hcase & _ & _ & Hframe).
  split; [reflexivity|].
  split; [exact (Hcase (mkFile "" "trades.csv" "") eq_refl)|].
  apply Hframe. intros f [= <-] Hcsv. discriminate Hcsv.
Defined.

Lemma sample_document :
  saved (handleExportPDF SampleSession.pdfHost false
           SampleSession.withGallery)
  = Some SampleSession.document.
Proof. vm_compute. reflexivity. Qed.

Lemma X16_witness :
  saved (handleExportPDF SampleSession.pdfHost false
           SampleSession.withGallery)
  = Some SampleSession.document
  /\ titles SampleSession.document = ["Trade #1: XAUUSD"]
  /\ pageCount SampleSession.document = 2%nat.
Proof.
  split; [exact sample_document|].
  destruct (X16_export_shows_the_trades_in_order SampleSession.pdfHost false
              SampleSession.withGallery SampleSession.document
              sample_document) as (Ht & _).
  split; [rewrite Ht; vm_compute; reflexivity|].
  vm_compute. reflexivity.
Defined.

Lemma X17_witness :
  saved (handleExportPDF SampleSession.pdfHost false
           SampleSession.withGallery)
  = Some SampleSession.document
  /\ length (pictures SampleSession.document) = 2%nat
  /\ Forall (wellPlaced SampleSession.pdfHost) SampleSession.document.
Proof.
  split; [exact sample_document|].
  split; [vm_compute; reflexivity|].
  exact (proj1 (X17_export_places_images_within_the_page
                  SampleSession.pdfHost false SampleSession.withGallery
                  SampleSession.document sample_document)).
Defined.

Lemma X18_witness :
  saved (handleExportPDF SampleSession.pdfHost true
           SampleSession.withGallery) = None
  /\ saved (handleExportPDF SampleSession.pdfHost false
              SampleSession.withGallery) <> None.
Proof.
  destruct (X18_export_guard_and_busy_flag SampleSession.pdfHost true
              SampleSession.withGallery) as (Hbusy & _).
  destruct (X18_export_guard_and_busy_flag SampleSession.pdfHost false
              SampleSession.withGallery) as (_ & Hrun).
  split; [exact (proj1 (Hbusy (or_intror eq_refl)))|].
  assert (Hne : tradeList SampleSession.withGallery <> [])
    by (vm_compute; discriminate).
  destruct (Hrun Hne eq_refl) as (_ & _ & _ & Hacc).
  apply Hacc. reflexivity.
Defined.

End ExtraWitnesses.
